(** * Order lifecycle and rider matching of the food-delivery backend

    A shallow embedding of [backend/src/routes/orders.js] and of the two
    rider-dispatch routes of [backend/src/routes/riders.js], together with the
    properties of the order lifecycle that the specification states.

    Conventions of the embedding.
    - A route handler is a function from the authenticated user, the request
      and the current contents of the store to a response and the new store.
      The store ([World]) holds the Prisma tables the handlers touch and the
      list of socket messages emitted so far.
    - A JavaScript number that carries money is an exact rational ([Q]); a
      number that carries a coordinate or a distance is a real ([R]).  The
      rounding error of IEEE double arithmetic is outside the model.
    - A [Date] is the integer number of milliseconds since the epoch ([Z]).
      Each request observes one clock reading, [now].
    - [null]/[undefined] is [None]; the truthiness tests of the source
      ([||], [&&], [!]) are written out with the functions of module [Js].
    - The authentication and role middleware in front of a handler is not
      among the sources; a handler is given the authenticated user. *)

From Stdlib Require Import Bool List String Ascii ZArith QArith Qround.
From Stdlib Require Import Sorted Permutation Lia Lra Reals.
Import ListNotations.

Local Open Scope string_scope.
Local Open Scope Z_scope.

(** ** JavaScript helpers *)

Module Js.

(** Truthiness of a nullable string: [null], [undefined] and the empty
    string are falsy. *)
Definition truthyStr (s : option string) : bool :=
    match s with
    | None => false
    | Some v => negb (String.eqb v "")
    end.

(** Truthiness of a nullable exact number: [null], [undefined] and [0] are
    falsy. *)
Definition truthyQ (q : option Q) : bool :=
    match q with
    | None => false
    | Some v => negb (Qeq_bool v 0)
    end.

(** [a || d] on a nullable string. *)
Definition orStr (a : option string) (d : string) : string :=
    match a with
    | Some v => if String.eqb v "" then d else v
    | None => d
    end.

(** [a || d] on a nullable number. *)
Definition orQ (a : option Q) (d : Q) : Q :=
    match a with
    | Some v => if Qeq_bool v 0 then d else v
    | None => d
    end.

(** [Math.round]: the nearest integer, a tie going to the larger one. *)
Definition round (x : Q) : Z := Qfloor (x + (1 # 2)).

(** [Math.floor (a / b)] on integers, for a positive [b]. *)
Definition floorDiv (a b : Z) : Z := a / b.

(** [xs.includes(x)] on strings. *)
Definition includes (xs : list string) (x : string) : bool :=
    existsb (String.eqb x) xs.

(** [a === b] between a nullable id and an id. *)
Definition sameId (a : option string) (b : string) : bool :=
    match a with
    | Some v => String.eqb v b
    | None => false
    end.

End Js.

(** ** Data model *)

(** The [user_role] enumeration of the database. *)
Module Role.
Inductive t := customer | restaurant | rider | admin.

Definition eqb (a b : t) : bool :=
  match a, b with
  | customer, customer | restaurant, restaurant
  | rider, rider | admin, admin => true
  | _, _ => false
  end.
End Role.

(** The [order_status] enumeration of the database. *)
Inductive OrderStatus :=
| pending | confirmed | preparing | ready | picked_up | delivered | cancelled.

Definition OrderStatus_eqb (a b : OrderStatus) : bool :=
  match a, b with
  | pending, pending | confirmed, confirmed | preparing, preparing
  | ready, ready | picked_up, picked_up | delivered, delivered
  | cancelled, cancelled => true
  | _, _ => false
  end.

(** The label of a status, as the requests and the tracking rows carry it. *)
Definition statusName (s : OrderStatus) : string :=
  match s with
  | pending => "pending"
  | confirmed => "confirmed"
  | preparing => "preparing"
  | ready => "ready"
  | picked_up => "picked_up"
  | delivered => "delivered"
  | cancelled => "cancelled"
  end.

Definition allStatuses : list OrderStatus :=
  [pending; confirmed; preparing; ready; picked_up; delivered; cancelled].

(** [validStatuses] of the status route. *)
Definition validStatuses : list string := map statusName allStatuses.

(** The enumeration value a valid label denotes. *)
Definition statusOfString (s : string) : option OrderStatus :=
  find (fun st => String.eqb s (statusName st)) allStatuses.

(** The authenticated caller, [req.user]. *)
Module User.
Record t := mk {
    id : string;
    role : Role.t;
    name : string;
    phone : string
  }.
End User.

Module Restaurant.
Record t := mk {
    id : string;
    userId : string;
    active : bool;          (* status === 'active' *)
    isOpen : bool;
    deliveryFee : option Q;
    minimumOrder : Q
  }.
End Restaurant.

Module Address.
Record t := mk {
    id : string;
    userId : string
  }.
End Address.

Module MenuItem.
Record t := mk {
    id : string;
    restaurantId : string;
    isAvailable : bool;
    price : Q
  }.
End MenuItem.

Module Rider.
Record t := mk {
    id : string;
    userId : string;
    isAvailable : bool
  }.
End Rider.

(** A line of the request body of the create route. *)
Module ItemRequest.
Record t := mk {
    menuItemId : string;
    quantity : Z;
    notes : option string
  }.
End ItemRequest.

(** A line of a persisted order, with the price captured at creation. *)
Module OrderItem.
Record t := mk {
    menuItemId : string;
    quantity : Z;
    price : Q;
    notes : option string
  }.
End OrderItem.

Module Order.
Record t := mk {
    id : string;
    orderNumber : string;
    customerId : string;
    restaurantId : string;
    addressId : string;
    paymentMethod : string;
    subtotal : Q;
    deliveryFee : Q;
    platformFee : Q;
    taxes : Q;
    total : Q;
    specialInstructions : option string;
    items : list OrderItem.t;
    status : OrderStatus;
    riderId : option string;
    createdAt : Z;
    confirmedAt : option Z;
    preparingAt : option Z;
    readyAt : option Z;
    pickedUpAt : option Z;
    deliveredAt : option Z;
    cancelledAt : option Z;
    actualTime : option Z;
    cancellationReason : option string
  }.
End Order.

(** The [data] argument of [prisma.order.update]: a field that is absent
    ([None]) is left as it is, a field that is present is overwritten. *)
Module OrderUpdate.
Record t := mk {
    status : option OrderStatus;
    riderId : option string;
    confirmedAt : option Z;
    preparingAt : option Z;
    readyAt : option Z;
    pickedUpAt : option Z;
    deliveredAt : option Z;
    cancelledAt : option Z;
    actualTime : option Z;
    cancellationReason : option string
  }.

End OrderUpdate.

Module OrderTracking.
Record t := mk {
    orderId : string;
    status : string;
    message : string;
    timestamp : Z
  }.
End OrderTracking.

(** A socket message, [io.to(topic).emit(event, payload)]: the room, the
    event, and the [orderId] property of the payload where the payload has
    one. *)
Module Emit.
Record t := mk {
    topic : string;
    event : string;
    orderId : option string
  }.
End Emit.

(** The JSON answer of a route. *)
Module Response.
Record t := mk {
    code : Z;
    success : bool;
    message : string;
    order : option Order.t
  }.

Definition fail (c : Z) (m : string) : t := mk c false m None.
Definition ok (c : Z) (m : string) (o : Order.t) : t := mk c true m (Some o).
End Response.

(** The store and the notification sink. *)
Record World := mkWorld {
  restaurants : list Restaurant.t;
  addresses : list Address.t;
  menuItems : list MenuItem.t;
  riders : list Rider.t;
  orders : list Order.t;
  tracking : list OrderTracking.t;
  emitted : list Emit.t
}.

(** ** The store: the Prisma calls the handlers make *)

Module Prisma.

Definition withOrders (os : list Order.t) (w : World) : World :=
  mkWorld (restaurants w) (addresses w) (menuItems w) (riders w)
          os (tracking w) (emitted w).

Definition withTracking (ts : list OrderTracking.t) (w : World) : World :=
  mkWorld (restaurants w) (addresses w) (menuItems w) (riders w)
          (orders w) ts (emitted w).

Definition withEmitted (es : list Emit.t) (w : World) : World :=
  mkWorld (restaurants w) (addresses w) (menuItems w) (riders w)
          (orders w) (tracking w) es.

(** [prisma.restaurant.findUnique({ where: { id } })] *)
Definition findRestaurant (id : string) (w : World) : option Restaurant.t :=
  find (fun r => String.eqb (Restaurant.id r) id) (restaurants w).

(** [prisma.address.findUnique({ where: { id } })] *)
Definition findAddress (id : string) (w : World) : option Address.t :=
  find (fun a => String.eqb (Address.id a) id) (addresses w).

(** [prisma.rider.findUnique({ where: { userId } })] *)
Definition findRider (userId : string) (w : World) : option Rider.t :=
  find (fun r => String.eqb (Rider.userId r) userId) (riders w).

(** [prisma.order.findUnique({ where: { id } })] *)
Definition findOrder (id : string) (w : World) : option Order.t :=
  find (fun o => String.eqb (Order.id o) id) (orders w).

(** [prisma.menuItem.findMany({ where: { id: { in: ids }, restaurantId,
    isAvailable: true } })] *)
Definition findMenuItems (ids : list string) (restaurantId : string)
    (w : World) : list MenuItem.t :=
  filter (fun mi => Js.includes ids (MenuItem.id mi)
                    && String.eqb (MenuItem.restaurantId mi) restaurantId
                    && MenuItem.isAvailable mi)
         (menuItems w).

Definition pick {A} (new : option A) (old : A) : A :=
  match new with Some v => v | None => old end.

Definition pickOpt {A} (new old : option A) : option A :=
  match new with Some v => Some v | None => old end.

(** The row after [data] has been written over it. *)
Definition applyUpdate (d : OrderUpdate.t) (o : Order.t) : Order.t :=
  Order.mk (Order.id o) (Order.orderNumber o) (Order.customerId o)
    (Order.restaurantId o) (Order.addressId o) (Order.paymentMethod o)
    (Order.subtotal o) (Order.deliveryFee o) (Order.platformFee o)
    (Order.taxes o) (Order.total o) (Order.specialInstructions o)
    (Order.items o)
    (pick (OrderUpdate.status d) (Order.status o))
    (pickOpt (OrderUpdate.riderId d) (Order.riderId o))
    (Order.createdAt o)
    (pickOpt (OrderUpdate.confirmedAt d) (Order.confirmedAt o))
    (pickOpt (OrderUpdate.preparingAt d) (Order.preparingAt o))
    (pickOpt (OrderUpdate.readyAt d) (Order.readyAt o))
    (pickOpt (OrderUpdate.pickedUpAt d) (Order.pickedUpAt o))
    (pickOpt (OrderUpdate.deliveredAt d) (Order.deliveredAt o))
    (pickOpt (OrderUpdate.cancelledAt d) (Order.cancelledAt o))
    (pickOpt (OrderUpdate.actualTime d) (Order.actualTime o))
    (pickOpt (OrderUpdate.cancellationReason d) (Order.cancellationReason o)).

(** [prisma.order.update({ where: { id }, data })]: an unconditional write
    of [data] over the row with this id. *)
Definition orderUpdate (id : string) (d : OrderUpdate.t) (w : World) : World :=
  withOrders
    (map (fun o => if String.eqb (Order.id o) id then applyUpdate d o else o)
         (orders w))
    w.

(** [prisma.order.create({ data })] *)
Definition orderCreate (o : Order.t) (w : World) : World :=
  withOrders (orders w ++ [o]) w.

(** [prisma.orderTracking.create({ data: { orderId, status, message } })].
    Modelled from the spec: the table declaration that gives [timestamp]
    its default is not among the sources; the specification makes it the
    server time at which the row is written.  The routes pass no time, so
    the stamp [now] is a parameter here; what the specification says of it
    is [serverTime], below. *)
Definition orderTrackingCreate (orderId status message : string) (now : Z)
    (w : World) : World :=
  withTracking
    (tracking w ++ [OrderTracking.mk orderId status message now]) w.

(** [prisma.orderTracking.findMany({ where: { orderId } })], in the order
    the rows were written. *)
Definition trackingOf (orderId : string) (w : World) : list OrderTracking.t :=
  filter (fun t => String.eqb (OrderTracking.orderId t) orderId) (tracking w).

(** [io.to(topic).emit(event, { orderId, ... })] *)
Definition emit (topic event orderId : string) (w : World) : World :=
  withEmitted (emitted w ++ [Emit.mk topic event (Some orderId)]) w.

(** [io.to(topic).emit(event, payload)] with a payload that has no
    [orderId] property. *)
Definition emitBare (topic event : string) (w : World) : World :=
  withEmitted (emitted w ++ [Emit.mk topic event None]) w.

End Prisma.

(** ** [routes/orders.js] *)

Module Orders.

Import Prisma.

Module Totals.
Record t := mk {
    subtotal : Q;
    deliveryFee : Q;
    platformFee : Q;
    taxes : Q;
    total : Q
  }.
End Totals.

(** [items.reduce((sum, item) => sum + (item.price * item.quantity), 0)] *)
Definition sumItems (items : list OrderItem.t) : Q :=
  fold_left
    (fun sum item =>
       (sum + OrderItem.price item * inject_Z (OrderItem.quantity item))%Q)
    items 0%Q.

(** [calculateOrderTotals (items, restaurant)], in exact rationals where
    the source computes in IEEE doubles. *)
Definition calculateOrderTotals (items : list OrderItem.t)
    (restaurant : Restaurant.t) : Totals.t :=
  let subtotal := sumItems items in
  let deliveryFee := Js.orQ (Restaurant.deliveryFee restaurant) 40%Q in
  let platformFee := inject_Z (Js.round (subtotal * (2 # 100))) in
  let taxes := inject_Z (Js.round (subtotal * (5 # 100))) in
  let total := (subtotal + deliveryFee + platformFee + taxes)%Q in
  Totals.mk subtotal deliveryFee platformFee taxes total.

(** The part of [schemas.order] that concerns the lines of the order: at
    least one line, every quantity at least 1. *)
Definition validItems (items : list ItemRequest.t) : bool :=
  negb (Nat.eqb (List.length items) 0)
  && forallb (fun it => 1 <=? ItemRequest.quantity it) items.

(** [items.map(item => { const menuItem = menuItems.find(...); ... })];
    [None] when a line has no menu item among the ones found, where the
    source reads a property of [undefined] and throws. *)
Fixpoint prepareItems (found : list MenuItem.t) (items : list ItemRequest.t)
    : option (list OrderItem.t) :=
  match items with
  | [] => Some []
  | item :: rest =>
      match find (fun mi => String.eqb (MenuItem.id mi)
                                       (ItemRequest.menuItemId item)) found,
            prepareItems found rest with
      | Some menuItem, Some tl =>
          Some (OrderItem.mk (ItemRequest.menuItemId item)
                             (ItemRequest.quantity item)
                             (MenuItem.price menuItem)
                             (ItemRequest.notes item) :: tl)
      | _, _ => None
      end
  end.

(** The row [prisma.order.create] writes.
    Modelled from the spec: the table declaration with the defaults of the
    columns the handler does not supply is not among the sources; by the
    specification a new order is [pending], carries no rider and no
    lifecycle timestamp, and is created at the server time [now].
    [newId] and [orderNumber] are the identifier the store draws and the
    value of [generateOrderNumber()]. *)
Definition newOrder (newId orderNumber customerId restaurantId addressId
    paymentMethod : string) (specialInstructions : option string)
    (tot : Totals.t) (orderItems : list OrderItem.t) (now : Z) : Order.t :=
  Order.mk newId orderNumber customerId restaurantId addressId paymentMethod
    (Totals.subtotal tot) (Totals.deliveryFee tot) (Totals.platformFee tot)
    (Totals.taxes tot) (Totals.total tot) specialInstructions orderItems
    pending None now None None None None None None None None.

(** [router.post('/')]: create an order.  The first test is the part of
    [validate(schemas.order)] that concerns the lines.  The answer for an
    order below the minimum leaves the amount out of its message; the
    estimated delivery time and the relations included in the answer are
    not modelled. *)
Definition createOrder (user : User.t) (restaurantId addressId : string)
    (items : list ItemRequest.t) (paymentMethod : string)
    (specialInstructions : option string) (newId orderNumber : string)
    (now : Z) (w : World) : Response.t * World :=
  if negb (validItems items) then
    (Response.fail 400 "Validation error", w)
  else
  match findRestaurant restaurantId w with
  | None => (Response.fail 400 "Restaurant is not available for orders", w)
  | Some restaurant =>
    if negb (Restaurant.active restaurant)
       || negb (Restaurant.isOpen restaurant) then
      (Response.fail 400 "Restaurant is not available for orders", w)
    else
    match findAddress addressId w with
    | None => (Response.fail 400 "Invalid delivery address", w)
    | Some address =>
      if negb (String.eqb (Address.userId address) (User.id user)) then
        (Response.fail 400 "Invalid delivery address", w)
      else
      let menuItemIds := map ItemRequest.menuItemId items in
      let found := findMenuItems menuItemIds restaurantId w in
      if negb (Nat.eqb (List.length found) (List.length items)) then
        (Response.fail 400 "Some menu items are not available", w)
      else
      match prepareItems found items with
      | None => (Response.fail 500 "Internal server error", w)
      | Some orderItems =>
        let tot := calculateOrderTotals orderItems restaurant in
        if negb (Qle_bool (Restaurant.minimumOrder restaurant)
                          (Totals.subtotal tot)) then
          (Response.fail 400 "Minimum order value not reached", w)
        else
        let order := newOrder newId orderNumber (User.id user) restaurantId
                       addressId paymentMethod specialInstructions tot
                       orderItems now in
        let w1 := orderCreate order w in
        let w2 := orderTrackingCreate (Order.id order) "pending"
                    "Order placed successfully" now w1 in
        let w3 := emit ("restaurant_" ++ restaurantId) "new_order"
                    (Order.id order) w2 in
        (Response.ok 201 "Order placed successfully" order, w3)
      end
    end
  end.

(** The authorization test of the status route.  [owner] is
    [order.restaurant.userId]. *)
Definition isAuthorized (user : User.t) (order : Order.t) (owner : string)
    (status : string) : bool :=
  if Role.eqb (User.role user) Role.restaurant
     && String.eqb owner (User.id user) then
    Js.includes ["confirmed"; "preparing"; "ready"; "cancelled"] status
  else if Role.eqb (User.role user) Role.rider
          && Js.sameId (Order.riderId order) (User.id user) then
    Js.includes ["picked_up"; "delivered"] status
  else if Role.eqb (User.role user) Role.admin then
    true
  else
    false.

(** [updateData]: the new status and the [switch] over it. *)
Definition updateData (order : Order.t) (status : OrderStatus) (now : Z)
    : OrderUpdate.t :=
  match status with
  | pending =>
      OrderUpdate.mk (Some status) None None None None None None None None None
  | confirmed =>
      OrderUpdate.mk (Some status) None (Some now) None None None None None
                     None None
  | preparing =>
      OrderUpdate.mk (Some status) None None (Some now) None None None None
                     None None
  | ready =>
      OrderUpdate.mk (Some status) None None None (Some now) None None None
                     None None
  | picked_up =>
      OrderUpdate.mk (Some status) None None None None (Some now) None None
                     None None
  | delivered =>
      OrderUpdate.mk (Some status) None None None None None (Some now) None
        (Some (Js.floorDiv (now - Order.createdAt order) (1000 * 60))) None
  | cancelled =>
      OrderUpdate.mk (Some status) None None None None None None (Some now)
                     None None
  end.

(** [router.patch('/:id/status')]: update the status of an order.  The
    order is read with its restaurant; the schema has no order without
    one, and the handler's [catch] answers 500 if the store returns none. *)
Definition updateOrderStatus (user : User.t) (id : string) (status : string)
    (message : option string) (now : Z) (w : World) : Response.t * World :=
  if negb (Js.includes validStatuses status) then
    (Response.fail 400 "Invalid status", w)
  else
  match findOrder id w with
  | None => (Response.fail 404 "Order not found", w)
  | Some order =>
    match findRestaurant (Order.restaurantId order) w,
          statusOfString status with
    | Some restaurant, Some st =>
      if negb (isAuthorized user order (Restaurant.userId restaurant) status)
      then
        (Response.fail 403 "Not authorized to update this order status", w)
      else
      let data := updateData order st now in
      let w1 := orderUpdate id data w in
      let updatedOrder := applyUpdate data order in
      let w2 := orderTrackingCreate id status
                  (Js.orStr message ("Order " ++ status)) now w1 in
      let w3 := emit ("user_" ++ Order.customerId order)
                  "order_status_update" id w2 in
      let w4 := emitBare ("order_" ++ id) "status_update" w3 in
      (Response.ok 200 "Order status updated successfully" updatedOrder, w4)
    | _, _ => (Response.fail 500 "Internal server error", w)
    end
  end.

(** [(new Date() - order.createdAt) / (1000 * 60)], in minutes. *)
Definition timeDiff (now createdAt : Z) : Q :=
  (inject_Z (now - createdAt) / inject_Z (1000 * 60))%Q.

(** [router.patch('/:id/cancel')]: cancellation by the customer. *)
Definition cancelOrder (user : User.t) (id : string) (reason : option string)
    (now : Z) (w : World) : Response.t * World :=
  match findOrder id w with
  | None => (Response.fail 404 "Order not found", w)
  | Some order =>
    if negb (String.eqb (Order.customerId order) (User.id user)) then
      (Response.fail 403 "Not authorized to cancel this order", w)
    else if negb (Js.includes ["pending"; "confirmed"]
                    (statusName (Order.status order))) then
      (Response.fail 400 "Order cannot be cancelled at this stage", w)
    else if negb (Qle_bool (timeDiff now (Order.createdAt order)) 5)
            && OrderStatus_eqb (Order.status order) confirmed then
      (Response.fail 400
         "Order cannot be cancelled after 5 minutes of confirmation", w)
    else
    let data := OrderUpdate.mk (Some cancelled) None None None None None None
                  (Some now) None reason in
    let w1 := orderUpdate id data w in
    let updatedOrder := applyUpdate data order in
    let w2 := orderTrackingCreate id "cancelled"
                ("Order cancelled by customer. Reason: "
                   ++ Js.orStr reason "No reason provided") now w1 in
    let w3 := emit ("restaurant_" ++ Order.restaurantId order)
                "order_cancelled" id w2 in
    (Response.ok 200 "Order cancelled successfully" updatedOrder, w3)
  end.

End Orders.

(** ** [routes/riders.js] *)

Module Riders.

Import Prisma.

(** [data: { riderId: rider.id }] *)
Definition claimData (rider : Rider.t) : OrderUpdate.t :=
  OrderUpdate.mk None (Some (Rider.id rider)) None None None None None None
                 None None.

(** [router.post('/accept-order/:orderId')]: a rider claims an order. *)
Definition acceptOrder (user : User.t) (orderId : string) (now : Z)
    (w : World) : Response.t * World :=
  match findRider (User.id user) w with
  | None => (Response.fail 404 "Rider profile not found", w)
  | Some rider =>
    if negb (Rider.isAvailable rider) then
      (Response.fail 400 "Rider is not available", w)
    else
    match findOrder orderId w with
    | None => (Response.fail 404 "Order not found", w)
    | Some order =>
      if negb (OrderStatus_eqb (Order.status order) ready) then
        (Response.fail 400 "Order is not ready for pickup", w)
      else if Js.truthyStr (Order.riderId order) then
        (Response.fail 400
           "Order has already been accepted by another rider", w)
      else
      let w1 := orderUpdate orderId (claimData rider) w in
      let updatedOrder := applyUpdate (claimData rider) order in
      let w2 := orderTrackingCreate orderId "ready"
                  ("Order accepted by rider " ++ User.name user) now w1 in
      let w3 := emit ("user_" ++ Order.customerId order) "rider_assigned"
                  orderId w2 in
      let w4 := emit ("restaurant_" ++ Order.restaurantId order)
                  "rider_assigned" orderId w3 in
      (Response.ok 200 "Order accepted successfully" updatedOrder, w4)
    end
  end.

(** *** The accept handler, one store call at a time

    The handler is an [async] function: it gives up control at each [await]
    and at no other point.  A step below is one store call together with the
    synchronous code that follows it, up to the next [await]. *)

Inductive AcceptPc :=
| AtStart
    (* about to read the rider profile *)
| HaveRider (rider : Rider.t)
    (* the rider checks passed; about to read the order *)
| HaveOrder (rider : Rider.t) (order : Order.t)
    (* the order checks passed; about to write the claim *)
| Claimed (order updatedOrder : Order.t)
    (* the claim is written; about to write the tracking row *)
| Finished (res : Response.t).

Definition acceptStep (user : User.t) (orderId : string) (now : Z)
    (pc : AcceptPc) (w : World) : AcceptPc * World :=
  match pc with
  | AtStart =>
      match findRider (User.id user) w with
      | None => (Finished (Response.fail 404 "Rider profile not found"), w)
      | Some rider =>
          if negb (Rider.isAvailable rider) then
            (Finished (Response.fail 400 "Rider is not available"), w)
          else (HaveRider rider, w)
      end
  | HaveRider rider =>
      match findOrder orderId w with
      | None => (Finished (Response.fail 404 "Order not found"), w)
      | Some order =>
          if negb (OrderStatus_eqb (Order.status order) ready) then
            (Finished (Response.fail 400 "Order is not ready for pickup"), w)
          else if Js.truthyStr (Order.riderId order) then
            (Finished
               (Response.fail 400
                  "Order has already been accepted by another rider"), w)
          else (HaveOrder rider order, w)
      end
  | HaveOrder rider order =>
      match findOrder orderId w with
      | None => (Finished (Response.fail 500 "Internal server error"), w)
      | Some current =>
          (Claimed order (applyUpdate (claimData rider) current),
           orderUpdate orderId (claimData rider) w)
      end
  | Claimed order updatedOrder =>
      let w2 := orderTrackingCreate orderId "ready"
                  ("Order accepted by rider " ++ User.name user) now w in
      let w3 := emit ("user_" ++ Order.customerId order) "rider_assigned"
                  orderId w2 in
      let w4 := emit ("restaurant_" ++ Order.restaurantId order)
                  "rider_assigned" orderId w3 in
      (Finished (Response.ok 200 "Order accepted successfully" updatedOrder),
       w4)
  | Finished res => (Finished res, w)
  end.

(** A request run alone: its four store calls in a row. *)
Definition acceptRun (user : User.t) (orderId : string) (now : Z)
    (w : World) : AcceptPc * World :=
  let '(pc1, w1) := acceptStep user orderId now AtStart w in
  let '(pc2, w2) := acceptStep user orderId now pc1 w1 in
  let '(pc3, w3) := acceptStep user orderId now pc2 w2 in
  acceptStep user orderId now pc3 w3.

(** Two accept requests in flight on one store. *)
Inductive Turn := First | Second.

Record Race := mkRace {
  pcFirst : AcceptPc;
  pcSecond : AcceptPc;
  store : World
}.

Definition raceStep (u1 u2 : User.t) (orderId : string) (now : Z)
    (t : Turn) (s : Race) : Race :=
  match t with
  | First =>
      let '(pc, w) := acceptStep u1 orderId now (pcFirst s) (store s) in
      mkRace pc (pcSecond s) w
  | Second =>
      let '(pc, w) := acceptStep u2 orderId now (pcSecond s) (store s) in
      mkRace (pcFirst s) pc w
  end.

(** The two requests under a schedule: which of them makes the next store
    call. *)
Definition race (u1 u2 : User.t) (orderId : string) (now : Z)
    (schedule : list Turn) (w : World) : Race :=
  fold_left (fun s t => raceStep u1 u2 orderId now t s) schedule
            (mkRace AtStart AtStart w).

Definition succeeded (pc : AcceptPc) : bool :=
  match pc with
  | Finished res => Response.code res =? 200
  | _ => false
  end.

Definition conflicted (pc : AcceptPc) : bool :=
  match pc with
  | Finished res =>
      (Response.code res =? 400)
      && String.eqb (Response.message res)
           "Order has already been accepted by another rider"
  | _ => false
  end.

(** *** Orders available for pickup *)

(** The coordinates of a restaurant, as the query selects them. *)
Module Location.
Record t := mk {
    latitude : option R;
    longitude : option R
  }.
End Location.

Module ListResponse.
Record t := mk {
    code : Z;
    success : bool;
    message : string;
    orders : list Order.t
  }.
End ListResponse.

(** [!x] on a nullable coordinate: [null] and [0] are falsy. *)
Definition falsyR (x : option R) : bool :=
  match x with
  | None => true
  | Some v => if Req_EM_T v 0%R then true else false
  end.

(** [Math.atan2 (y, x)] *)
Definition atan2 (y x : R) : R :=
  if Rlt_dec 0 x then atan (y / x)
  else if Rlt_dec x 0 then
    if Rle_dec 0 y then (atan (y / x) + PI)%R else (atan (y / x) - PI)%R
  else if Rlt_dec 0 y then (PI / 2)%R
  else if Rlt_dec y 0 then (- PI / 2)%R
  else 0%R.

(** The distance the filter computes between the rider and a restaurant. *)
Definition distance (riderLat riderLng lat lng : R) : R :=
  let R := 6371%R in
  let dLat := ((lat - riderLat) * PI / 180)%R in
  let dLng := ((lng - riderLng) * PI / 180)%R in
  let a := (sin (dLat / 2) * sin (dLat / 2)
            + cos (riderLat * PI / 180) * cos (lat * PI / 180)
              * sin (dLng / 2) * sin (dLng / 2))%R in
  let c := (2 * atan2 (sqrt a) (sqrt (1 - a)))%R in
  (R * c)%R.

(** The callback of [orders.filter]. *)
Definition withinRadius (riderLat riderLng maxRadius : R) (loc : Location.t)
    : bool :=
  if falsyR (Location.latitude loc) || falsyR (Location.longitude loc) then
    true
  else
    match Location.latitude loc, Location.longitude loc with
    | Some lat, Some lng =>
        if Rle_dec (distance riderLat riderLng lat lng) maxRadius
        then true else false
    | _, _ => true
    end.

(** [orderBy: { readyAt: 'asc' }]: ascending, rows without a value last. *)
Definition readyAtLe (a b : Order.t) : bool :=
  match Order.readyAt a, Order.readyAt b with
  | Some x, Some y => x <=? y
  | Some _, None => true
  | None, Some _ => false
  | None, None => true
  end.

Fixpoint insertByReadyAt (o : Order.t) (l : list Order.t) : list Order.t :=
  match l with
  | [] => [o]
  | x :: rest =>
      if readyAtLe o x then o :: l else x :: insertByReadyAt o rest
  end.

Definition sortByReadyAt (l : list Order.t) : list Order.t :=
  fold_right insertByReadyAt [] l.

(** [where: { status: 'ready', riderId: null }] *)
Definition readyUnassigned (o : Order.t) : bool :=
  OrderStatus_eqb (Order.status o) ready
  && match Order.riderId o with None => true | Some _ => false end.

(** [prisma.order.findMany({ where: { status: 'ready', riderId: null },
    orderBy: { readyAt: 'asc' }, take: 20 })] *)
Definition findReadyOrders (w : World) : list Order.t :=
  firstn 20 (sortByReadyAt (filter readyUnassigned (orders w))).

(** [router.get('/available-orders')].  [latitude], [longitude] and
    [radius] are the query parameters after [parseFloat]; [None] stands for
    a parameter that is absent or empty.  [geo] gives the coordinates of the
    restaurant of an order. *)
Definition availableOrders (user : User.t) (latitude longitude radius : option R)
    (geo : string -> Location.t) (w : World) : ListResponse.t :=
  match findRider (User.id user) w with
  | None => ListResponse.mk 404 false "Rider profile not found" []
  | Some rider =>
    if negb (Rider.isAvailable rider) then
      ListResponse.mk 400 false "Rider is not available" []
    else
    let orders := findReadyOrders w in
    let filteredOrders :=
      match latitude, longitude with
      | Some riderLat, Some riderLng =>
          let maxRadius := match radius with Some r => r | None => 10%R end in
          filter (fun order =>
                    withinRadius riderLat riderLng maxRadius
                                 (geo (Order.restaurantId order)))
                 orders
      | _, _ => orders
      end in
    ListResponse.mk 200 true "" filteredOrders
  end.

End Riders.

(** ** Text helpers of the runtime *)

Module Text.

(** The character of a decimal digit. *)
Definition digit (d : Z) : ascii := ascii_of_nat (48 + Z.to_nat d).

(** The decimal digits of a number that is not negative, the last one
    first.  [fuel] bounds the number of digits. *)
Fixpoint digitsRev (fuel : nat) (n : Z) : list ascii :=
  match fuel with
  | O => []
  | S f =>
      if n <? 10 then [digit n]
      else digit (n mod 10) :: digitsRev f (n / 10)
  end.

(** The decimal digits of a number that is not negative, the first one
    first; a number has no more decimal digits than binary ones. *)
Definition digits (n : Z) : list ascii :=
  rev (digitsRev (S (Z.to_nat (Z.log2 n))) n).

(** [n.toString()] on an integer of less than 22 digits, which is written
    without an exponent. *)
Definition toString (n : Z) : string :=
  if n <? 0 then String "-" (string_of_list_ascii (digits (- n)))
  else string_of_list_ascii (digits n).

(** [s.slice(-k)]: the last [k] characters, or all of [s] when it has
    fewer. *)
Definition sliceLast (k : nat) (s : string) : string :=
  let l := list_ascii_of_string s in
  string_of_list_ascii (skipn (List.length l - k) l).

(** [s.padStart(k, c)] for a one-character filler. *)
Definition padStart (k : nat) (c : ascii) (s : string) : string :=
  string_of_list_ascii (repeat c (k - String.length s)) ++ s.

End Text.

(** ** [routes/orders.js]: the order number and the read routes *)

Module OrderViews.

Import Prisma.

(** [generateOrderNumber()].  [now] is [Date.now()] and [random] is
    [Math.random()]. *)
Definition generateOrderNumber (now : Z) (random : Q) : string :=
  let timestamp := Text.toString now in
  let random :=
    Text.padStart 3 "0" (Text.toString (Qfloor (random * 1000))) in
  "FF" ++ Text.sliceLast 6 timestamp ++ random.

(** The answer of a route that lists orders by page. *)
Module PageResponse.
Record t := mk {
    code : Z;
    success : bool;
    message : string;
    orders : list Order.t;
    page : Z;
    limit : Z;
    total : Z;
    pages : option Z
  }.

Definition fail (c : Z) (m : string) : t := mk c false m [] 0 0 0 None.
End PageResponse.

(** The [skip] and [take] arguments of [findMany] on the rows that match,
    in their order.  A negative [skip] is refused by the client ([None]); a
    negative [take] counts from the end of the rows. *)
Definition window {A : Type} (skip take : Z) (rows : list A)
    : option (list A) :=
  if skip <? 0 then None
  else if 0 <=? take then
    Some (firstn (Z.to_nat take) (skipn (Z.to_nat skip) rows))
  else
    Some (rev (firstn (Z.to_nat (- take))
                      (skipn (Z.to_nat skip) (rev rows)))).

(** [orderBy: { createdAt: 'desc' }] *)
Fixpoint insertByCreatedAt (o : Order.t) (l : list Order.t) : list Order.t :=
  match l with
  | [] => [o]
  | x :: rest =>
      if Order.createdAt x <=? Order.createdAt o then o :: l
      else x :: insertByCreatedAt o rest
  end.

Definition sortByCreatedAtDesc (l : list Order.t) : list Order.t :=
  fold_right insertByCreatedAt [] l.

(** [if (status) where.status = status]: the test the filter adds to
    [where]; [None] for a label that is no value of the enumeration, which
    the client refuses. *)
Definition statusFilter (status : option string)
    : option (Order.t -> bool) :=
  if Js.truthyStr status then
    match status with
    | Some s =>
        match statusOfString s with
        | Some st => Some (fun o => OrderStatus_eqb (Order.status o) st)
        | None => None
        end
    | None => Some (fun _ => true)
    end
  else Some (fun _ => true).

(** [Math.ceil(total / limit)]; [None] for the value that is no number or
    not finite, when [limit] is zero. *)
Definition pagesOf (total limit : Z) : option Z :=
  if limit =? 0 then None else Some (- ((- total) / limit)).

(** The two store calls of a listing route, [findMany] and [count] on one
    [where], and the answer built from them.  [page] and [limit] are the
    query parameters after [parseInt]. *)
Definition listOrders (where_ : Order.t -> bool) (page limit : Z)
    (w : World) : PageResponse.t :=
  let skip := (page - 1) * limit in
  let take := limit in
  let rows := filter where_ (orders w) in
  match window skip take (sortByCreatedAtDesc rows) with
  | None => PageResponse.fail 500 "Internal server error"
  | Some os =>
      PageResponse.mk 200 true "" os page limit
        (Z.of_nat (List.length rows))
        (pagesOf (Z.of_nat (List.length rows)) limit)
  end.

(** [router.get('/my-orders')]: the orders of the calling customer. *)
Definition myOrders (user : User.t) (page limit : Z) (status : option string)
    (w : World) : PageResponse.t :=
  match statusFilter status with
  | None => PageResponse.fail 500 "Internal server error"
  | Some f =>
      listOrders
        (fun o => String.eqb (Order.customerId o) (User.id user) && f o)
        page limit w
  end.

(** [prisma.restaurant.findUnique({ where: { userId } })] *)
Definition findRestaurantOf (userId : string) (w : World)
    : option Restaurant.t :=
  find (fun r => String.eqb (Restaurant.userId r) userId) (restaurants w).

(** [router.get('/restaurant-orders')]: the orders of the caller's
    restaurant.  [date] is the time [new Date(date)] denotes, when the
    parameter is given.  [nextDay] is [endDate.setDate(endDate.getDate() +
    1)]: the same time of day one calendar day later in the time zone of
    the server, which is 23, 24 or 25 hours later; the zone is a setting of
    the server and not among the sources. *)
Definition restaurantOrders (user : User.t) (page limit : Z)
    (status : option string) (date : option Z) (nextDay : Z -> Z)
    (w : World) : PageResponse.t :=
  match findRestaurantOf (User.id user) w with
  | None => PageResponse.fail 404 "Restaurant not found"
  | Some restaurant =>
    match statusFilter status with
    | None => PageResponse.fail 500 "Internal server error"
    | Some f =>
        let inDay o :=
          match date with
          | Some startDate =>
              let endDate := nextDay startDate in
              (startDate <=? Order.createdAt o)
              && (Order.createdAt o <? endDate)
          | None => true
          end in
        listOrders
          (fun o => String.eqb (Order.restaurantId o)
                               (Restaurant.id restaurant)
                    && f o && inDay o)
          page limit w
    end
  end.

(** The answer of the tracking route. *)
Module TrackingResponse.
Record t := mk {
    code : Z;
    success : bool;
    message : string;
    tracking : list OrderTracking.t
  }.

Definition fail (c : Z) (m : string) : t := mk c false m [].
End TrackingResponse.

(** [orderBy: { timestamp: 'asc' }] *)
Fixpoint insertByTimestamp (e : OrderTracking.t) (l : list OrderTracking.t)
    : list OrderTracking.t :=
  match l with
  | [] => [e]
  | x :: rest =>
      if OrderTracking.timestamp e <=? OrderTracking.timestamp x then e :: l
      else x :: insertByTimestamp e rest
  end.

Definition sortByTimestamp (l : list OrderTracking.t)
    : list OrderTracking.t :=
  fold_right insertByTimestamp [] l.

(** The authorization test of the tracking route.  [owner] is
    [order.restaurant.userId]. *)
Definition mayView (user : User.t) (order : Order.t) (owner : string)
    : bool :=
  let isCustomer :=
    Role.eqb (User.role user) Role.customer
    && String.eqb (Order.customerId order) (User.id user) in
  let isRestaurant :=
    Role.eqb (User.role user) Role.restaurant
    && String.eqb owner (User.id user) in
  let isRider :=
    Role.eqb (User.role user) Role.rider
    && Js.sameId (Order.riderId order) (User.id user) in
  let isAdmin := Role.eqb (User.role user) Role.admin in
  negb (negb isCustomer && negb isRestaurant && negb isRider && negb isAdmin).

(** [router.get('/:id/tracking')]: the tracking log of an order.  The order
    is read with its restaurant; the schema has no order without one, and
    the handler's [catch] answers 500 if the store returns none. *)
Definition getOrderTracking (user : User.t) (id : string) (w : World)
    : TrackingResponse.t :=
  match findOrder id w with
  | None => TrackingResponse.fail 404 "Order not found"
  | Some order =>
    match findRestaurant (Order.restaurantId order) w with
    | None => TrackingResponse.fail 500 "Internal server error"
    | Some restaurant =>
      if negb (mayView user order (Restaurant.userId restaurant)) then
        TrackingResponse.fail 403
          "Not authorized to view this order tracking"
      else
        TrackingResponse.mk 200 true "" (sortByTimestamp (trackingOf id w))
    end
  end.

End OrderViews.

(** ** [routes/riders.js]: the profile routes, the rider's orders and the
    statistics *)

Module RiderProfiles.

Import Prisma.

Definition withRiders (rs : list Rider.t) (w : World) : World :=
  mkWorld (restaurants w) (addresses w) (menuItems w) rs
          (orders w) (tracking w) (emitted w).

(** The answer of a profile route. *)
Module RiderResponse.
Record t := mk {
    code : Z;
    success : bool;
    message : string;
    rider : option Rider.t
  }.

Definition fail (c : Z) (m : string) : t := mk c false m None.
End RiderResponse.

(** [router.post('/')]: create the rider profile of the caller.  [newId]
    is the identifier the store draws and [available] the value the table
    gives [isAvailable] when the body does not; the vehicle and bank fields
    of the body are carried by the row and read by no route. *)
Definition createRider (user : User.t) (newId : string) (available : bool)
    (w : World) : RiderResponse.t * World :=
  match findRider (User.id user) w with
  | Some existingRider =>
      (RiderResponse.fail 400 "Rider profile already exists", w)
  | None =>
      let rider := Rider.mk newId (User.id user) available in
      (RiderResponse.mk 201 true "Rider profile created successfully"
         (Some rider),
       withRiders (riders w ++ [rider]) w)
  end.

(** [router.get('/profile')] *)
Definition getProfile (user : User.t) (w : World) : RiderResponse.t :=
  match findRider (User.id user) w with
  | None => RiderResponse.fail 404 "Rider profile not found"
  | Some rider => RiderResponse.mk 200 true "" (Some rider)
  end.

(** [prisma.rider.update({ where: { userId }, data: { isAvailable } })] *)
Definition riderSetAvailable (userId : string) (available : bool) (w : World)
    : World :=
  withRiders
    (map (fun r => if String.eqb (Rider.userId r) userId
                   then Rider.mk (Rider.id r) (Rider.userId r) available
                   else r)
         (riders w))
    w.

(** [router.patch('/toggle-availability')] *)
Definition toggleAvailability (user : User.t) (w : World)
    : RiderResponse.t * World :=
  match findRider (User.id user) w with
  | None => (RiderResponse.fail 404 "Rider profile not found", w)
  | Some existingRider =>
      let w1 := riderSetAvailable (User.id user)
                  (negb (Rider.isAvailable existingRider)) w in
      let rider := Rider.mk (Rider.id existingRider)
                     (Rider.userId existingRider)
                     (negb (Rider.isAvailable existingRider)) in
      (RiderResponse.mk 200 true
         ("Rider is now "
            ++ (if Rider.isAvailable rider then "available"
                else "unavailable"))
         (Some rider),
       w1)
  end.

(** [router.get('/orders')]: the orders whose [riderId] is the id of the
    calling user. *)
Definition riderOrders (user : User.t) (page limit : Z)
    (status : option string) (w : World) : OrderViews.PageResponse.t :=
  match OrderViews.statusFilter status with
  | None => OrderViews.PageResponse.fail 500 "Internal server error"
  | Some f =>
      OrderViews.listOrders
        (fun o => Js.sameId (Order.riderId o) (User.id user) && f o)
        page limit w
  end.

(** The answer of the statistics route. *)
Module Stats.
Record t := mk {
    code : Z;
    success : bool;
    totalDeliveries : Z;
    completedDeliveries : Z;
    totalEarnings : Q;
    avgDeliveryTime : Q
  }.

Definition fail (c : Z) : t := mk c false 0 0 0%Q 0%Q.
End Stats.

(** The [switch] over [period], in milliseconds before [now]. *)
Definition startDate (period : option string) (now : Z) : Z :=
  match period with
  | Some "1d" => now - 24 * 60 * 60 * 1000
  | Some "7d" => now - 7 * 24 * 60 * 60 * 1000
  | Some "30d" => now - 30 * 24 * 60 * 60 * 1000
  | _ => now - 7 * 24 * 60 * 60 * 1000
  end.

(** [_sum] of an aggregate: [null] over no row. *)
Definition sumOf (xs : list Q) : option Q :=
  match xs with
  | [] => None
  | _ => Some (fold_left Qplus xs 0%Q)
  end.

(** [_avg] of an aggregate: [null] over no row. *)
Definition avgOf (xs : list Z) : option Q :=
  match xs with
  | [] => None
  | _ => Some (inject_Z (fold_left Z.add xs 0%Z)
               / inject_Z (Z.of_nat (List.length xs)))%Q
  end.

(** [where: { riderId: rider.id, createdAt: { gte: startDate } }] *)
Definition assignedSince (rider : Rider.t) (start : Z) (o : Order.t) : bool :=
  Js.sameId (Order.riderId o) (Rider.id rider)
  && (start <=? Order.createdAt o).

Definition isDelivered (o : Order.t) : bool :=
  OrderStatus_eqb (Order.status o) delivered.

(** The [actualTime] of the rows that have one. *)
Definition actualTimes (os : list Order.t) : list Z :=
  flat_map (fun o => match Order.actualTime o with
                     | Some t => [t]
                     | None => []
                     end) os.

(** [router.get('/stats')]: the statistics of the calling rider over a
    period that ends at [now]. *)
Definition stats (user : User.t) (period : option string) (now : Z)
    (w : World) : Stats.t :=
  match findRider (User.id user) w with
  | None => Stats.fail 404
  | Some rider =>
      let start := startDate period now in
      let mine := filter (assignedSince rider start) (orders w) in
      let done := filter isDelivered mine in
      Stats.mk 200 true
        (Z.of_nat (List.length mine))
        (Z.of_nat (List.length done))
        (Js.orQ (sumOf (map Order.deliveryFee done)) 0%Q)
        (Js.orQ (avgOf (actualTimes done)) 0%Q)
  end.

End RiderProfiles.

(** ** The socket rooms of the server *)

Module Sockets.

(** The events a connected socket may send. *)
Inductive Event :=
| Join (userId : string)
| JoinRestaurant (restaurantId : string)
| JoinRider (riderId : string)
| TrackOrder (orderId : string).

(** The room the handler of an event joins. *)
Definition roomOf (e : Event) : string :=
  match e with
  | Join userId => "user_" ++ userId
  | JoinRestaurant restaurantId => "restaurant_" ++ restaurantId
  | JoinRider riderId => "rider_" ++ riderId
  | TrackOrder orderId => "order_" ++ orderId
  end.

(** The rooms of a socket after the events it has sent. *)
Definition roomsAfter (events : list Event) : list string :=
  map roomOf events.

(** [io.to(topic).emit(...)] reaches the sockets that are in the room. *)
Definition receives (rooms : list string) (m : Emit.t) : bool :=
  Js.includes rooms (Emit.topic m).

End Sockets.

(** * Sample data

    One restaurant with two dishes, a customer with an address, the owner of
    the restaurant, two riders and an administrator. *)

Module Sample.

Definition alice : User.t := User.mk "u-alice" Role.customer "Alice" "9000000001".
Definition bob : User.t := User.mk "u-bob" Role.restaurant "Bob" "9000000002".
Definition carol : User.t := User.mk "u-carol" Role.rider "Carol" "9000000003".
Definition dave : User.t := User.mk "u-dave" Role.rider "Dave" "9000000004".
Definition root : User.t := User.mk "u-root" Role.admin "Root" "9000000005".

Definition diner : Restaurant.t :=
  Restaurant.mk "rest-1" "u-bob" true true (Some 40%Q) 100%Q.

(** The same restaurant with free delivery configured. *)
Definition freeDiner : Restaurant.t :=
  Restaurant.mk "rest-1" "u-bob" true true (Some 0%Q) 100%Q.

Definition home : Address.t := Address.mk "addr-1" "u-alice".

Definition curry : MenuItem.t := MenuItem.mk "m-1" "rest-1" true 100%Q.
Definition naan : MenuItem.t := MenuItem.mk "m-2" "rest-1" true 50%Q.

Definition carolProfile : Rider.t := Rider.mk "r-carol" "u-carol" true.
Definition daveProfile : Rider.t := Rider.mk "r-dave" "u-dave" true.

Definition basket : list ItemRequest.t :=
  [ItemRequest.mk "m-1" 2 None; ItemRequest.mk "m-2" 1 None].

Definition basketItems : list OrderItem.t :=
  [OrderItem.mk "m-1" 2 100%Q None; OrderItem.mk "m-2" 1 50%Q None].

Definition empty : World :=
  mkWorld [diner] [home] [curry; naan] [carolProfile; daveProfile] [] [] [].

(** The store after Alice has placed her order at time 1000. *)
Definition placed : World :=
  snd (Orders.createOrder alice "rest-1" "addr-1" basket "cod" None
         "o-1" "FF000001001" 1000 empty).

(** ... after the owner has confirmed it at 2000, started it at 3000 and
    marked it ready at 4000. *)
Definition confirmedW : World :=
  snd (Orders.updateOrderStatus bob "o-1" "confirmed" None 2000 placed).

Definition preparingW : World :=
  snd (Orders.updateOrderStatus bob "o-1" "preparing" None 3000 confirmedW).

Definition readyW : World :=
  snd (Orders.updateOrderStatus bob "o-1" "ready" None 4000 preparingW).

(** ... after Carol has claimed it at 5000. *)
Definition claimedW : World :=
  snd (Riders.acceptOrder carol "o-1" 5000 readyW).

(** ... after the administrator has marked it delivered at 9000. *)
Definition deliveredW : World :=
  snd (Orders.updateOrderStatus root "o-1" "delivered" None 9000 claimedW).

Definition statusIn (w : World) : option OrderStatus :=
  option_map Order.status (Prisma.findOrder "o-1" w).

End Sample.

(** * Sample data for the rider's search *)

Module SampleGeo.

(** A rider in Hyderabad. *)
Definition riderLat : R := (17385 / 1000)%R.
Definition riderLng : R := (784867 / 10000)%R.

(** One restaurant at the rider's place, one at the antipode, the others
    without coordinates. *)
Definition geo (restaurantId : string) : Riders.Location.t :=
  if String.eqb restaurantId "rest-near" then
    Riders.Location.mk (Some riderLat) (Some riderLng)
  else if String.eqb restaurantId "rest-far" then
    Riders.Location.mk (Some (- riderLat)%R) (Some (riderLng - 180)%R)
  else
    Riders.Location.mk None None.

(** A restaurant on the equator, at 78 degrees west. *)
Definition equator (restaurantId : string) : Riders.Location.t :=
  Riders.Location.mk (Some 0%R) (Some (- 78)%R).

(** A ready order without a rider. *)
Definition readyOrder (id restaurantId : string) (readyAt : Z) : Order.t :=
  Order.mk id "FF000000000" "u-alice" restaurantId "addr-1" "cod"
    250 40 5 13 308 None Sample.basketItems ready None 0
    (Some 0) (Some 0) (Some readyAt) None None None None None.

(** Twenty orders of the far restaurant, ready at 1, ..., 20, and one order
    of the near restaurant, ready at 100 and first in the table. *)
Definition farOrders : list Order.t :=
  map (fun n => readyOrder (String (ascii_of_nat (64 + n)) "") "rest-far"
                           (Z.of_nat n))
      (seq 1 20).

Definition nearOrder : Order.t := readyOrder "near" "rest-near" 100.

Definition busy : World :=
  mkWorld [] [] [] [Sample.carolProfile] (nearOrder :: farOrders) [] [].

End SampleGeo.

(** The store with the near order alone. *)
Module SampleNear.
Definition nearby : World :=
  mkWorld [] [] [] [Sample.carolProfile] [SampleGeo.nearOrder] [] [].
End SampleNear.

(** * Vocabulary of the statements *)

(** The sum of price times quantity over the lines, written by recursion on
    the list. *)
Fixpoint lineSum (items : list OrderItem.t) : Q :=
  match items with
  | [] => 0%Q
  | item :: rest =>
      (OrderItem.price item * inject_Z (OrderItem.quantity item)
       + lineSum rest)%Q
  end.

(** A line as the validation layer lets it through: a price that is not
    negative and a quantity of at least one. *)
Definition validLine (item : OrderItem.t) : Prop :=
  (0 <= OrderItem.price item)%Q /\ 1 <= OrderItem.quantity item.

(** The store a successful status update leaves behind. *)
Definition afterStatusUpdate (id status : string) (message : option string)
    (now : Z) (order : Order.t) (st : OrderStatus) (w : World) : World :=
  Prisma.emitBare ("order_" ++ id) "status_update"
    (Prisma.emit ("user_" ++ Order.customerId order) "order_status_update" id
       (Prisma.orderTrackingCreate id status
          (Js.orStr message ("Order " ++ status)) now
          (Prisma.orderUpdate id (Orders.updateData order st now) w))).

(** The lifecycle timestamp that belongs to a status; [pending] has none. *)
Definition timestampOf (st : OrderStatus) (o : Order.t) : option Z :=
  match st with
  | pending => None
  | confirmed => Order.confirmedAt o
  | preparing => Order.preparingAt o
  | ready => Order.readyAt o
  | picked_up => Order.pickedUpAt o
  | delivered => Order.deliveredAt o
  | cancelled => Order.cancelledAt o
  end.

(** The fields of an order that no lifecycle operation concerns: its
    identity, its parties, its lines and its monetary breakdown. *)
Definition sameContent (a b : Order.t) : Prop :=
  Order.id a = Order.id b
  /\ Order.orderNumber a = Order.orderNumber b
  /\ Order.customerId a = Order.customerId b
  /\ Order.restaurantId a = Order.restaurantId b
  /\ Order.addressId a = Order.addressId b
  /\ Order.paymentMethod a = Order.paymentMethod b
  /\ Order.subtotal a = Order.subtotal b
  /\ Order.deliveryFee a = Order.deliveryFee b
  /\ Order.platformFee a = Order.platformFee b
  /\ Order.taxes a = Order.taxes b
  /\ Order.total a = Order.total b
  /\ Order.specialInstructions a = Order.specialInstructions b
  /\ Order.items a = Order.items b
  /\ Order.createdAt a = Order.createdAt b.

(** Whether the customer may still cancel: a pending order always, a
    confirmed order up to five minutes (in milliseconds) after its creation,
    no other order. *)
Definition cancellable (order : Order.t) (now : Z) : bool :=
  match Order.status order with
  | pending => true
  | confirmed => now - Order.createdAt order <=? 5 * 60 * 1000
  | _ => false
  end.

(** The store a successful claim leaves behind. *)
Definition afterAccept (user : User.t) (orderId : string) (now : Z)
    (rider : Rider.t) (order : Order.t) (w : World) : World :=
  Prisma.emit ("restaurant_" ++ Order.restaurantId order) "rider_assigned"
    orderId
    (Prisma.emit ("user_" ++ Order.customerId order) "rider_assigned" orderId
       (Prisma.orderTrackingCreate orderId "ready"
          ("Order accepted by rider " ++ User.name user) now
          (Prisma.orderUpdate orderId (Riders.claimData rider) w))).

(** The four lifecycle operations, as requests to the router. *)
Inductive Request :=
| CreateOrder (user : User.t) (restaurantId addressId : string)
    (items : list ItemRequest.t) (paymentMethod : string)
    (specialInstructions : option string) (newId orderNumber : string)
| UpdateOrderStatus (user : User.t) (id status : string)
    (message : option string)
| CancelOrder (user : User.t) (id : string) (reason : option string)
| AcceptOrder (user : User.t) (orderId : string).

(** The router: the handler of the request, run at clock reading [now]. *)
Definition handle (req : Request) (now : Z) (w : World) : Response.t * World :=
  match req with
  | CreateOrder user restaurantId addressId items paymentMethod
                specialInstructions newId orderNumber =>
      Orders.createOrder user restaurantId addressId items paymentMethod
        specialInstructions newId orderNumber now w
  | UpdateOrderStatus user id status message =>
      Orders.updateOrderStatus user id status message now w
  | CancelOrder user id reason => Orders.cancelOrder user id reason now w
  | AcceptOrder user orderId => Riders.acceptOrder user orderId now w
  end.

(** The order a request is about. *)
Definition subject (req : Request) : string :=
  match req with
  | CreateOrder _ _ _ _ _ _ newId _ => newId
  | UpdateOrderStatus _ id _ _ => id
  | CancelOrder _ id _ => id
  | AcceptOrder _ orderId => orderId
  end.

(** A sequence of requests, each with the clock reading it is served at. *)
Fixpoint serve (reqs : list (Request * Z)) (w : World) : World :=
  match reqs with
  | [] => w
  | (req, now) :: rest => serve rest (snd (handle req now w))
  end.

(** The timestamps of the tracking rows of an order, in the order the rows
    were written. *)
Definition timestampsOf (orderId : string) (w : World) : list Z :=
  map OrderTracking.timestamp (Prisma.trackingOf orderId w).

(** A list of timestamps in which each one is later than all before it. *)
Definition increasing (ts : list Z) : Prop := Sorted.StronglySorted Z.lt ts.

(** Every tracking row in the store is older than [now]. *)
Definition loggedBefore (now : Z) (w : World) : Prop :=
  Forall (fun e => OrderTracking.timestamp e < now) (tracking w).



(** [a] comes strictly before [o] in the order of [readyAt]. *)
Definition strictlyBefore (o a : Order.t) : bool :=
  Riders.readyAtLe a o && negb (Riders.readyAtLe o a).

(** The ready, unassigned orders that became ready strictly before [o]. *)
Definition olderCandidates (o : Order.t) (w : World) : list Order.t :=
  filter (strictlyBefore o) (filter Riders.readyUnassigned (orders w)).

(** The radius of the search: the query parameter, or 10. *)
Definition radiusOr (radius : option R) : R :=
  match radius with Some r => r | None => 10%R end.

(** The order of [readyAt] as a relation. *)
Definition readyAtOrder (a b : Order.t) : Prop := Riders.readyAtLe a b = true.

(** The schedule of two accept requests in which each request reads the
    rider and the order before the other has written its claim. *)
Definition bothReadFirst : list Riders.Turn :=
  [Riders.First; Riders.First; Riders.Second; Riders.Second;
   Riders.First; Riders.First; Riders.Second; Riders.Second].

(** A character between [0] and [9]. *)
Definition isDigit (c : ascii) : Prop :=
  (48 <= nat_of_ascii c <= 57)%nat.

(** The [k] lowest decimal digits of a number, the last one first. *)
Fixpoint lowDigits (k : nat) (n : Z) : list ascii :=
  match k with
  | O => []
  | S k' => Text.digit (n mod 10) :: lowDigits k' (n / 10)
  end.

(** The store a successful creation leaves behind. *)
Definition afterCreate (restaurantId : string) (order : Order.t) (now : Z)
    (w : World) : World :=
  Prisma.emit ("restaurant_" ++ restaurantId) "new_order" (Order.id order)
    (Prisma.orderTrackingCreate (Order.id order) "pending"
       "Order placed successfully" now (Prisma.orderCreate order w)).

(** A stored line is the requested line at the price of a dish that is on
    the menu of the restaurant and available. *)
Definition pricedFromMenu (restaurantId : string) (w : World)
    (item : ItemRequest.t) (line : OrderItem.t) : Prop :=
  OrderItem.menuItemId line = ItemRequest.menuItemId item
  /\ OrderItem.quantity line = ItemRequest.quantity item
  /\ OrderItem.notes line = ItemRequest.notes item
  /\ exists menuItem,
       In menuItem (menuItems w)
       /\ MenuItem.id menuItem = ItemRequest.menuItemId item
       /\ MenuItem.restaurantId menuItem = restaurantId
       /\ MenuItem.isAvailable menuItem = true
       /\ OrderItem.price line = MenuItem.price menuItem.

(** Newest first: [a] was created no earlier than [b]. *)
Definition newerFirst (a b : Order.t) : Prop :=
  Order.createdAt b <= Order.createdAt a.

(** Oldest first: [a] was logged no later than [b]. *)
Definition loggedFirst (a b : OrderTracking.t) : Prop :=
  OrderTracking.timestamp a <= OrderTracking.timestamp b.

(** The pages [1], ..., [n] of the customer's orders, one after the other. *)
Definition myOrdersPages (user : User.t) (limit : Z) (status : option string)
    (w : World) (n : nat) : list Order.t :=
  List.concat
    (map (fun k =>
            OrderViews.PageResponse.orders
              (OrderViews.myOrders user (Z.of_nat k) limit status w))
         (seq 1 n)).

(** The largest time a [Date] holds, in milliseconds; a number of this size
    is written by [toString] with all its digits. *)
Definition maxDate : Z := 8640000000000000.

(** * Properties *)

(** ** Helpers of the embedding *)

(** Case analysis on the test a handler makes next. *)
Ltac next_test H :=
  match type of H with
  | (if negb ?c then _ else _) = _ => destruct c eqn:?; cbn [negb] in H
  | (if ?c then _ else _) = _ => destruct c eqn:?
  | (match ?c with _ => _ end) = _ => destruct c eqn:?
  end.

Lemma statusOfString_name (s : OrderStatus) :
  statusOfString (statusName s) = Some s.
Proof. destruct s; reflexivity. Qed.

Lemma includes_In (xs : list string) (x : string) :
  Js.includes xs x = true <-> In x xs.
Proof.
  unfold Js.includes. rewrite existsb_exists. split.
  - intros [y [Hy Heq]]. apply String.eqb_eq in Heq. now subst.
  - intros H. exists x. split; [assumption | apply String.eqb_refl].
Qed.

Lemma validStatuses_statusOfString (s : string) :
  Js.includes validStatuses s = true ->
  exists st, statusOfString s = Some st /\ statusName st = s.
Proof.
  intros H. apply includes_In in H. unfold validStatuses in H.
  apply in_map_iff in H. destruct H as [st [Hst _]].
  exists st. subst s. split; [apply statusOfString_name | reflexivity].
Qed.

Lemma includes_statusName (s : OrderStatus) :
  Js.includes validStatuses (statusName s) = true.
Proof. destruct s; reflexivity. Qed.

Lemma OrderStatus_eqb_eq (a b : OrderStatus) :
  OrderStatus_eqb a b = true <-> a = b.
Proof. destruct a, b; simpl; split; intros H; congruence. Qed.

Example sample_statuses :
  map Sample.statusIn
      [Sample.placed; Sample.confirmedW; Sample.preparingW; Sample.readyW;
       Sample.claimedW; Sample.deliveredW]
  = [Some pending; Some confirmed; Some preparing; Some ready; Some ready;
     Some delivered].
Proof. vm_compute. reflexivity. Qed.

(** ** Money: [calculateOrderTotals] *)

Section Totals.

Import Orders.

Lemma sumItems_from (items : list OrderItem.t) (acc : Q) :
  (fold_left
     (fun sum item =>
        sum + OrderItem.price item * inject_Z (OrderItem.quantity item))
     items acc == acc + lineSum items)%Q.
Proof.
  revert acc. induction items as [|item rest IH]; intros acc; simpl.
  - ring.
  - rewrite IH. ring.
Qed.

Lemma sumItems_lineSum (items : list OrderItem.t) :
  (sumItems items == lineSum items)%Q.
Proof. unfold sumItems. rewrite sumItems_from. ring. Qed.

Lemma lineSum_nonneg (items : list OrderItem.t) :
  Forall validLine items -> (0 <= lineSum items)%Q.
Proof.
  induction 1 as [|item rest [Hp Hq] _ IH]; simpl.
  - apply Qle_refl.
  - apply Qle_trans with (0 + 0)%Q; [apply Qle_refl|].
    apply Qplus_le_compat; [|exact IH].
    apply Qmult_le_0_compat; [exact Hp|].
    change 0%Q with (inject_Z 0). rewrite <- Zle_Qle. lia.
Qed.

Lemma round_nonneg (x : Q) : (0 <= x)%Q -> 0 <= Js.round x.
Proof.
  intros Hx. unfold Js.round.
  change 0 with (Qfloor 0). apply Qfloor_resp_le.
  apply Qle_trans with (x + 0)%Q.
  - rewrite Qplus_0_r. exact Hx.
  - apply Qplus_le_compat; [apply Qle_refl | discriminate].
Qed.

(** [Math.round x] is an integer within one half of [x], the upper one at a
    tie. *)
Lemma round_nearest (x : Q) :
  (x - (1 # 2) < inject_Z (Js.round x))%Q
  /\ (inject_Z (Js.round x) <= x + (1 # 2))%Q.
Proof.
  unfold Js.round. split.
  - pose proof (Qlt_floor (x + (1 # 2))) as H.
    rewrite inject_Z_plus in H.
    apply Qplus_lt_l with (z := 1%Q).
    eapply Qle_lt_trans; [|exact H].
    ring_simplify. apply Qle_refl.
  - apply Qfloor_le.
Qed.

(** The totals in the exact arithmetic of the embedding, for a restaurant
    whose delivery fee is absent or is a number other than zero: the
    subtotal is the sum of price times quantity, the fees are the rounded
    2% and 5% of it, the total is the sum of the four, and for valid lines
    the two fees are not negative.  The source adds and multiplies in IEEE
    doubles: on prices that are not whole numbers its sums can differ from
    these in the last place, and a fee with them. *)
Lemma calculateOrderTotals_correct (items : list OrderItem.t)
    (restaurant : Restaurant.t) :
  let t := calculateOrderTotals items restaurant in
  (Totals.subtotal t == lineSum items)%Q
  /\ (Restaurant.deliveryFee restaurant = None ->
      Totals.deliveryFee t = 40%Q)
  /\ (forall fee, Restaurant.deliveryFee restaurant = Some fee ->
      ~ (fee == 0)%Q -> Totals.deliveryFee t = fee)
  /\ Totals.platformFee t
     = inject_Z (Js.round (Totals.subtotal t * (2 # 100)))
  /\ Totals.taxes t = inject_Z (Js.round (Totals.subtotal t * (5 # 100)))
  /\ Totals.total t
     = (Totals.subtotal t + Totals.deliveryFee t + Totals.platformFee t
        + Totals.taxes t)%Q
  /\ (Forall validLine items ->
      (0 <= Totals.platformFee t)%Q /\ (0 <= Totals.taxes t)%Q).
Proof.
  simpl. repeat split.
  - apply sumItems_lineSum.
  - intros ->. reflexivity.
  - intros fee -> Hfee. unfold Js.orQ.
    destruct (Qeq_bool fee 0) eqn:E; [|reflexivity].
    apply Qeq_bool_eq in E. contradiction.
  - change 0%Q with (inject_Z 0). rewrite <- Zle_Qle. apply round_nonneg.
    apply Qmult_le_0_compat; [|discriminate].
    rewrite sumItems_lineSum. now apply lineSum_nonneg.
  - change 0%Q with (inject_Z 0). rewrite <- Zle_Qle. apply round_nonneg.
    apply Qmult_le_0_compat; [|discriminate].
    rewrite sumItems_lineSum. now apply lineSum_nonneg.
Qed.

(** The example of the specification: 100 x 2 and 50 x 1 at a fee of 40. *)
Example totals_example :
  calculateOrderTotals Sample.basketItems Sample.diner
  = Totals.mk 250%Q 40%Q 5%Q 13%Q 308%Q.
Proof. vm_compute. reflexivity. Qed.

End Totals.

(** C2 (defect).  A restaurant whose configured delivery fee is zero is
    charged the default of 40: for the order of the example, placed at the
    restaurant with free delivery, the stored delivery fee is 40 and the
    stored total is 308, where the configured fee gives 0 and 268. *)
Theorem createOrder_zero_fee_charged_default :
  let w := mkWorld [Sample.freeDiner] [Sample.home]
                   [Sample.curry; Sample.naan] [] [] [] [] in
  let '(res, w') := Orders.createOrder Sample.alice "rest-1" "addr-1"
                      Sample.basket "cod" None "o-1" "FF000001001" 1000 w in
  Restaurant.deliveryFee Sample.freeDiner = Some 0%Q
  /\ Response.code res = 201
  /\ option_map Order.subtotal (Prisma.findOrder "o-1" w') = Some 250%Q
  /\ option_map Order.deliveryFee (Prisma.findOrder "o-1" w') = Some 40%Q
  /\ option_map Order.platformFee (Prisma.findOrder "o-1" w') = Some 5%Q
  /\ option_map Order.taxes (Prisma.findOrder "o-1" w') = Some 13%Q
  /\ option_map Order.total (Prisma.findOrder "o-1" w') = Some 308%Q.
Proof. vm_compute. repeat split; reflexivity. Qed.

(** ** The store calls *)

Section Store.

Import Prisma.

Lemma applyUpdate_id (d : OrderUpdate.t) (o : Order.t) :
  Order.id (applyUpdate d o) = Order.id o.
Proof. reflexivity. Qed.

(** Reading a row back after [orderUpdate] on the same id. *)
Lemma findOrder_orderUpdate_same (id : string) (d : OrderUpdate.t) (w : World) :
  findOrder id (orderUpdate id d w) = option_map (applyUpdate d) (findOrder id w).
Proof.
  unfold findOrder, orderUpdate. simpl.
  induction (orders w) as [|o os IH]; simpl; [reflexivity|].
  destruct (String.eqb (Order.id o) id) eqn:E; simpl.
  - rewrite E. reflexivity.
  - rewrite E. exact IH.
Qed.

(** Reading another row after [orderUpdate]. *)
Lemma findOrder_orderUpdate_other (id id' : string) (d : OrderUpdate.t)
    (w : World) :
  id' <> id -> findOrder id' (orderUpdate id d w) = findOrder id' w.
Proof.
  intros Hne. unfold findOrder, orderUpdate. simpl.
  induction (orders w) as [|o os IH]; simpl; [reflexivity|].
  destruct (String.eqb (Order.id o) id) eqn:E; simpl.
  - apply String.eqb_eq in E.
    destruct (String.eqb (Order.id o) id') eqn:E'.
    + apply String.eqb_eq in E'. congruence.
    + exact IH.
  - destruct (String.eqb (Order.id o) id'); [reflexivity | exact IH].
Qed.

Lemma findOrder_emit (id topic event orderId : string) (w : World) :
  findOrder id (emit topic event orderId w) = findOrder id w.
Proof. reflexivity. Qed.

Lemma findOrder_emitBare (id topic event : string) (w : World) :
  findOrder id (emitBare topic event w) = findOrder id w.
Proof. reflexivity. Qed.

Lemma findOrder_orderTrackingCreate (id orderId status message : string)
    (now : Z) (w : World) :
  findOrder id (orderTrackingCreate orderId status message now w)
  = findOrder id w.
Proof. reflexivity. Qed.

Lemma find_some_id (id : string) (w : World) (o : Order.t) :
  findOrder id w = Some o -> Order.id o = id.
Proof.
  unfold findOrder. intros H. apply find_some in H.
  destruct H as [_ H]. now apply String.eqb_eq in H.
Qed.

End Store.

(** ** The status route *)

Section StatusRoute.

Import Prisma Orders.

(** The three inputs a status update succeeds on: a known order (with its
    restaurant), a valid label, and a caller authorized for that label. *)
Lemma updateOrderStatus_ok (user : User.t) (id : string) (st : OrderStatus)
    (message : option string) (now : Z) (w : World) (order : Order.t)
    (r : Restaurant.t) :
  findOrder id w = Some order ->
  findRestaurant (Order.restaurantId order) w = Some r ->
  isAuthorized user order (Restaurant.userId r) (statusName st) = true ->
  updateOrderStatus user id (statusName st) message now w
  = (Response.ok 200 "Order status updated successfully"
       (applyUpdate (updateData order st now) order),
     afterStatusUpdate id (statusName st) message now order st w).
Proof.
  intros Ho Hr Ha. unfold updateOrderStatus.
  rewrite includes_statusName. simpl negb. cbv iota.
  rewrite Ho, Hr, statusOfString_name, Ha. reflexivity.
Qed.

(** A status update that answers 200 went through all three checks. *)
Lemma updateOrderStatus_inv (user : User.t) (id status : string)
    (message : option string) (now : Z) (w w' : World) (res : Response.t) :
  updateOrderStatus user id status message now w = (res, w') ->
  Response.code res = 200 ->
  exists order r st,
    findOrder id w = Some order
    /\ findRestaurant (Order.restaurantId order) w = Some r
    /\ statusOfString status = Some st /\ statusName st = status
    /\ isAuthorized user order (Restaurant.userId r) status = true
    /\ res = Response.ok 200 "Order status updated successfully"
               (applyUpdate (updateData order st now) order)
    /\ w' = afterStatusUpdate id status message now order st w.
Proof.
  unfold updateOrderStatus. intros H Hc.
  destruct (Js.includes validStatuses status) eqn:Hv; simpl in H;
    [|inversion H; subst; discriminate].
  destruct (findOrder id w) as [order|] eqn:Ho;
    [|inversion H; subst; discriminate].
  destruct (findRestaurant (Order.restaurantId order) w) as [r|] eqn:Hr;
    [|inversion H; subst; discriminate].
  destruct (validStatuses_statusOfString _ Hv) as [st [Hst Hn]].
  rewrite Hst in H.
  destruct (isAuthorized user order (Restaurant.userId r) status) eqn:Ha;
    simpl in H; [|inversion H; subst; discriminate].
  inversion H; subst res w'. exists order, r, st.
  repeat split; try assumption; reflexivity.
Qed.

(** A status update that does not answer 200 writes nothing. *)
Lemma updateOrderStatus_rejected (user : User.t) (id status : string)
    (message : option string) (now : Z) (w w' : World) (res : Response.t) :
  updateOrderStatus user id status message now w = (res, w') ->
  Response.code res <> 200 ->
  w' = w.
Proof.
  unfold updateOrderStatus. intros H Hc.
  destruct (Js.includes validStatuses status); simpl in H;
    [|now inversion H].
  destruct (findOrder id w) as [order|]; [|now inversion H].
  destruct (findRestaurant (Order.restaurantId order) w) as [r|];
    [|now inversion H].
  destruct (statusOfString status) as [st|]; [|now inversion H].
  destruct (isAuthorized user order (Restaurant.userId r) status);
    simpl in H; [|now inversion H].
  inversion H; subst. simpl in Hc. congruence.
Qed.

Lemma findOrder_afterStatusUpdate (id status : string)
    (message : option string) (now : Z) (order : Order.t) (st : OrderStatus)
    (w : World) :
  findOrder id w = Some order ->
  findOrder id (afterStatusUpdate id status message now order st w)
  = Some (applyUpdate (updateData order st now) order).
Proof.
  intros Ho. unfold afterStatusUpdate.
  change (findOrder id (orderUpdate id (updateData order st now) w)
          = Some (applyUpdate (updateData order st now) order)).
  rewrite findOrder_orderUpdate_same, Ho. reflexivity.
Qed.

Lemma updateData_status (order : Order.t) (st : OrderStatus) (now : Z) :
  OrderUpdate.status (updateData order st now) = Some st.
Proof. destruct st; reflexivity. Qed.

End StatusRoute.

Section StatusTransitions.

Import Prisma Orders.

(** C1 (as the code has it).  The status route never looks at the status
    the order has: on an order in any status, [delivered] and [cancelled]
    included, an update to a valid target by a caller authorized for that
    target answers 200 and the stored status becomes the target.  The route
    rejects an update only for an invalid label, an unknown order or a
    caller who is not authorized for the target, and then the store is left
    as it was. *)
Theorem updateOrderStatus_ignores_current_status
    (user : User.t) (id : string) (target : OrderStatus)
    (message : option string) (now : Z) (w w' : World) (res : Response.t)
    (order : Order.t) (r : Restaurant.t) :
  findOrder id w = Some order ->
  findRestaurant (Order.restaurantId order) w = Some r ->
  updateOrderStatus user id (statusName target) message now w = (res, w') ->
  (isAuthorized user order (Restaurant.userId r) (statusName target) = true ->
   Response.code res = 200
   /\ option_map Order.status (findOrder id w') = Some target)
  /\ (isAuthorized user order (Restaurant.userId r) (statusName target) = false ->
      Response.code res = 403 /\ w' = w).
Proof.
  intros Ho Hr H. split; intros Ha.
  - rewrite (updateOrderStatus_ok _ _ _ _ _ _ _ _ Ho Hr Ha) in H.
    inversion H; subst res w'. split; [reflexivity|].
    rewrite (findOrder_afterStatusUpdate _ _ _ _ _ _ _ Ho). simpl.
    unfold pick. rewrite updateData_status. reflexivity.
  - unfold updateOrderStatus in H.
    rewrite includes_statusName in H. simpl negb in H. cbv iota in H.
    rewrite Ho, Hr, statusOfString_name, Ha in H. simpl in H.
    inversion H; subst. split; reflexivity.
Qed.

(** The administrator moves the delivered sample order back to [pending]. *)
Lemma updateOrderStatus_ignores_current_status_witness :
  Sample.statusIn Sample.deliveredW = Some delivered
  /\ Response.code
       (fst (updateOrderStatus Sample.root "o-1" "pending" None 10000
               Sample.deliveredW)) = 200
  /\ Sample.statusIn
       (snd (updateOrderStatus Sample.root "o-1" "pending" None 10000
               Sample.deliveredW)) = Some pending.
Proof.
  split; [reflexivity|].
  destruct (updateOrderStatus Sample.root "o-1" "pending" None 10000
              Sample.deliveredW) as [res w'] eqn:E.
  destruct (findOrder "o-1" Sample.deliveredW) as [order|] eqn:Ho;
    [|discriminate].
  apply (updateOrderStatus_ignores_current_status Sample.root "o-1" pending
           None 10000 Sample.deliveredW w' res order Sample.diner Ho).
  - vm_compute in Ho. inversion Ho. reflexivity.
  - exact E.
  - reflexivity.
Defined.

(** C1 (refuted as stated).  On the delivered sample order a status update
    succeeds and moves the status backward, and so does one on the
    cancelled order; the owner of the restaurant moves a ready order back
    to [confirmed]. *)
Lemma status_update_moves_backward :
  (Sample.statusIn Sample.deliveredW = Some delivered
   /\ let '(res, w') := updateOrderStatus Sample.root "o-1" "pending" None
                          10000 Sample.deliveredW in
      Response.code res = 200 /\ Sample.statusIn w' = Some pending)
  /\ (Sample.statusIn Sample.readyW = Some ready
      /\ let '(res, w') := updateOrderStatus Sample.bob "o-1" "confirmed" None
                             10000 Sample.readyW in
         Response.code res = 200 /\ Sample.statusIn w' = Some confirmed)
  /\ (let '(_, wc) := updateOrderStatus Sample.bob "o-1" "cancelled" None
                        5000 Sample.confirmedW in
      Sample.statusIn wc = Some cancelled
      /\ let '(res, w') := updateOrderStatus Sample.bob "o-1" "preparing" None
                             10000 wc in
         Response.code res = 200 /\ Sample.statusIn w' = Some preparing).
Proof. vm_compute. repeat split; reflexivity. Qed.

End StatusTransitions.

Section StatusAuthorization.

Import Prisma Orders.

(** The authorization test, as a table over the role of the caller. *)
Lemma isAuthorized_table (user : User.t) (order : Order.t) (owner : string)
    (st : OrderStatus) :
  isAuthorized user order owner (statusName st)
  = match User.role user with
    | Role.restaurant =>
        String.eqb owner (User.id user)
        && match st with
           | confirmed | preparing | ready | cancelled => true
           | _ => false
           end
    | Role.rider =>
        Js.sameId (Order.riderId order) (User.id user)
        && match st with
           | picked_up | delivered => true
           | _ => false
           end
    | Role.admin => true
    | Role.customer => false
    end.
Proof.
  unfold isAuthorized.
  destruct (User.role user); simpl;
    try destruct (String.eqb owner (User.id user));
    try destruct (Js.sameId (Order.riderId order) (User.id user));
    destruct st; reflexivity.
Qed.

(** C4 (defect).  Carol, a rider, claims the ready sample order: the claim
    stores the id of her rider profile in [riderId].  The status route
    compares [riderId] with the id of the calling user, so her update to
    [picked_up] is answered 403 and nothing is written. *)
Theorem assigned_rider_cannot_pick_up :
  let '(r1, w1) := Riders.acceptOrder Sample.carol "o-1" 5000 Sample.readyW in
  Response.code r1 = 200
  /\ option_map Order.riderId (findOrder "o-1" w1) = Some (Some "r-carol")
  /\ User.id Sample.carol = "u-carol"
  /\ let '(r2, w2) := updateOrderStatus Sample.carol "o-1" "picked_up" None
                        6000 w1 in
     Response.code r2 = 403 /\ w2 = w1
     /\ Response.message r2 = "Not authorized to update this order status".
Proof. vm_compute. repeat split; reflexivity. Qed.

End StatusAuthorization.

Section StatusFrame.

Import Prisma Orders.

Lemma applyUpdate_sameContent (d : OrderUpdate.t) (o : Order.t) :
  sameContent (applyUpdate d o) o.
Proof. unfold sameContent. simpl. repeat split. Qed.

Lemma updateData_timestamp (order : Order.t) (st : OrderStatus) (now : Z) :
  st <> pending ->
  timestampOf st (applyUpdate (updateData order st now) order) = Some now.
Proof. destruct st; intros H; try reflexivity. congruence. Qed.

Lemma updateData_other_timestamps (order : Order.t) (st s : OrderStatus)
    (now : Z) :
  s <> st ->
  timestampOf s (applyUpdate (updateData order st now) order)
  = timestampOf s order.
Proof. destruct st, s; intros H; try reflexivity; congruence. Qed.

(** C7 (as the code has it).  A successful status update sets the status
    to the target and sets the lifecycle timestamp of the target ([pending]
    has none) to the clock of the request, whatever that field held before;
    for [delivered] it also writes [actualTime].  The other lifecycle
    timestamps, the rider, the cancellation reason, the lines, the monetary
    breakdown and every other order are left as they were. *)
Theorem updateOrderStatus_frame (user : User.t) (id status : string)
    (message : option string) (now : Z) (w w' : World) (res : Response.t)
    (order : Order.t) :
  findOrder id w = Some order ->
  updateOrderStatus user id status message now w = (res, w') ->
  Response.code res = 200 ->
  exists st order',
    statusOfString status = Some st
    /\ findOrder id w' = Some order'
    /\ Order.status order' = st
    /\ (st <> pending -> timestampOf st order' = Some now)
    /\ (forall s, s <> st -> timestampOf s order' = timestampOf s order)
    /\ Order.actualTime order'
       = (if OrderStatus_eqb st delivered
          then Some ((now - Order.createdAt order) / 60000)
          else Order.actualTime order)
    /\ Order.riderId order' = Order.riderId order
    /\ Order.cancellationReason order' = Order.cancellationReason order
    /\ sameContent order' order
    /\ (forall id', id' <> id -> findOrder id' w' = findOrder id' w).
Proof.
  intros Ho H Hc.
  destruct (updateOrderStatus_inv _ _ _ _ _ _ _ _ H Hc)
    as [o [r [st [Ho' [_ [Hst [_ [_ [_ Hw]]]]]]]]].
  rewrite Ho in Ho'. inversion Ho'; subst o. clear Ho'.
  exists st, (applyUpdate (updateData order st now) order).
  split; [exact Hst|].
  split; [subst w'; now apply findOrder_afterStatusUpdate|].
  split; [simpl; unfold pick; now rewrite updateData_status|].
  split; [now apply updateData_timestamp|].
  split; [intros s Hs; now apply updateData_other_timestamps|].
  split; [destruct st; reflexivity|].
  split; [destruct st; reflexivity|].
  split; [destruct st; reflexivity|].
  split; [apply applyUpdate_sameContent|].
  intros id' Hne. subst w'. unfold afterStatusUpdate.
  change (findOrder id' (orderUpdate id (updateData order st now) w)
          = findOrder id' w).
  now apply findOrder_orderUpdate_other.
Qed.

(** The owner confirms the placed sample order. *)
Lemma updateOrderStatus_frame_witness :
  exists st order',
    statusOfString "confirmed" = Some st
    /\ findOrder "o-1" Sample.confirmedW = Some order'
    /\ Order.status order' = st
    /\ (st <> pending -> timestampOf st order' = Some 2000).
Proof.
  destruct (findOrder "o-1" Sample.placed) as [order|] eqn:Ho;
    [|discriminate].
  destruct (updateOrderStatus_frame Sample.bob "o-1" "confirmed" None 2000
              Sample.placed Sample.confirmedW
              (fst (updateOrderStatus Sample.bob "o-1" "confirmed" None 2000
                      Sample.placed))
              order Ho)
    as [st [order' [H1 [H2 [H3 [H4 _]]]]]].
  - reflexivity.
  - reflexivity.
  - exists st, order'. repeat split; assumption.
Defined.

(** C7 (refuted as stated).  The sample order was confirmed at 2000; a
    second update to [confirmed] at 7000, made when the order is ready,
    succeeds and replaces the stored [confirmedAt].  An update to [pending]
    succeeds and writes no lifecycle timestamp at all. *)
Lemma confirmedAt_overwritten :
  (option_map Order.confirmedAt (findOrder "o-1" Sample.readyW)
   = Some (Some 2000)
   /\ let '(res, w') := updateOrderStatus Sample.bob "o-1" "confirmed" None
                          7000 Sample.readyW in
      Response.code res = 200
      /\ option_map Order.confirmedAt (findOrder "o-1" w') = Some (Some 7000))
  /\ let '(res, w') := updateOrderStatus Sample.root "o-1" "pending" None
                         7000 Sample.readyW in
     Response.code res = 200
     /\ forall st,
          option_map (timestampOf st) (findOrder "o-1" w')
          = option_map (timestampOf st) (findOrder "o-1" Sample.readyW).
Proof.
  vm_compute. repeat split; reflexivity.
Qed.

End StatusFrame.

(** ** The cancel route *)

Section CancelRoute.

Import Prisma Orders.

(** The test [timeDiff > 5] of the source, on milliseconds. *)
Lemma timeDiff_within (now createdAt : Z) :
  Qle_bool (timeDiff now createdAt) 5 = (now - createdAt <=? 5 * 60 * 1000).
Proof.
  unfold timeDiff.
  destruct (now - createdAt <=? 5 * 60 * 1000) eqn:E.
  - apply Qle_bool_iff. apply Z.leb_le in E.
    unfold Qle, Qdiv, Qmult, Qinv, inject_Z. simpl. lia.
  - apply not_true_is_false. intros H. apply Qle_bool_iff in H.
    apply Z.leb_gt in E.
    unfold Qle, Qdiv, Qmult, Qinv, inject_Z in H. simpl in H. lia.
Qed.

Lemma includes_cancel (st : OrderStatus) :
  Js.includes ["pending"; "confirmed"] (statusName st)
  = match st with pending | confirmed => true | _ => false end.
Proof. destruct st; reflexivity. Qed.

(** C6.  A cancellation by the customer of the order succeeds on a pending
    order at any time and on a confirmed order up to five minutes after its
    creation: the status becomes [cancelled] and [cancelledAt] is set to the
    clock of the request.  On a confirmed order past five minutes and on an
    order in any other status it is answered 400 and nothing is written. *)
Theorem cancelOrder_by_customer (user : User.t) (id : string)
    (reason : option string) (now : Z) (w w' : World) (res : Response.t)
    (order : Order.t) :
  findOrder id w = Some order ->
  Order.customerId order = User.id user ->
  cancelOrder user id reason now w = (res, w') ->
  if cancellable order now then
    Response.code res = 200
    /\ exists order',
         findOrder id w' = Some order'
         /\ Order.status order' = cancelled
         /\ Order.cancelledAt order' = Some now
  else
    Response.code res = 400 /\ w' = w.
Proof.
  intros Ho Hc H. unfold cancelOrder in H.
  rewrite Ho, Hc, String.eqb_refl in H. cbn [negb] in H.
  rewrite timeDiff_within, includes_cancel in H. unfold cancellable.
  destruct (Order.status order) eqn:Hs; cbn [negb OrderStatus_eqb] in H;
    rewrite ?andb_false_r, ?andb_true_r in H;
    try (inversion H; subst; split; reflexivity).
  - (* pending *)
    inversion H; subst. split; [reflexivity|].
    eexists. split.
    + rewrite findOrder_emit, findOrder_orderTrackingCreate,
        findOrder_orderUpdate_same, Ho. reflexivity.
    + split; reflexivity.
  - (* confirmed *)
    destruct (now - Order.createdAt order <=? 5 * 60 * 1000);
      cbn [negb] in H; inversion H; subst.
    + split; [reflexivity|].
      eexists. split.
      * rewrite findOrder_emit, findOrder_orderTrackingCreate,
          findOrder_orderUpdate_same, Ho. reflexivity.
      * split; reflexivity.
    + split; reflexivity.
Qed.

(** The sample order, created at 1000 and confirmed: Alice cancels it four
    minutes after its creation, and is refused six minutes after. *)
Lemma cancelOrder_by_customer_witness :
  (Response.code
     (fst (cancelOrder Sample.alice "o-1" None 241000 Sample.confirmedW)) = 200
   /\ exists order',
        findOrder "o-1"
          (snd (cancelOrder Sample.alice "o-1" None 241000 Sample.confirmedW))
        = Some order'
        /\ Order.status order' = cancelled
        /\ Order.cancelledAt order' = Some 241000)
  /\ (Response.code
        (fst (cancelOrder Sample.alice "o-1" None 361000 Sample.confirmedW))
      = 400
      /\ snd (cancelOrder Sample.alice "o-1" None 361000 Sample.confirmedW)
         = Sample.confirmedW).
Proof.
  destruct (findOrder "o-1" Sample.confirmedW) as [order|] eqn:Ho;
    [|discriminate].
  assert (Hv : order = Order.mk "o-1" "FF000001001" "u-alice" "rest-1"
                 "addr-1" "cod" 250 40 5 13 308 None Sample.basketItems
                 confirmed None 1000 (Some 2000) None None None None None
                 None None)
    by (vm_compute in Ho; inversion Ho; reflexivity).
  subst order. split.
  - exact (cancelOrder_by_customer Sample.alice "o-1" None 241000
             Sample.confirmedW _ _ _ Ho eq_refl (surjective_pairing _)).
  - exact (cancelOrder_by_customer Sample.alice "o-1" None 361000
             Sample.confirmedW _ _ _ Ho eq_refl (surjective_pairing _)).
Defined.

End CancelRoute.

(** ** The accept route *)

Section AcceptRoute.

Import Prisma Riders.

Lemma OrderStatus_eqb_false (a b : OrderStatus) :
  a <> b -> OrderStatus_eqb a b = false.
Proof.
  intros H. destruct (OrderStatus_eqb a b) eqn:E; [|reflexivity].
  apply OrderStatus_eqb_eq in E. contradiction.
Qed.

(** The inputs a claim succeeds on. *)
Lemma acceptOrder_ok (user : User.t) (orderId : string) (now : Z) (w : World)
    (rider : Rider.t) (order : Order.t) :
  findRider (User.id user) w = Some rider ->
  Rider.isAvailable rider = true ->
  findOrder orderId w = Some order ->
  Order.status order = ready ->
  Js.truthyStr (Order.riderId order) = false ->
  acceptOrder user orderId now w
  = (Response.ok 200 "Order accepted successfully"
       (applyUpdate (claimData rider) order),
     afterAccept user orderId now rider order w).
Proof.
  intros Hr Ha Ho Hs Ht. unfold acceptOrder.
  rewrite Hr, Ha, Ho, Hs, Ht. reflexivity.
Qed.

(** A claim that answers 200 passed the five checks. *)
Lemma acceptOrder_inv (user : User.t) (orderId : string) (now : Z)
    (w w' : World) (res : Response.t) :
  acceptOrder user orderId now w = (res, w') ->
  Response.code res = 200 ->
  exists rider order,
    findRider (User.id user) w = Some rider
    /\ Rider.isAvailable rider = true
    /\ findOrder orderId w = Some order
    /\ Order.status order = ready
    /\ Js.truthyStr (Order.riderId order) = false
    /\ res = Response.ok 200 "Order accepted successfully"
               (applyUpdate (claimData rider) order)
    /\ w' = afterAccept user orderId now rider order w.
Proof.
  unfold acceptOrder. intros H Hc.
  destruct (findRider (User.id user) w) as [rider|] eqn:Hr;
    [|inversion H; subst; discriminate].
  destruct (Rider.isAvailable rider) eqn:Ha; cbn [negb] in H;
    [|inversion H; subst; discriminate].
  destruct (findOrder orderId w) as [order|] eqn:Ho;
    [|inversion H; subst; discriminate].
  destruct (OrderStatus_eqb (Order.status order) ready) eqn:Hs;
    cbn [negb] in H; [|inversion H; subst; discriminate].
  destruct (Js.truthyStr (Order.riderId order)) eqn:Ht;
    [inversion H; subst; discriminate|].
  inversion H; subst. exists rider, order.
  apply OrderStatus_eqb_eq in Hs. repeat split; assumption.
Qed.

(** C5.  The accept route checks, in this order, that the caller has a
    rider profile (404), that the rider is available (400), that the order
    exists (404), that its status is [ready] (400) and that it carries no
    rider (400, already accepted); the first check that fails decides the
    answer, whatever the later ones would have said, and the store, the
    tracking log and the emitted messages are left as they were. *)
Theorem acceptOrder_fail_fast (user : User.t) (orderId : string) (now : Z)
    (w w' : World) (res : Response.t) :
  acceptOrder user orderId now w = (res, w') ->
  (findRider (User.id user) w = None ->
   res = Response.fail 404 "Rider profile not found" /\ w' = w)
  /\ (forall rider,
        findRider (User.id user) w = Some rider ->
        (Rider.isAvailable rider = false ->
         res = Response.fail 400 "Rider is not available" /\ w' = w)
        /\ (Rider.isAvailable rider = true ->
            (findOrder orderId w = None ->
             res = Response.fail 404 "Order not found" /\ w' = w)
            /\ (forall order,
                  findOrder orderId w = Some order ->
                  (Order.status order <> ready ->
                   res = Response.fail 400 "Order is not ready for pickup"
                   /\ w' = w)
                  /\ (Order.status order = ready ->
                      Js.truthyStr (Order.riderId order) = true ->
                      res = Response.fail 400
                              "Order has already been accepted by another rider"
                      /\ w' = w))))
  /\ (Response.code res <> 200 -> w' = w).
Proof.
  intros H. split; [|split].
  - intros Hr. unfold acceptOrder in H. rewrite Hr in H.
    inversion H. split; reflexivity.
  - intros rider Hr. unfold acceptOrder in H. rewrite Hr in H. split.
    + intros Ha. rewrite Ha in H. inversion H. split; reflexivity.
    + intros Ha. rewrite Ha in H. cbn [negb] in H. split.
      * intros Ho. rewrite Ho in H. inversion H. split; reflexivity.
      * intros order Ho. rewrite Ho in H. split.
        -- intros Hs. rewrite (OrderStatus_eqb_false _ _ Hs) in H.
           inversion H. split; reflexivity.
        -- intros Hs Ht. rewrite Hs, Ht in H. inversion H. split; reflexivity.
  - intros Hc. unfold acceptOrder in H.
    destruct (findRider (User.id user) w) as [rider|]; [|now inversion H].
    destruct (Rider.isAvailable rider); cbn [negb] in H; [|now inversion H].
    destruct (findOrder orderId w) as [order|]; [|now inversion H].
    destruct (OrderStatus_eqb (Order.status order) ready); cbn [negb] in H;
      [|now inversion H].
    destruct (Js.truthyStr (Order.riderId order)); [now inversion H|].
    inversion H; subst. simpl in Hc. congruence.
Qed.

(** Dave tries to claim the sample order after Carol has claimed it. *)
Lemma acceptOrder_fail_fast_witness :
  fst (acceptOrder Sample.dave "o-1" 6000 Sample.claimedW)
  = Response.fail 400 "Order has already been accepted by another rider"
  /\ snd (acceptOrder Sample.dave "o-1" 6000 Sample.claimedW)
     = Sample.claimedW.
Proof.
  destruct (findOrder "o-1" Sample.claimedW) as [order|] eqn:Ho;
    [|discriminate].
  assert (Hs : Order.status order = ready)
    by (vm_compute in Ho; inversion Ho; reflexivity).
  assert (Ht : Js.truthyStr (Order.riderId order) = true)
    by (vm_compute in Ho; inversion Ho; reflexivity).
  destruct (acceptOrder_fail_fast Sample.dave "o-1" 6000 Sample.claimedW
              _ _ (surjective_pairing _)) as [_ [H _]].
  destruct (H Sample.daveProfile eq_refl) as [_ H1].
  destruct (H1 eq_refl) as [_ H2].
  destruct (H2 order Ho) as [_ H3].
  exact (H3 Hs Ht).
Defined.

End AcceptRoute.

(** ** Two claims on one order *)

Section AcceptRace.

Import Prisma Riders.

(** The handler run one store call at a time, with nothing in between, is
    the handler. *)
Lemma acceptRun_acceptOrder (user : User.t) (orderId : string) (now : Z)
    (w : World) :
  acceptRun user orderId now w
  = (Finished (fst (acceptOrder user orderId now w)),
     snd (acceptOrder user orderId now w)).
Proof.
  unfold acceptRun, acceptOrder. cbn [acceptStep].
  destruct (findRider (User.id user) w) as [rider|]; [|reflexivity].
  destruct (Rider.isAvailable rider); cbn [negb acceptStep];
    [|reflexivity].
  destruct (findOrder orderId w) as [order|] eqn:Ho; [|reflexivity].
  destruct (OrderStatus_eqb (Order.status order) ready);
    cbn [negb acceptStep]; [|reflexivity].
  destruct (Js.truthyStr (Order.riderId order)); cbn [acceptStep];
    [reflexivity|].
  rewrite Ho. reflexivity.
Qed.

(** X21.  One request after the other: when a rider whose profile id is
    not empty has claimed the order, a later claim on it is refused as already
    accepted and writes nothing. *)
Lemma acceptOrder_second_refused (u1 u2 : User.t) (orderId : string)
    (t1 t2 : Z) (w w1 : World) (r1 : Response.t) (rider2 : Rider.t) :
  acceptOrder u1 orderId t1 w = (r1, w1) ->
  Response.code r1 = 200 ->
  (forall rider, findRider (User.id u1) w = Some rider -> Rider.id rider <> "") ->
  findRider (User.id u2) w = Some rider2 ->
  Rider.isAvailable rider2 = true ->
  acceptOrder u2 orderId t2 w1
  = (Response.fail 400 "Order has already been accepted by another rider",
     w1).
Proof.
  intros H1 Hc Hne Hr2 Ha2.
  destruct (acceptOrder_inv _ _ _ _ _ _ H1 Hc)
    as [rider [order [Hr [_ [Ho [Hs [_ [_ Hw]]]]]]]].
  assert (Ho1 : findOrder orderId w1
                = Some (applyUpdate (claimData rider) order)).
  { subst w1. unfold afterAccept.
    rewrite !findOrder_emit, findOrder_orderTrackingCreate,
      findOrder_orderUpdate_same, Ho. reflexivity. }
  assert (Hr1 : findRider (User.id u2) w1 = Some rider2)
    by (subst w1; exact Hr2).
  unfold acceptOrder. rewrite Hr1, Ha2, Ho1. cbn [negb].
  cbn [applyUpdate Order.status Order.riderId claimData pick pickOpt
       OrderUpdate.status OrderUpdate.riderId].
  rewrite Hs. cbn [OrderStatus_eqb negb Js.truthyStr].
  specialize (Hne rider Hr). apply String.eqb_neq in Hne. rewrite Hne.
  reflexivity.
Qed.

(** C3 (defect).  Carol and Dave both ask for the ready sample order, and
    each request reads the order before the other has written its claim.
    Under this schedule, [bothReadFirst], both requests answer
    200: the claim is an unconditional write, so the second write replaces
    the rider the first one stored, two tracking rows are added and no
    request is refused. *)
Theorem accept_race_both_succeed :
  let s := race Sample.carol Sample.dave "o-1" 5000 bothReadFirst
                Sample.readyW in
  option_map Order.status (findOrder "o-1" Sample.readyW) = Some ready
  /\ option_map Order.riderId (findOrder "o-1" Sample.readyW) = Some None
  /\ succeeded (pcFirst s) = true
  /\ succeeded (pcSecond s) = true
  /\ conflicted (pcFirst s) = false
  /\ conflicted (pcSecond s) = false
  /\ option_map Order.riderId (findOrder "o-1" (store s))
     = Some (Some "r-dave")
  /\ List.length (trackingOf "o-1" (store s))
     = (2 + List.length (trackingOf "o-1" Sample.readyW))%nat.
Proof. vm_compute. repeat split; reflexivity. Qed.

(** The same two requests one after the other: the first succeeds, the
    second is refused. *)
Example accept_in_turn :
  let s := race Sample.carol Sample.dave "o-1" 5000
                [First; First; First; First; Second; Second; Second; Second]
                Sample.readyW in
  succeeded (pcFirst s) = true /\ conflicted (pcSecond s) = true
  /\ option_map Order.riderId (findOrder "o-1" (store s))
     = Some (Some "r-carol").
Proof. vm_compute. repeat split; reflexivity. Qed.

End AcceptRace.

(** ** The tracking log *)

Section TrackingLog.

Import Prisma.

(** What a request does to the log: a request that succeeds adds one row,
    for its order and with its clock reading, after the rows that were
    there; a request that fails leaves the whole store as it was. *)
Lemma handle_tracking (req : Request) (now : Z) (w w' : World)
    (res : Response.t) :
  handle req now w = (res, w') ->
  (Response.success res = true
   /\ exists status message,
        tracking w'
        = (tracking w
           ++ [OrderTracking.mk (subject req) status message now])%list)
  \/ (Response.success res = false /\ w' = w).
Proof.
  intros H.
  destruct req; cbn [handle subject] in H |- *;
    [ unfold Orders.createOrder in H
    | unfold Orders.updateOrderStatus in H
    | unfold Orders.cancelOrder in H
    | unfold Riders.acceptOrder in H ];
    repeat next_test H;
    inversion H; subst;
    try (right; split; reflexivity);
    left; (split; [reflexivity|]); eexists; eexists; reflexivity.
Qed.

Lemma increasing_snoc (ts : list Z) (t : Z) :
  increasing ts -> Forall (fun x => x < t) ts ->
  increasing (ts ++ [t])%list.
Proof.
  unfold increasing. induction 1 as [|x xs Hs IH Hx]; intros Hlt; simpl.
  - constructor; constructor.
  - inversion Hlt; subst. constructor.
    + now apply IH.
    + apply Forall_app. split; [exact Hx|]. constructor; [assumption|constructor].
Qed.

Lemma timestampsOf_snoc (orderId : string) (e : OrderTracking.t)
    (w w' : World) :
  tracking w' = (tracking w ++ [e])%list ->
  timestampsOf orderId w'
  = (timestampsOf orderId w
     ++ (if String.eqb (OrderTracking.orderId e) orderId
         then [OrderTracking.timestamp e] else []))%list.
Proof.
  intros H. unfold timestampsOf, trackingOf. rewrite H, filter_app, map_app.
  simpl. destruct (String.eqb (OrderTracking.orderId e) orderId); reflexivity.
Qed.

Lemma loggedBefore_timestampsOf (orderId : string) (now : Z) (w : World) :
  loggedBefore now w -> Forall (fun x => x < now) (timestampsOf orderId w).
Proof.
  unfold loggedBefore, timestampsOf, trackingOf. intros H.
  apply Forall_map. apply Forall_forall. intros e He.
  apply filter_In in He. destruct He as [He _].
  rewrite Forall_forall in H. now apply H.
Qed.

(** A request served later than every row of the log keeps the timestamps
    of each order strictly increasing. *)
Lemma handle_increasing (req : Request) (now : Z) (w w' : World)
    (res : Response.t) (orderId : string) :
  handle req now w = (res, w') ->
  loggedBefore now w ->
  increasing (timestampsOf orderId w) ->
  increasing (timestampsOf orderId w').
Proof.
  intros H Hb Hi. destruct (handle_tracking _ _ _ _ _ H)
    as [[Hs [status [message Ht]]] | [Hs Hw]].
  - rewrite (timestampsOf_snoc orderId _ _ _ Ht).
    cbn [OrderTracking.orderId OrderTracking.timestamp].
    destruct (String.eqb (subject req) orderId).
    + apply increasing_snoc; [exact Hi|].
      now apply loggedBefore_timestampsOf.
    + now rewrite app_nil_r.
  - subst w'. exact Hi.
Qed.




(** X23.  Served at strictly later and later clock readings, on a log
    whose rows are older and in order, the requests leave every order with
    strictly increasing tracking timestamps. *)
Lemma serve_increasing (reqs : list (Request * Z)) (w : World) (t0 : Z) :
  Sorted.StronglySorted Z.lt (t0 :: map snd reqs) ->
  loggedBefore (t0 + 1) w ->
  (forall orderId, increasing (timestampsOf orderId w)) ->
  forall orderId, increasing (timestampsOf orderId (serve reqs w)).
Proof.
  revert w t0. induction reqs as [|[req now] rest IH]; intros w t0 Hs Hb Hi.
  - exact Hi.
  - cbn [serve]. inversion Hs as [|? ? Hs' Hall]; subst.
    cbn [map snd] in Hs', Hall. inversion Hall as [|? ? Hlt _]; subst.
    destruct (handle req now w) as [res w1] eqn:E. cbn [snd].
    assert (Hb0 : loggedBefore now w).
    { unfold loggedBefore in *. eapply Forall_impl; [|exact Hb].
      cbv beta. intros e He. lia. }
    apply (IH w1 now Hs').
    + unfold loggedBefore in *.
      destruct (handle_tracking _ _ _ _ _ E)
        as [[_ [status [message Ht]]] | [_ Hw]].
      * rewrite Ht. apply Forall_app. split.
        -- eapply Forall_impl; [|exact Hb0]. cbv beta. intros; lia.
        -- constructor; [cbn; lia|constructor].
      * subst w1. eapply Forall_impl; [|exact Hb0]. cbv beta. intros; lia.
    + intros oid. apply (handle_increasing _ _ _ _ _ _ E Hb0). apply Hi.
Qed.

End TrackingLog.

(** ** Distance *)

Section Distance.

Import Riders.

Local Open Scope R_scope.

Lemma atan2_pos_zero (y : R) : 0 < y -> atan2 y 0 = PI / 2.
Proof.
  intros Hy. unfold atan2.
  destruct (Rlt_dec 0 0) as [H|_]; [lra|].
  destruct (Rlt_dec 0 0) as [H|_]; [lra|].
  destruct (Rlt_dec 0 y) as [_|H]; [reflexivity | contradiction].
Qed.

Lemma atan2_zero_pos (x : R) : 0 < x -> atan2 0 x = 0.
Proof.
  intros Hx. unfold atan2.
  destruct (Rlt_dec 0 x) as [_|H]; [|contradiction].
  replace (0 / x) with 0 by (field; lra). apply atan_0.
Qed.

(** A restaurant at the place of the rider is at distance zero. *)
Lemma distance_same (lat lng : R) : distance lat lng lat lng = 0.
Proof.
  unfold distance.
  replace ((lat - lat) * PI / 180 / 2) with 0 by field.
  replace ((lng - lng) * PI / 180 / 2) with 0 by field.
  rewrite sin_0.
  replace (0 * 0 + cos (lat * PI / 180) * cos (lat * PI / 180) * 0 * 0)
    with 0 by ring.
  rewrite sqrt_0. replace (1 - 0) with 1 by ring. rewrite sqrt_1.
  rewrite atan2_zero_pos by lra. ring.
Qed.

(** A restaurant at the antipode of the rider is half the circumference of
    the earth away. *)
Lemma distance_antipode (lat lng : R) :
  distance lat lng (- lat) (lng - 180) = 6371 * PI.
Proof.
  unfold distance.
  replace ((- lat - lat) * PI / 180 / 2) with (- (lat * PI / 180)) by field.
  replace ((lng - 180 - lng) * PI / 180 / 2) with (- (PI / 2)) by field.
  replace (- lat * PI / 180) with (- (lat * PI / 180)) by field.
  rewrite !sin_neg, cos_neg, sin_PI2.
  pose proof (sin2_cos2 (lat * PI / 180)) as H. unfold Rsqr in H.
  replace (- sin (lat * PI / 180) * - sin (lat * PI / 180)
           + cos (lat * PI / 180) * cos (lat * PI / 180) * - (1) * - (1))
    with 1 by lra.
  rewrite sqrt_1. replace (1 - 1) with 0 by ring. rewrite sqrt_0.
  rewrite atan2_pos_zero by lra. field.
Qed.

Lemma half_circumference_far : 10 < 6371 * PI.
Proof. pose proof PI2_1. lra. Qed.

End Distance.

(** ** The query for ready orders *)

Section ReadyOrders.

Import Prisma Riders.

Lemma filter_none {A : Type} (f : A -> bool) (l : list A) :
  (forall x, In x l -> f x = false) -> filter f l = [].
Proof.
  induction l as [|y l IH]; intros H; [reflexivity|].
  cbn [filter]. rewrite (H y (or_introl eq_refl)).
  apply IH. intros x Hx. apply H. now right.
Qed.

Lemma firstn_subset {A : Type} (n : nat) (l : list A) (x : A) :
  In x (firstn n l) -> In x l.
Proof.
  revert l. induction n as [|n IH]; intros l H; [contradiction|].
  destruct l as [|y l]; [contradiction|].
  cbn [firstn] in H. destruct H as [-> | H]; [now left | right; now apply IH].
Qed.

Lemma readyAtLe_total (a b : Order.t) :
  readyAtLe a b = false -> readyAtLe b a = true.
Proof.
  unfold readyAtLe.
  destruct (Order.readyAt a), (Order.readyAt b); intros H;
    try reflexivity; try discriminate.
  apply Z.leb_gt in H. apply Z.leb_le. lia.
Qed.

Lemma readyAtLe_trans (a b c : Order.t) :
  readyAtLe a b = true -> readyAtLe b c = true -> readyAtLe a c = true.
Proof.
  unfold readyAtLe.
  destruct (Order.readyAt a), (Order.readyAt b), (Order.readyAt c);
    intros H1 H2; try reflexivity; try discriminate.
  apply Z.leb_le in H1, H2. apply Z.leb_le. lia.
Qed.

Lemma insertByReadyAt_In (o x : Order.t) (l : list Order.t) :
  In x (insertByReadyAt o l) <-> x = o \/ In x l.
Proof.
  induction l as [|y l IH]; simpl.
  - intuition.
  - destruct (readyAtLe o y); simpl; [intuition|].
    rewrite IH. intuition.
Qed.

Lemma insertByReadyAt_length (o : Order.t) (l : list Order.t) :
  List.length (insertByReadyAt o l) = S (List.length l).
Proof.
  induction l as [|y l IH]; simpl; [reflexivity|].
  destruct (readyAtLe o y); simpl; [reflexivity | now rewrite IH].
Qed.

Lemma insertByReadyAt_filter_length (f : Order.t -> bool) (o : Order.t)
    (l : list Order.t) :
  List.length (filter f (insertByReadyAt o l))
  = List.length (filter f (o :: l)).
Proof.
  induction l as [|y l IH]; [reflexivity|].
  cbn [insertByReadyAt]. destruct (readyAtLe o y); [reflexivity|].
  cbn [filter] in *. destruct (f y), (f o); cbn [List.length] in *; lia.
Qed.

Lemma sortByReadyAt_In (x : Order.t) (l : list Order.t) :
  In x (sortByReadyAt l) <-> In x l.
Proof.
  induction l as [|y l IH]; simpl; [reflexivity|].
  rewrite insertByReadyAt_In, IH. intuition.
Qed.

Lemma sortByReadyAt_filter_length (f : Order.t -> bool) (l : list Order.t) :
  List.length (filter f (sortByReadyAt l)) = List.length (filter f l).
Proof.
  induction l as [|y l IH]; [reflexivity|].
  cbn [sortByReadyAt fold_right].
  rewrite insertByReadyAt_filter_length. cbn [filter].
  fold (sortByReadyAt l). destruct (f y); cbn [List.length]; now rewrite IH.
Qed.

Lemma insertByReadyAt_sorted (o : Order.t) (l : list Order.t) :
  StronglySorted readyAtOrder l ->
  StronglySorted readyAtOrder (insertByReadyAt o l).
Proof.
  induction 1 as [|y l Hs IH Hy]; simpl.
  - constructor; constructor.
  - destruct (readyAtLe o y) eqn:E.
    + constructor; [now constructor|].
      constructor; [exact E|].
      eapply Forall_impl; [|exact Hy]. intros z Hz.
      unfold readyAtOrder in *. eapply readyAtLe_trans; eassumption.
    + constructor; [exact IH|].
      apply Forall_forall. intros z Hz. apply insertByReadyAt_In in Hz.
      destruct Hz as [-> | Hz].
      * now apply readyAtLe_total.
      * rewrite Forall_forall in Hy. now apply Hy.
Qed.

(** The query returns its rows in ascending order of [readyAt]. *)
Lemma sortByReadyAt_sorted (l : list Order.t) :
  StronglySorted readyAtOrder (sortByReadyAt l).
Proof.
  induction l as [|y l IH]; simpl; [constructor|].
  now apply insertByReadyAt_sorted.
Qed.

(** In a sorted list, fewer than [n] rows come strictly before a row that
    is among the first [n]. *)
Lemma firstn_sorted_before (o : Order.t) (l : list Order.t) :
  StronglySorted readyAtOrder l ->
  forall n, In o (firstn n l) ->
  (List.length (filter (strictlyBefore o) l) < n)%nat.
Proof.
  induction 1 as [|y l Hs IH Hy]; intros n Hin.
  - destruct n; contradiction.
  - destruct n as [|n]; [contradiction|].
    cbn [firstn] in Hin. destruct Hin as [-> | Hin].
    + assert (Hnone : filter (strictlyBefore o) (o :: l) = []).
      { apply filter_none. intros x Hx. unfold strictlyBefore.
        destruct Hx as [<- | Hx].
        - destruct (readyAtLe o o); reflexivity.
        - rewrite Forall_forall in Hy. specialize (Hy x Hx).
          unfold readyAtOrder in Hy. rewrite Hy. apply andb_false_r. }
      rewrite Hnone. simpl. lia.
    + specialize (IH n Hin). cbn [filter].
      destruct (strictlyBefore o y); cbn [List.length]; lia.
Qed.

Lemma findReadyOrders_In (o : Order.t) (w : World) :
  In o (findReadyOrders w) -> In o (orders w) /\ readyUnassigned o = true.
Proof.
  unfold findReadyOrders. intros H.
  assert (H' : In o (sortByReadyAt (filter readyUnassigned (orders w)))).
  { eapply firstn_subset. exact H. }
  apply (proj1 (sortByReadyAt_In _ _)) in H'. now apply filter_In in H'.
Qed.

(** An order with twenty ready, unassigned orders strictly before it is not
    among the rows of the query. *)
Lemma findReadyOrders_cap (o : Order.t) (w : World) :
  (20 <= List.length (olderCandidates o w))%nat ->
  ~ In o (findReadyOrders w).
Proof.
  unfold olderCandidates, findReadyOrders. intros Hlen Hin.
  pose proof (firstn_sorted_before o _
                (sortByReadyAt_sorted (filter readyUnassigned (orders w)))
                20%nat Hin) as H.
  rewrite sortByReadyAt_filter_length in H. lia.
Qed.

End ReadyOrders.

(** ** The rider's search *)

Section AvailableOrders.

Import Prisma Riders.

Lemma falsyR_false (v : R) : v <> 0%R -> falsyR (Some v) = false.
Proof.
  intros H. unfold falsyR. destruct (Req_EM_T v 0); [contradiction|reflexivity].
Qed.

Lemma falsyR_zero : falsyR (Some 0%R) = true.
Proof.
  unfold falsyR. destruct (Req_EM_T 0 0) as [_|H]; [reflexivity|].
  now contradiction H.
Qed.

(** The filter on a restaurant with both coordinates different from zero
    is the test of the distance. *)
Lemma withinRadius_located (riderLat riderLng maxRadius lat lng : R) :
  lat <> 0%R -> lng <> 0%R ->
  withinRadius riderLat riderLng maxRadius (Location.mk (Some lat) (Some lng))
  = true
  <-> (distance riderLat riderLng lat lng <= maxRadius)%R.
Proof.
  intros Hlat Hlng. unfold withinRadius.
  cbn [Location.latitude Location.longitude].
  rewrite (falsyR_false _ Hlat), (falsyR_false _ Hlng). cbn [orb].
  destruct (Rle_dec (distance riderLat riderLng lat lng) maxRadius);
    split; intros H; try reflexivity; try assumption;
    [discriminate | contradiction].
Qed.

(** The filter lets through a restaurant one of whose coordinates is
    missing or zero. *)
Lemma withinRadius_unlocated (riderLat riderLng maxRadius : R)
    (loc : Location.t) :
  falsyR (Location.latitude loc) || falsyR (Location.longitude loc) = true ->
  withinRadius riderLat riderLng maxRadius loc = true.
Proof. intros H. unfold withinRadius. now rewrite H. Qed.

(** The orders of an answer come from the rows of the query. *)
Lemma availableOrders_from_query (user : User.t)
    (latitude longitude radius : option R) (geo : string -> Location.t)
    (w : World) (o : Order.t) :
  In o (ListResponse.orders
          (availableOrders user latitude longitude radius geo w)) ->
  In o (findReadyOrders w)
  /\ forall riderLat riderLng,
       latitude = Some riderLat -> longitude = Some riderLng ->
       withinRadius riderLat riderLng (radiusOr radius)
                    (geo (Order.restaurantId o)) = true.
Proof.
  unfold availableOrders.
  destruct (findRider (User.id user) w) as [rider|]; [|contradiction].
  destruct (Rider.isAvailable rider); cbn [negb ListResponse.orders];
    [|contradiction].
  destruct latitude as [riderLat|], longitude as [riderLng|]; intros H;
    try (split; [exact H | intros; discriminate]).
  apply filter_In in H. destruct H as [Hin Hf]. split; [exact Hin|].
  intros a b Ha Hb. inversion Ha; inversion Hb; subst. exact Hf.
Qed.

(** X26.  What holds of every listed order: it is ready and has no rider,
    and, when the rider gave a location and the restaurant has two
    coordinates different from zero, it is within the radius. *)
Lemma availableOrders_sound (user : User.t)
    (latitude longitude radius : option R) (geo : string -> Location.t)
    (w : World) (o : Order.t) :
  In o (ListResponse.orders
          (availableOrders user latitude longitude radius geo w)) ->
  Order.status o = ready
  /\ Order.riderId o = None
  /\ forall riderLat riderLng lat lng,
       latitude = Some riderLat -> longitude = Some riderLng ->
       geo (Order.restaurantId o) = Location.mk (Some lat) (Some lng) ->
       lat <> 0%R -> lng <> 0%R ->
       (distance riderLat riderLng lat lng <= radiusOr radius)%R.
Proof.
  intros H. apply availableOrders_from_query in H. destruct H as [Hq Hf].
  apply findReadyOrders_In in Hq. destruct Hq as [_ Hr].
  unfold readyUnassigned in Hr. apply andb_prop in Hr.
  destruct Hr as [Hs Hn]. apply OrderStatus_eqb_eq in Hs.
  split; [exact Hs|]. split.
  - destruct (Order.riderId o); [discriminate | reflexivity].
  - intros riderLat riderLng lat lng Hlat Hlng Hgeo Hl1 Hl2.
    specialize (Hf _ _ Hlat Hlng). rewrite Hgeo in Hf.
    now apply withinRadius_located in Hf.
Qed.

(** C8 (defect).  Carol asks from the equator, at 102 degrees east, with
    the default radius of 10.  The restaurant of the ready sample order has
    recorded coordinates, latitude 0 and longitude 78 degrees west, half the
    circumference of the earth away.  The filter takes the latitude 0 for a
    missing one and lists the order. *)
Theorem availableOrders_lists_far_restaurant_on_equator :
  (distance 0 102 0 (- 78) = 6371 * PI)%R
  /\ (10 < distance 0 102 0 (- 78))%R
  /\ exists o,
       ListResponse.orders
         (availableOrders Sample.carol (Some 0%R) (Some 102%R) None
            SampleGeo.equator Sample.readyW) = [o]
       /\ Order.id o = "o-1"
       /\ SampleGeo.equator (Order.restaurantId o)
          = Location.mk (Some 0%R) (Some (- 78)%R).
Proof.
  assert (Hd : (distance 0 102 0 (- 78) = 6371 * PI)%R).
  { replace 0%R with (- 0)%R at 2 by ring.
    replace (- 78)%R with (102 - 180)%R by ring.
    apply distance_antipode. }
  split; [exact Hd|]. split; [rewrite Hd; apply half_circumference_far|].
  unfold availableOrders.
  change (findRider (User.id Sample.carol) Sample.readyW)
    with (Some Sample.carolProfile).
  cbn [Rider.isAvailable Sample.carolProfile negb ListResponse.orders].
  destruct (findReadyOrders Sample.readyW) as [|o l] eqn:E; [discriminate|].
  destruct l; [|discriminate].
  exists o. split; [|split].
  - cbn [filter]. rewrite withinRadius_unlocated; [reflexivity|].
    cbn [SampleGeo.equator Location.latitude]. now rewrite falsyR_zero.
  - vm_compute in E. inversion E. reflexivity.
  - reflexivity.
Qed.

End AvailableOrders.

Section Cap.

Import Prisma Riders.

Lemma filter_length_bound {A : Type} (f : A -> bool) (l : list A) :
  (List.length (filter f l) <= List.length l)%nat.
Proof.
  induction l as [|x l IH]; simpl; [lia|].
  destruct (f x); simpl; lia.
Qed.

Lemma findReadyOrders_length (w : World) :
  (List.length (findReadyOrders w) <= 20)%nat.
Proof. unfold findReadyOrders. apply firstn_le_length. Qed.

(** The answer is the list of rows of the query, or a part of it. *)
Lemma availableOrders_within_query (user : User.t)
    (latitude longitude radius : option R) (geo : string -> Location.t)
    (w : World) :
  exists f,
    ListResponse.orders (availableOrders user latitude longitude radius geo w)
    = filter f (findReadyOrders w).
Proof.
  unfold availableOrders.
  destruct (findRider (User.id user) w) as [rider|];
    [|exists (fun _ => false); symmetry; now apply filter_none].
  destruct (Rider.isAvailable rider); cbn [negb ListResponse.orders];
    [|exists (fun _ => false); symmetry; now apply filter_none].
  destruct latitude, longitude; try (eexists; reflexivity);
    exists (fun _ => true); symmetry; apply forallb_filter_id;
    apply forallb_forall; reflexivity.
Qed.

Lemma insertByReadyAt_perm (o : Order.t) (l : list Order.t) :
  Permutation (insertByReadyAt o l) (o :: l).
Proof.
  induction l as [|y l IH]; cbn [insertByReadyAt]; [apply Permutation_refl|].
  destruct (readyAtLe o y); [apply Permutation_refl|].
  eapply Permutation_trans; [apply perm_skip; exact IH | apply perm_swap].
Qed.

(** Ordering the rows neither drops nor repeats one. *)
Lemma sortByReadyAt_perm (l : list Order.t) :
  Permutation (sortByReadyAt l) l.
Proof.
  induction l as [|y l IH]; [apply Permutation_refl|].
  cbn [sortByReadyAt fold_right]. fold (sortByReadyAt l).
  eapply Permutation_trans; [apply insertByReadyAt_perm|].
  now apply perm_skip.
Qed.

(** The rows of the query and the rows it leaves out are, together, the
    ready, unassigned orders in ascending order of [readyAt]; the query
    leaves none out unless it has twenty. *)
Lemma findReadyOrders_oldest (w : World) :
  exists rest,
    Permutation (findReadyOrders w ++ rest)
                (filter readyUnassigned (orders w))
    /\ StronglySorted readyAtOrder (findReadyOrders w ++ rest)%list
    /\ List.length (findReadyOrders w)
       = Nat.min 20 (List.length (filter readyUnassigned (orders w))).
Proof.
  exists (skipn 20 (sortByReadyAt (filter readyUnassigned (orders w)))).
  unfold findReadyOrders. rewrite firstn_skipn.
  split; [apply sortByReadyAt_perm|]. split; [apply sortByReadyAt_sorted|].
  rewrite length_firstn.
  now rewrite (Permutation_length (sortByReadyAt_perm _)).
Qed.

(** The answer to an available rider: the rows of the query, or, when the
    rider gives a location, those of them that pass the filter. *)
Lemma availableOrders_listed (user : User.t)
    (latitude longitude radius : option R) (geo : string -> Location.t)
    (w : World) (rider : Rider.t) (o : Order.t) :
  findRider (User.id user) w = Some rider ->
  Rider.isAvailable rider = true ->
  In o (ListResponse.orders
          (availableOrders user latitude longitude radius geo w))
  <-> In o (findReadyOrders w)
      /\ forall riderLat riderLng,
           latitude = Some riderLat -> longitude = Some riderLng ->
           withinRadius riderLat riderLng (radiusOr radius)
                        (geo (Order.restaurantId o)) = true.
Proof.
  intros Hr Ha. split; [apply availableOrders_from_query|].
  intros [Hin Hf]. unfold availableOrders. rewrite Hr, Ha.
  cbn [negb ListResponse.orders].
  destruct latitude as [riderLat|], longitude as [riderLng|];
    try exact Hin.
  apply filter_In. split; [exact Hin|]. now apply Hf.
Qed.

(** C10.  The query keeps the twenty rows with the oldest [readyAt], and
    the filter on the distance runs on those rows only.  The rows are
    twenty of the ready, unassigned orders, or all of them when there are
    fewer; each of them became ready no later than each order left out; an
    available rider is shown exactly those rows, or, with a location,
    exactly those of them that pass the filter.  So an answer has at most
    twenty orders; an order that twenty ready, unassigned orders precede in
    [readyAt] is never listed, whatever its distance; and when the rider
    gives a location and every row of the query is out of the radius, the
    answer is empty, whatever ready, unassigned orders within the radius
    the store holds beyond those rows. *)
Theorem availableOrders_capped_before_filter (user : User.t)
    (latitude longitude radius : option R) (geo : string -> Location.t)
    (w : World) :
  let candidates := filter readyUnassigned (orders w) in
  let rows := findReadyOrders w in
  let listed :=
    ListResponse.orders
      (availableOrders user latitude longitude radius geo w) in
  (exists rest,
     Permutation (rows ++ rest) candidates
     /\ StronglySorted readyAtOrder (rows ++ rest)%list
     /\ List.length rows = Nat.min 20 (List.length candidates))
  /\ (forall rider,
        findRider (User.id user) w = Some rider ->
        Rider.isAvailable rider = true ->
        forall o,
          In o listed
          <-> In o rows
              /\ forall riderLat riderLng,
                   latitude = Some riderLat -> longitude = Some riderLng ->
                   withinRadius riderLat riderLng (radiusOr radius)
                                (geo (Order.restaurantId o)) = true)
  /\ (List.length listed <= 20)%nat
  /\ (forall o, (20 <= List.length (olderCandidates o w))%nat -> ~ In o listed)
  /\ (forall riderLat riderLng,
        latitude = Some riderLat -> longitude = Some riderLng ->
        (forall x, In x rows ->
                   withinRadius riderLat riderLng (radiusOr radius)
                                (geo (Order.restaurantId x)) = false) ->
        listed = []).
Proof.
  cbv zeta. split; [apply findReadyOrders_oldest|].
  split; [intros rider Hr Ha o; now apply (availableOrders_listed _ _ _ _ _ _ rider)|].
  split; [|split].
  - destruct (availableOrders_within_query user latitude longitude radius
                geo w) as [f ->].
    eapply Nat.le_trans; [apply filter_length_bound|].
    apply findReadyOrders_length.
  - intros o Hlen Hin. apply availableOrders_from_query in Hin.
    destruct Hin as [Hin _]. now apply (findReadyOrders_cap o w).
  - intros riderLat riderLng -> -> Hout. unfold availableOrders.
    destruct (findRider (User.id user) w) as [rider|]; [|reflexivity].
    destruct (Rider.isAvailable rider); cbn [negb ListResponse.orders];
      [|reflexivity].
    apply filter_none. exact Hout.
Qed.

Lemma withinRadius_far :
  withinRadius SampleGeo.riderLat SampleGeo.riderLng 10
    (SampleGeo.geo "rest-far") = false.
Proof.
  apply not_true_is_false. intros H.
  change (SampleGeo.geo "rest-far")
    with (Location.mk (Some (- SampleGeo.riderLat)%R)
                      (Some (SampleGeo.riderLng - 180)%R)) in H.
  apply withinRadius_located in H.
  - rewrite distance_antipode in H. pose proof half_circumference_far. lra.
  - unfold SampleGeo.riderLat. lra.
  - unfold SampleGeo.riderLng. lra.
Qed.

Lemma withinRadius_near :
  withinRadius SampleGeo.riderLat SampleGeo.riderLng 10
    (SampleGeo.geo "rest-near") = true.
Proof.
  change (SampleGeo.geo "rest-near")
    with (Location.mk (Some SampleGeo.riderLat) (Some SampleGeo.riderLng)).
  apply withinRadius_located.
  - unfold SampleGeo.riderLat. lra.
  - unfold SampleGeo.riderLng. lra.
  - rewrite distance_same. lra.
Qed.

(** Twenty-one ready orders without a rider: twenty at the antipode of the
    rider, ready first, and one at her place, ready last.  The query keeps
    the twenty and leaves the near one out; her search within 10 km returns
    nothing, and her search without a location returns the twenty. *)
Lemma availableOrders_capped_before_filter_witness :
  In SampleGeo.nearOrder (orders SampleGeo.busy)
  /\ readyUnassigned SampleGeo.nearOrder = true
  /\ withinRadius SampleGeo.riderLat SampleGeo.riderLng 10
       (SampleGeo.geo (Order.restaurantId SampleGeo.nearOrder)) = true
  /\ List.length (filter readyUnassigned (orders SampleGeo.busy)) = 21%nat
  /\ List.length (findReadyOrders SampleGeo.busy) = 20%nat
  /\ ListResponse.orders
       (availableOrders Sample.carol (Some SampleGeo.riderLat)
          (Some SampleGeo.riderLng) None SampleGeo.geo SampleGeo.busy) = []
  /\ ~ In SampleGeo.nearOrder
       (ListResponse.orders
          (availableOrders Sample.carol None None None SampleGeo.geo
             SampleGeo.busy))
  /\ (forall o, In o (findReadyOrders SampleGeo.busy) ->
                In o (ListResponse.orders
                        (availableOrders Sample.carol None None None
                           SampleGeo.geo SampleGeo.busy))).
Proof.
  split; [now left|]. split; [reflexivity|].
  split; [exact withinRadius_near|]. split; [reflexivity|].
  split; [|split; [|split]].
  - destruct (availableOrders_capped_before_filter Sample.carol None None
                None SampleGeo.geo SampleGeo.busy)
      as [[rest [_ [_ Hlen]]] _].
    exact Hlen.
  - apply (availableOrders_capped_before_filter Sample.carol
             (Some SampleGeo.riderLat) (Some SampleGeo.riderLng) None
             SampleGeo.geo SampleGeo.busy)
      with (riderLat := SampleGeo.riderLat) (riderLng := SampleGeo.riderLng);
      [reflexivity | reflexivity |].
    intros x Hx.
    assert (Hfar : Forall (fun y => Order.restaurantId y = "rest-far")
                          (findReadyOrders SampleGeo.busy))
      by (vm_compute; repeat constructor).
    rewrite Forall_forall in Hfar. rewrite (Hfar x Hx).
    exact withinRadius_far.
  - apply (availableOrders_capped_before_filter Sample.carol None None None
             SampleGeo.geo SampleGeo.busy).
    apply Nat.leb_le. reflexivity.
  - intros o Hin.
    apply (proj1 (proj2 (availableOrders_capped_before_filter Sample.carol
                           None None None SampleGeo.geo SampleGeo.busy))
             Sample.carolProfile eq_refl eq_refl o).
    split; [exact Hin | intros a b Hd; discriminate Hd].
Defined.

End Cap.

(** ** What the later operations leave of an order *)

Section Frozen.

Import Prisma.

Lemma sameContent_refl (o : Order.t) : sameContent o o.
Proof. unfold sameContent. repeat split. Qed.

Lemma findOrder_orderUpdate_content (id id0 : string) (d : OrderUpdate.t)
    (w : World) (o : Order.t) :
  findOrder id w = Some o ->
  exists o', findOrder id (orderUpdate id0 d w) = Some o' /\ sameContent o' o.
Proof.
  intros Ho. destruct (String.eqb id id0) eqn:E.
  - apply String.eqb_eq in E. subst id0.
    rewrite findOrder_orderUpdate_same, Ho. eexists. split; [reflexivity|].
    apply applyUpdate_sameContent.
  - apply String.eqb_neq in E.
    rewrite findOrder_orderUpdate_other by exact E.
    exists o. split; [exact Ho | apply sameContent_refl].
Qed.

Lemma findOrder_orderCreate (id : string) (o1 o : Order.t) (w : World) :
  findOrder id w = Some o -> findOrder id (orderCreate o1 w) = Some o.
Proof.
  unfold findOrder, orderCreate. cbn [orders withOrders].
  induction (orders w) as [|x l IH]; [discriminate|].
  cbn [find app]. destruct (String.eqb (Order.id x) id); [trivial | exact IH].
Qed.

(** X22.  The lines and the monetary breakdown of an order are those of
    its creation: whatever request the router serves, an order that was in the
    store is still there with the same identity, parties, lines, subtotal,
    fees, taxes and total. *)
Lemma handle_keeps_content (req : Request) (now : Z) (w w' : World)
    (res : Response.t) (id : string) (o : Order.t) :
  handle req now w = (res, w') ->
  findOrder id w = Some o ->
  exists o', findOrder id w' = Some o' /\ sameContent o' o.
Proof.
  intros H Ho.
  destruct req; cbn [handle] in H;
    [ unfold Orders.createOrder in H
    | unfold Orders.updateOrderStatus in H
    | unfold Orders.cancelOrder in H
    | unfold Riders.acceptOrder in H ];
    repeat next_test H; inversion H; subst;
    try (exists o; split; [exact Ho | apply sameContent_refl]);
    rewrite ?findOrder_emit, ?findOrder_orderTrackingCreate.
  - exists o. split; [now apply findOrder_orderCreate | apply sameContent_refl].
  - now apply findOrder_orderUpdate_content.
  - now apply findOrder_orderUpdate_content.
  - now apply findOrder_orderUpdate_content.
Qed.

(** What a successful creation stores: the totals of the lines at the
    prices of the menu, as [calculateOrderTotals] gives them. *)
Lemma createOrder_stores_totals (user : User.t)
    (restaurantId addressId : string) (items : list ItemRequest.t)
    (paymentMethod : string) (specialInstructions : option string)
    (newId orderNumber : string) (now : Z) (w w' : World)
    (res : Response.t) :
  Orders.createOrder user restaurantId addressId items paymentMethod
    specialInstructions newId orderNumber now w = (res, w') ->
  Response.success res = true ->
  exists r orderItems order,
    findRestaurant restaurantId w = Some r
    /\ Orders.prepareItems
         (findMenuItems (map ItemRequest.menuItemId items) restaurantId w)
         items = Some orderItems
    /\ order = Orders.newOrder newId orderNumber (User.id user) restaurantId
                 addressId paymentMethod specialInstructions
                 (Orders.calculateOrderTotals orderItems r) orderItems now
    /\ Response.order res = Some order
    /\ orders w' = (orders w ++ [order])%list.
Proof.
  intros H Hs. unfold Orders.createOrder in H.
  repeat next_test H; inversion H; subst; try discriminate.
  eexists; eexists; eexists. repeat split; reflexivity.
Qed.

(** X24.  A rider whose profile id differs from her user id claims an
    order and is then refused every status update on it. *)
Lemma accept_then_status_forbidden (user : User.t) (orderId status : string)
    (message : option string) (t1 t2 : Z) (w w1 : World) (r1 : Response.t)
    (rider : Rider.t) :
  User.role user = Role.rider ->
  findRider (User.id user) w = Some rider ->
  Rider.id rider <> User.id user ->
  Riders.acceptOrder user orderId t1 w = (r1, w1) ->
  Response.code r1 = 200 ->
  Js.includes validStatuses status = true ->
  Response.code (fst (Orders.updateOrderStatus user orderId status message
                        t2 w1)) <> 200.
Proof.
  intros Hrole Hr Hne H1 Hc Hv.
  destruct (acceptOrder_inv _ _ _ _ _ _ H1 Hc)
    as [rider' [order [Hr' [_ [Ho [_ [_ [_ Hw]]]]]]]].
  rewrite Hr in Hr'. inversion Hr'; subst rider'. clear Hr'.
  assert (Ho1 : findOrder orderId w1
                = Some (applyUpdate (Riders.claimData rider) order)).
  { subst w1. unfold afterAccept.
    rewrite !findOrder_emit, findOrder_orderTrackingCreate,
      findOrder_orderUpdate_same, Ho. reflexivity. }
  unfold Orders.updateOrderStatus. rewrite Hv, Ho1. cbn [negb].
  destruct (findRestaurant _ w1) as [r|]; [|simpl; discriminate].
  destruct (statusOfString status) as [st|]; [|simpl; discriminate].
  assert (Ha : Orders.isAuthorized user
                 (applyUpdate (Riders.claimData rider) order)
                 (Restaurant.userId r) status = false).
  { unfold Orders.isAuthorized. rewrite Hrole. cbn [Role.eqb andb].
    cbn [applyUpdate Order.riderId Riders.claimData pickOpt
         OrderUpdate.riderId Js.sameId].
    apply String.eqb_neq in Hne. rewrite Hne. reflexivity. }
  rewrite Ha. simpl. discriminate.
Qed.

End Frozen.

(** ** The order number *)

Section OrderNumber.

Import Text OrderViews.

Lemma string_of_list_ascii_app (a b : list ascii) :
  string_of_list_ascii (a ++ b)
  = string_of_list_ascii a ++ string_of_list_ascii b.
Proof. induction a as [|c a IH]; simpl; [reflexivity | now rewrite IH]. Qed.

Lemma length_string_of_list_ascii (l : list ascii) :
  String.length (string_of_list_ascii l) = List.length l.
Proof. induction l as [|c l IH]; simpl; [reflexivity | now rewrite IH]. Qed.

Lemma digit_isDigit (d : Z) : 0 <= d < 10 -> isDigit (digit d).
Proof.
  intros H. unfold isDigit, digit.
  rewrite nat_ascii_embedding by lia. lia.
Qed.

Lemma lowDigits_length (k : nat) (n : Z) : List.length (lowDigits k n) = k.
Proof.
  revert n. induction k as [|k IH]; intros n; simpl; [reflexivity|].
  now rewrite IH.
Qed.

Lemma lowDigits_isDigit (k : nat) (n : Z) : Forall isDigit (lowDigits k n).
Proof.
  revert n. induction k as [|k IH]; intros n; simpl; constructor.
  - apply digit_isDigit. apply Z.mod_pos_bound. lia.
  - apply IH.
Qed.

(** The low digits of a number do not change when a power of ten with as
    many zeros is added. *)
Lemma lowDigits_period (k : nat) (n : Z) :
  lowDigits k (n + 10 ^ Z.of_nat k) = lowDigits k n.
Proof.
  revert n. induction k as [|k IH]; intros n; [reflexivity|].
  cbn [lowDigits].
  replace (10 ^ Z.of_nat (S k)) with (10 ^ Z.of_nat k * 10)
    by (rewrite Nat2Z.inj_succ, Z.pow_succ_r by lia; ring).
  rewrite Z_mod_plus_full, Z.div_add by lia. now rewrite IH.
Qed.

Lemma digitsRev_firstn (k : nat) :
  forall (f : nat) (n : Z),
    10 ^ Z.of_nat k <= n -> n < 2 ^ Z.of_nat f ->
    firstn (S k) (digitsRev f n) = lowDigits (S k) n.
Proof.
  induction k as [|k IH]; intros f n Hlo Hhi.
  - destruct f as [|f]; [simpl in *; lia|].
    cbn [digitsRev lowDigits]. destruct (n <? 10) eqn:E.
    + apply Z.ltb_lt in E. rewrite Z.mod_small by (simpl in Hlo; lia).
      reflexivity.
    + reflexivity.
  - assert (H10 : 10 <= n).
    { rewrite Nat2Z.inj_succ, Z.pow_succ_r in Hlo by lia.
      assert (0 < 10 ^ Z.of_nat k) by (apply Z.pow_pos_nonneg; lia). lia. }
    destruct f as [|f]; [simpl in Hhi; lia|].
    cbn [digitsRev]. destruct (n <? 10) eqn:E;
      [apply Z.ltb_lt in E; lia|].
    change (lowDigits (S (S k)) n)
      with (digit (n mod 10) :: lowDigits (S k) (n / 10)).
    cbn [firstn]. f_equal. apply IH.
    + apply Z.div_le_lower_bound; [lia|].
      rewrite Nat2Z.inj_succ, Z.pow_succ_r in Hlo by lia. lia.
    + apply Z.div_lt_upper_bound; [lia|].
      rewrite Nat2Z.inj_succ, Z.pow_succ_r in Hhi by lia.
      assert (0 < 2 ^ Z.of_nat f) by (apply Z.pow_pos_nonneg; lia). lia.
Qed.

Lemma digitsRev_length_le (k : nat) :
  forall (f : nat) (n : Z),
    0 <= n < 10 ^ Z.of_nat (S k) ->
    (List.length (digitsRev f n) <= S k)%nat.
Proof.
  induction k as [|k IH]; intros f n Hn.
  - destruct f as [|f]; simpl; [lia|].
    destruct (n <? 10) eqn:E; simpl; [lia|].
    apply Z.ltb_ge in E. simpl in Hn. lia.
  - destruct f as [|f]; simpl; [lia|].
    destruct (n <? 10) eqn:E; simpl; [lia|].
    apply le_n_S. apply IH. split.
    + apply Z.div_pos; lia.
    + apply Z.div_lt_upper_bound; [lia|].
      replace (10 ^ Z.of_nat (S (S k))) with (10 * 10 ^ Z.of_nat (S k)) in Hn
        by (rewrite (Nat2Z.inj_succ (S k)), Z.pow_succ_r by lia; ring).
      lia.
Qed.

Lemma digitsRev_isDigit (f : nat) :
  forall n, 0 <= n -> Forall isDigit (digitsRev f n).
Proof.
  induction f as [|f IH]; intros n Hn; simpl; [constructor|].
  destruct (n <? 10) eqn:E.
  - apply Z.ltb_lt in E. constructor; [|constructor].
    apply digit_isDigit. lia.
  - constructor.
    + apply digit_isDigit. apply Z.mod_pos_bound. lia.
    + apply IH. apply Z.div_pos; lia.
Qed.

Lemma fuel_enough (n : Z) :
  0 <= n -> n < 2 ^ Z.of_nat (S (Z.to_nat (Z.log2 n))).
Proof.
  intros Hn. rewrite Nat2Z.inj_succ, Z2Nat.id by apply Z.log2_nonneg.
  destruct (Z.eq_dec n 0) as [->|Hne]; [reflexivity|].
  apply Z.log2_spec. lia.
Qed.

(** The last [k + 1] characters of the decimal writing of a number with at
    least that many digits are its low digits. *)
Lemma sliceLast_toString (k : nat) (n : Z) :
  10 ^ Z.of_nat k <= n ->
  sliceLast (S k) (toString n)
  = string_of_list_ascii (rev (lowDigits (S k) n)).
Proof.
  intros Hlo.
  assert (Hpos : 0 < n).
  { assert (0 < 10 ^ Z.of_nat k) by (apply Z.pow_pos_nonneg; lia). lia. }
  unfold sliceLast, toString.
  destruct (n <? 0) eqn:E; [apply Z.ltb_lt in E; lia|].
  rewrite list_ascii_of_string_of_list_ascii. unfold digits.
  rewrite length_rev, skipn_rev.
  pose proof (digitsRev_firstn k _ n Hlo (fuel_enough n (Z.lt_le_incl _ _ Hpos)))
    as Hf.
  assert (Hlen : (S k <= List.length
                    (digitsRev (S (Z.to_nat (Z.log2 n))) n))%nat).
  { pose proof (f_equal (@List.length ascii) Hf) as Hl.
    rewrite length_firstn, lowDigits_length in Hl. lia. }
  replace (List.length (digitsRev (S (Z.to_nat (Z.log2 n))) n)
           - (List.length (digitsRev (S (Z.to_nat (Z.log2 n))) n) - S k))%nat
    with (S k) by lia.
  now rewrite Hf.
Qed.

Lemma random_index (random : Q) :
  (0 <= random)%Q -> (random < 1)%Q -> 0 <= Qfloor (random * 1000) < 1000.
Proof.
  intros H0 H1. split.
  - change 0 with (Qfloor 0). apply Qfloor_resp_le.
    apply Qmult_le_0_compat; [exact H0 | discriminate].
  - rewrite Zlt_Qlt. eapply Qle_lt_trans; [apply Qfloor_le|].
    change (inject_Z 1000) with (1 * 1000)%Q.
    apply Qmult_lt_compat_r; [reflexivity | exact H1].
Qed.

(** X1.  For a clock of at least six digits the order number is [FF]
    followed by nine decimal digits: the last six digits of the clock and
    the random draw on three digits. *)
Theorem generateOrderNumber_format (now : Z) (random : Q) :
  100000 <= now <= maxDate -> (0 <= random)%Q -> (random < 1)%Q ->
  exists ds,
    generateOrderNumber now random = "FF" ++ string_of_list_ascii ds
    /\ List.length ds = 9%nat
    /\ Forall isDigit ds
    /\ firstn 6 ds = rev (lowDigits 6 now).
Proof.
  intros [Hnow _] H0 H1. unfold generateOrderNumber.
  rewrite (sliceLast_toString 5 now) by (simpl; lia).
  pose proof (random_index random H0 H1) as Hm.
  set (m := Qfloor (random * 1000)) in *. clearbody m.
  unfold padStart, toString.
  destruct (m <? 0) eqn:E; [apply Z.ltb_lt in E; lia|].
  rewrite length_string_of_list_ascii.
  rewrite <- !string_of_list_ascii_app.
  eexists. split; [reflexivity|].
  assert (Hk : (List.length (digits m) <= 3)%nat).
  { unfold digits. rewrite length_rev. apply (digitsRev_length_le 2).
    simpl. lia. }
  assert (H6 : List.length (rev (lowDigits 6 now)) = 6%nat)
    by (rewrite length_rev; apply lowDigits_length).
  split; [|split].
  - rewrite !length_app, H6, repeat_length. lia.
  - apply Forall_app. split.
    + apply Forall_rev. apply lowDigits_isDigit.
    + apply Forall_app. split.
      * apply Forall_forall. intros c Hc. apply repeat_spec in Hc. subst c.
        unfold isDigit. change (nat_of_ascii "0") with 48%nat. lia.
      * unfold digits. apply Forall_rev. apply digitsRev_isDigit. lia.
  - rewrite firstn_app, H6, Nat.sub_diag, firstn_O, app_nil_r.
    apply firstn_all2. rewrite H6. apply Nat.le_refl.
Qed.

(** The clock of a sample order and a draw of one third. *)
Lemma generateOrderNumber_format_witness :
  exists ds,
    generateOrderNumber 1700000123456 (1 # 3) = "FF" ++ string_of_list_ascii ds
    /\ List.length ds = 9%nat
    /\ Forall isDigit ds
    /\ firstn 6 ds = rev (lowDigits 6 1700000123456).
Proof.
  apply generateOrderNumber_format;
    [unfold maxDate; lia | discriminate | reflexivity].
Defined.

(** X2.  The order number is not unique: with the same random draw, two
    clocks that are 1000000 ms (16 min 40 s) apart give the same order
    number. *)
Theorem generateOrderNumber_repeats (now : Z) (random : Q) :
  100000 <= now -> now + 1000000 <= maxDate ->
  generateOrderNumber (now + 1000000) random = generateOrderNumber now random.
Proof.
  intros Hnow _. unfold generateOrderNumber.
  rewrite (sliceLast_toString 5 now) by (simpl; lia).
  rewrite (sliceLast_toString 5 (now + 1000000)) by (simpl; lia).
  change 1000000 with (10 ^ Z.of_nat 6).
  now rewrite lowDigits_period.
Qed.

Lemma generateOrderNumber_repeats_witness :
  generateOrderNumber (1700000123456 + 1000000) (1 # 3)
  = generateOrderNumber 1700000123456 (1 # 3).
Proof. apply generateOrderNumber_repeats; unfold maxDate; lia. Defined.

End OrderNumber.

(** ** The create route *)

Section CreateRoute.

Import Prisma Orders.

(** A creation that answers 201 passed every check of the route. *)
Lemma createOrder_inv (user : User.t) (restaurantId addressId : string)
    (items : list ItemRequest.t) (paymentMethod : string)
    (specialInstructions : option string) (newId orderNumber : string)
    (now : Z) (w w' : World) (res : Response.t) :
  createOrder user restaurantId addressId items paymentMethod
    specialInstructions newId orderNumber now w = (res, w') ->
  Response.code res = 201 ->
  exists r address orderItems,
    validItems items = true
    /\ findRestaurant restaurantId w = Some r
    /\ Restaurant.active r = true
    /\ Restaurant.isOpen r = true
    /\ findAddress addressId w = Some address
    /\ Address.userId address = User.id user
    /\ List.length (findMenuItems (map ItemRequest.menuItemId items)
                      restaurantId w) = List.length items
    /\ prepareItems (findMenuItems (map ItemRequest.menuItemId items)
                       restaurantId w) items = Some orderItems
    /\ Qle_bool (Restaurant.minimumOrder r) (sumItems orderItems) = true
    /\ res = Response.ok 201 "Order placed successfully"
               (newOrder newId orderNumber (User.id user) restaurantId
                  addressId paymentMethod specialInstructions
                  (calculateOrderTotals orderItems r) orderItems now)
    /\ w' = afterCreate restaurantId
              (newOrder newId orderNumber (User.id user) restaurantId
                 addressId paymentMethod specialInstructions
                 (calculateOrderTotals orderItems r) orderItems now)
              now w.
Proof.
  unfold createOrder. intros H Hc.
  destruct (validItems items) eqn:Hv; cbn [negb] in H;
    [|inversion H; subst; discriminate].
  destruct (findRestaurant restaurantId w) as [r|] eqn:Hr;
    [|inversion H; subst; discriminate].
  destruct (Restaurant.active r) eqn:Ha; cbn [negb orb] in H;
    [|inversion H; subst; discriminate].
  destruct (Restaurant.isOpen r) eqn:Hopen; cbn [negb] in H;
    [|inversion H; subst; discriminate].
  destruct (findAddress addressId w) as [address|] eqn:Had;
    [|inversion H; subst; discriminate].
  destruct (String.eqb (Address.userId address) (User.id user)) eqn:Hu;
    cbn [negb] in H; [|inversion H; subst; discriminate].
  destruct (Nat.eqb _ _) eqn:Hlen in H; cbn [negb] in H;
    [|inversion H; subst; discriminate].
  destruct (prepareItems _ items) as [orderItems|] eqn:Hp in H;
    [|inversion H; subst; discriminate].
  destruct (Qle_bool _ _) eqn:Hmin in H; cbn [negb] in H;
    [|inversion H; subst; discriminate].
  inversion H; subst res w'. exists r, address, orderItems.
  apply String.eqb_eq in Hu. apply Nat.eqb_eq in Hlen.
  repeat split; try assumption; reflexivity.
Qed.



Lemma prepareItems_priced (restaurantId : string) (w : World)
    (ids : list string) :
  forall items lines,
    prepareItems (findMenuItems ids restaurantId w) items = Some lines ->
    Forall2 (pricedFromMenu restaurantId w) items lines.
Proof.
  induction items as [|item rest IH]; intros lines H; cbn [prepareItems] in H.
  - inversion H. constructor.
  - destruct (find _ (findMenuItems ids restaurantId w)) as [mi|] eqn:Hf;
      [|discriminate].
    destruct (prepareItems _ rest) as [tl|] eqn:Hp; [|discriminate].
    inversion H; subst lines. constructor; [|now apply IH].
    apply find_some in Hf. destruct Hf as [Hin Hid].
    apply String.eqb_eq in Hid. unfold findMenuItems in Hin.
    apply filter_In in Hin. destruct Hin as [Hin Hc].
    apply andb_prop in Hc. destruct Hc as [Hc Hav].
    apply andb_prop in Hc. destruct Hc as [_ Hrest].
    apply String.eqb_eq in Hrest.
    unfold pricedFromMenu. cbn. repeat split.
    exists mi. repeat split; assumption.
Qed.

(** X4.  A created order freezes the prices of the menu: its lines are the
    requested lines, in their order, each at the price of a dish that is
    on the menu of this restaurant and available when the order is
    placed. *)
Theorem createOrder_captures_menu_prices (user : User.t)
    (restaurantId addressId : string) (items : list ItemRequest.t)
    (paymentMethod : string) (specialInstructions : option string)
    (newId orderNumber : string) (now : Z) (w w' : World)
    (res : Response.t) :
  createOrder user restaurantId addressId items paymentMethod
    specialInstructions newId orderNumber now w = (res, w') ->
  Response.code res = 201 ->
  exists order,
    Response.order res = Some order
    /\ Forall2 (pricedFromMenu restaurantId w) items (Order.items order).
Proof.
  intros H Hc.
  destruct (createOrder_inv _ _ _ _ _ _ _ _ _ _ _ _ H Hc)
    as [r [address [orderItems
          [_ [_ [_ [_ [_ [_ [_ [Hp [_ [Hres _]]]]]]]]]]]]].
  eexists. subst res. split; [reflexivity|]. cbn.
  exact (prepareItems_priced restaurantId w _ items orderItems Hp).
Qed.

Lemma createOrder_captures_menu_prices_witness :
  exists order,
    Response.order
      (fst (createOrder Sample.alice "rest-1" "addr-1" Sample.basket "cod"
              None "o-1" "FF000001001" 1000 Sample.empty)) = Some order
    /\ Forall2 (pricedFromMenu "rest-1" Sample.empty) Sample.basket
               (Order.items order).
Proof.
  apply (createOrder_captures_menu_prices Sample.alice "rest-1" "addr-1"
           Sample.basket "cod" None "o-1" "FF000001001" 1000 Sample.empty
           _ _ (surjective_pairing _)).
  reflexivity.
Defined.

End CreateRoute.

Section CreateRoundTrip.

Import Prisma Orders OrderViews.

Lemma NoDup_map_filter {A B : Type} (f : A -> B) (g : A -> bool)
    (l : list A) :
  NoDup (map f l) -> NoDup (map f (filter g l)).
Proof.
  induction l as [|x l IH]; intros H; [constructor|].
  cbn [map] in H. inversion H as [|? ? Hnin Hnd]; subst.
  cbn [filter]. destruct (g x); [|now apply IH].
  cbn [map]. constructor; [|now apply IH].
  intros Hin. apply Hnin. apply in_map_iff in Hin.
  destruct Hin as [y [Hy Hin]]. apply filter_In in Hin.
  apply in_map_iff. exists y. tauto.
Qed.

(** X5.  When the ids of the menu are distinct, the create route accepts no
    order that names the same dish on two lines: the query for the dishes
    returns each of them once, and the count of its rows then differs from
    the count of the lines. *)
Theorem createOrder_refuses_repeated_dish (user : User.t)
    (restaurantId addressId : string) (items : list ItemRequest.t)
    (paymentMethod : string) (specialInstructions : option string)
    (newId orderNumber : string) (now : Z) (w w' : World)
    (res : Response.t) :
  NoDup (map MenuItem.id (menuItems w)) ->
  createOrder user restaurantId addressId items paymentMethod
    specialInstructions newId orderNumber now w = (res, w') ->
  Response.code res = 201 ->
  NoDup (map ItemRequest.menuItemId items).
Proof.
  intros Hnd H Hc.
  destruct (createOrder_inv _ _ _ _ _ _ _ _ _ _ _ _ H Hc)
    as [r [address [orderItems [_ [_ [_ [_ [_ [_ [Hlen _]]]]]]]]]].
  set (ids := map ItemRequest.menuItemId items) in *.
  apply NoDup_incl_NoDup
    with (l := map MenuItem.id (findMenuItems ids restaurantId w)).
  - unfold findMenuItems. now apply NoDup_map_filter.
  - rewrite length_map, Hlen. unfold ids. rewrite length_map. apply Nat.le_refl.
  - intros id Hin. apply in_map_iff in Hin. destruct Hin as [mi [<- Hin]].
    unfold findMenuItems in Hin. apply filter_In in Hin.
    destruct Hin as [_ Hc']. apply andb_prop in Hc'. destruct Hc' as [Hc' _].
    apply andb_prop in Hc'. destruct Hc' as [Hinc _].
    now apply includes_In in Hinc.
Qed.

Lemma createOrder_refuses_repeated_dish_witness :
  NoDup (map ItemRequest.menuItemId Sample.basket).
Proof.
  refine (createOrder_refuses_repeated_dish Sample.alice "rest-1" "addr-1"
            Sample.basket "cod" None "o-1" "FF000001001" 1000 Sample.empty
            _ _ _ (surjective_pairing _) eq_refl).
  cbn. repeat constructor; cbn; intuition discriminate.
Defined.

(** Two lines for the same dish: the request is answered 400. *)
Example createOrder_same_dish_twice :
  fst (createOrder Sample.alice "rest-1" "addr-1"
         [ItemRequest.mk "m-1" 1 None; ItemRequest.mk "m-1" 1 None] "cod"
         None "o-1" "FF000001001" 1000 Sample.empty)
  = Response.fail 400 "Some menu items are not available".
Proof. reflexivity. Qed.

Lemma find_snoc {A : Type} (f : A -> bool) (l : list A) (x : A) :
  find f l = None -> f x = true -> find f (l ++ [x]) = Some x.
Proof.
  induction l as [|y l IH]; cbn [find app]; intros Hn Hx.
  - now rewrite Hx.
  - destruct (f y); [discriminate | now apply IH].
Qed.

(** X6.  Creation and the two reads agree: after a successful creation
    under an id that the store did not know, the order is found under that
    id with the customer, the restaurant, the address and the payment
    method of the request, and the tracking route shows the customer
    exactly one row, with the status and the message that the route
    writes. *)
Theorem createOrder_then_read (user : User.t)
    (restaurantId addressId : string) (items : list ItemRequest.t)
    (paymentMethod : string) (specialInstructions : option string)
    (newId orderNumber : string) (now : Z) (w w' : World)
    (res : Response.t) :
  createOrder user restaurantId addressId items paymentMethod
    specialInstructions newId orderNumber now w = (res, w') ->
  Response.code res = 201 ->
  findOrder newId w = None ->
  trackingOf newId w = [] ->
  User.role user = Role.customer ->
  exists order stamp,
    Response.order res = Some order
    /\ findOrder newId w' = Some order
    /\ Order.customerId order = User.id user
    /\ Order.restaurantId order = restaurantId
    /\ Order.addressId order = addressId
    /\ Order.paymentMethod order = paymentMethod
    /\ getOrderTracking user newId w'
       = TrackingResponse.mk 200 true ""
           [OrderTracking.mk newId "pending" "Order placed successfully"
              stamp].
Proof.
  intros H Hc Hfresh Hlog Hrole.
  destruct (createOrder_inv _ _ _ _ _ _ _ _ _ _ _ _ H Hc)
    as [r [address [orderItems
          [_ [Hr [_ [_ [_ [_ [_ [_ [_ [Hres Hw]]]]]]]]]]]]].
  set (order := newOrder newId orderNumber (User.id user) restaurantId
                  addressId paymentMethod specialInstructions
                  (calculateOrderTotals orderItems r) orderItems now) in *.
  assert (Hfind : findOrder newId w' = Some order).
  { subst w'. unfold afterCreate.
    rewrite findOrder_emit, findOrder_orderTrackingCreate.
    unfold findOrder, orderCreate. cbn [orders withOrders].
    apply find_snoc; [exact Hfresh|]. apply String.eqb_refl. }
  exists order, now. subst res.
  repeat split; try reflexivity; try exact Hfind.
  unfold getOrderTracking. rewrite Hfind.
  assert (Hr' : findRestaurant (Order.restaurantId order) w' = Some r)
    by (subst w'; exact Hr).
  rewrite Hr'.
  assert (Hv : mayView user order (Restaurant.userId r) = true).
  { unfold mayView. rewrite Hrole. cbn [Role.eqb andb negb].
    cbn [order newOrder Order.customerId]. now rewrite String.eqb_refl. }
  rewrite Hv. cbn [negb]. f_equal.
  assert (Ht : trackingOf newId w'
               = (trackingOf newId w
                  ++ [OrderTracking.mk newId "pending"
                        "Order placed successfully" now])%list).
  { subst w'. unfold afterCreate, trackingOf.
    cbn [tracking emit withEmitted orderTrackingCreate withTracking
         orderCreate withOrders order newOrder Order.id].
    rewrite filter_app. cbn [filter OrderTracking.orderId].
    now rewrite String.eqb_refl. }
  rewrite Ht, Hlog. reflexivity.
Qed.

Lemma createOrder_then_read_witness :
  exists order stamp,
    findOrder "o-1" Sample.placed = Some order
    /\ Order.customerId order = "u-alice"
    /\ getOrderTracking Sample.alice "o-1" Sample.placed
       = TrackingResponse.mk 200 true ""
           [OrderTracking.mk "o-1" "pending" "Order placed successfully"
              stamp].
Proof.
  destruct (createOrder_then_read Sample.alice "rest-1" "addr-1" Sample.basket
              "cod" None "o-1" "FF000001001" 1000 Sample.empty Sample.placed
              _ (surjective_pairing _) eq_refl eq_refl eq_refl eq_refl)
    as [order [stamp [_ [H1 [H2 [_ [_ [_ H3]]]]]]]].
  exists order, stamp. repeat split; assumption.
Defined.

End CreateRoundTrip.

(** ** The listing routes *)

Section Listings.

Import Prisma OrderViews.

Lemma skipn_subset {A : Type} (n : nat) (l : list A) (x : A) :
  In x (skipn n l) -> In x l.
Proof.
  intros H. rewrite <- (firstn_skipn n l). apply in_or_app. now right.
Qed.

Lemma window_In {A : Type} (skip take : Z) (rows out : list A) (x : A) :
  window skip take rows = Some out -> In x out -> In x rows.
Proof.
  unfold window. destruct (skip <? 0); [discriminate|].
  destruct (0 <=? take); intros H Hin; inversion H; subst out; clear H.
  - apply firstn_subset in Hin. now apply skipn_subset in Hin.
  - apply in_rev in Hin. apply firstn_subset in Hin.
    apply skipn_subset in Hin. now apply in_rev.
Qed.

Lemma insertByCreatedAt_perm (o : Order.t) (l : list Order.t) :
  Permutation (insertByCreatedAt o l) (o :: l).
Proof.
  induction l as [|x l IH]; cbn [insertByCreatedAt]; [reflexivity|].
  destruct (Order.createdAt x <=? Order.createdAt o); [reflexivity|].
  rewrite IH. apply perm_swap.
Qed.

Lemma sortByCreatedAtDesc_perm (l : list Order.t) :
  Permutation (sortByCreatedAtDesc l) l.
Proof.
  induction l as [|x l IH]; [reflexivity|].
  cbn [sortByCreatedAtDesc fold_right]. rewrite insertByCreatedAt_perm.
  now constructor.
Qed.

Lemma insertByCreatedAt_sorted (o : Order.t) (l : list Order.t) :
  StronglySorted newerFirst l ->
  StronglySorted newerFirst (insertByCreatedAt o l).
Proof.
  induction 1 as [|y l Hs IH Hy]; cbn [insertByCreatedAt].
  - constructor; constructor.
  - destruct (Order.createdAt y <=? Order.createdAt o) eqn:E.
    + apply Z.leb_le in E. constructor; [now constructor|].
      constructor; [exact E|].
      eapply Forall_impl; [|exact Hy]. unfold newerFirst. intros z Hz. lia.
    + apply Z.leb_gt in E. constructor; [exact IH|].
      apply Forall_forall. intros z Hz.
      apply (Permutation_in _ (insertByCreatedAt_perm o l)) in Hz.
      destruct Hz as [<- | Hz].
      * unfold newerFirst. lia.
      * rewrite Forall_forall in Hy. now apply Hy.
Qed.

Lemma sortByCreatedAtDesc_sorted (l : list Order.t) :
  StronglySorted newerFirst (sortByCreatedAtDesc l).
Proof.
  induction l as [|x l IH]; [constructor|].
  cbn [sortByCreatedAtDesc fold_right]. now apply insertByCreatedAt_sorted.
Qed.

(** The orders of a page are rows of the table that pass the [where] of
    the route. *)
Lemma listOrders_In (f : Order.t -> bool) (page limit : Z) (w : World)
    (o : Order.t) :
  In o (PageResponse.orders (listOrders f page limit w)) ->
  In o (orders w) /\ f o = true.
Proof.
  unfold listOrders.
  destruct (window _ _ _) as [out|] eqn:E; cbn [PageResponse.orders
    PageResponse.fail]; [|contradiction].
  intros Hin. apply (window_In _ _ _ _ _ E) in Hin.
  apply (Permutation_in _ (sortByCreatedAtDesc_perm _)) in Hin.
  now apply filter_In in Hin.
Qed.

Lemma firstn_plus {A : Type} (a b : nat) (l : list A) :
  firstn (a + b) l = (firstn a l ++ firstn b (skipn a l))%list.
Proof.
  revert l. induction a as [|a IH]; intros l; [reflexivity|].
  destruct l as [|x l]; cbn [Nat.add firstn skipn app].
  - now rewrite firstn_nil.
  - now rewrite IH.
Qed.

(** The pages of a list, one after the other, are its beginning. *)
Lemma pages_concat {A : Type} (limit n : nat) (l : list A) :
  List.concat
    (map (fun k => firstn limit (skipn ((k - 1) * limit) l)) (seq 1 n))
  = firstn (n * limit) l.
Proof.
  induction n as [|n IH]; [reflexivity|].
  rewrite seq_S, map_app, concat_app, IH. cbn [map List.concat Nat.add].
  rewrite app_nil_r. replace (S n - 1)%nat with n by lia.
  replace (S n * limit)%nat with (n * limit + limit)%nat by lia.
  now rewrite firstn_plus.
Qed.

Lemma listOrders_page (f : Order.t -> bool) (k : nat) (limit : Z) (w : World) :
  (1 <= k)%nat -> 0 <= limit ->
  PageResponse.orders (listOrders f (Z.of_nat k) limit w)
  = firstn (Z.to_nat limit)
      (skipn ((k - 1) * Z.to_nat limit)
             (sortByCreatedAtDesc (filter f (orders w)))).
Proof.
  intros Hk Hl. unfold listOrders, window.
  assert (Hs : 0 <= (Z.of_nat k - 1) * limit) by nia.
  destruct ((Z.of_nat k - 1) * limit <? 0) eqn:E;
    [apply Z.ltb_lt in E; lia|].
  destruct (0 <=? limit) eqn:E'; [|apply Z.leb_gt in E'; lia].
  cbn [PageResponse.orders]. f_equal. f_equal.
  rewrite Z2Nat.inj_mul by lia. f_equal. lia.
Qed.

Lemma pages_enough (t limit n : Z) :
  0 <= t -> 1 <= limit -> pagesOf t limit = Some n ->
  (Z.to_nat t <= Z.to_nat n * Z.to_nat limit)%nat.
Proof.
  intros Ht Hl H. unfold pagesOf in H.
  destruct (limit =? 0) eqn:E0; [apply Z.eqb_eq in E0; lia|].
  inversion H as [Hn]. clear H.
  pose proof (Z.mul_div_le (- t) limit ltac:(lia)) as Hd.
  set (q := - t / limit) in *.
  assert (Hq : q <= 0).
  { subst q. apply Z.div_le_upper_bound; lia. }
  rewrite <- Z2Nat.inj_mul by lia. apply Z2Nat.inj_le; nia.
Qed.

(** The number of pages a listing route announces, for a page it serves. *)
Lemma listOrders_pages (f : Order.t -> bool) (limit : Z) (w : World) :
  1 <= limit ->
  PageResponse.pages (listOrders f 1 limit w)
  = pagesOf (Z.of_nat (List.length (filter f (orders w)))) limit.
Proof.
  intros Hl. unfold listOrders, window.
  change ((1 - 1) * limit <? 0) with false. cbv iota.
  destruct (0 <=? limit); reflexivity.
Qed.

(** X7.  The my-orders route lists nothing but orders of the caller, and,
    under a status filter, nothing but orders in that status. *)
Theorem myOrders_only_own (user : User.t) (page limit : Z)
    (status : option string) (w : World) (o : Order.t) :
  In o (PageResponse.orders (myOrders user page limit status w)) ->
  In o (orders w)
  /\ Order.customerId o = User.id user
  /\ (forall s, status = Some s -> s <> "" ->
                statusName (Order.status o) = s).
Proof.
  unfold myOrders. intros Hin.
  destruct (statusFilter status) as [f|] eqn:Ef;
    [|cbn in Hin; contradiction].
  apply listOrders_In in Hin. destruct Hin as [Hin Hf].
  apply andb_prop in Hf. destruct Hf as [Hc Hs].
  apply String.eqb_eq in Hc. split; [exact Hin|]. split; [exact Hc|].
  intros s -> Hne. unfold statusFilter in Ef. cbn [Js.truthyStr] in Ef.
  apply String.eqb_neq in Hne. rewrite Hne in Ef. cbn [negb] in Ef.
  destruct (statusOfString s) as [st|] eqn:Est; [|discriminate].
  inversion Ef; subst f. apply OrderStatus_eqb_eq in Hs. rewrite Hs.
  unfold statusOfString in Est. apply find_some in Est.
  destruct Est as [_ Est]. apply String.eqb_eq in Est. now symmetry.
Qed.

(** X8.  With a page size of at least one, the pages the my-orders route
    announces cover the orders of the caller: read one after the other,
    pages [1] to [pages] list each matching order exactly once, newest
    first, and each page holds at most [limit] orders. *)
Theorem myOrders_pages_cover (user : User.t) (limit : Z)
    (status : option string) (w : World) (f : Order.t -> bool) (n : Z) :
  1 <= limit ->
  statusFilter status = Some f ->
  PageResponse.pages (myOrders user 1 limit status w) = Some n ->
  Permutation
    (myOrdersPages user limit status w (Z.to_nat n))
    (filter (fun o => String.eqb (Order.customerId o) (User.id user) && f o)
            (orders w))
  /\ StronglySorted newerFirst
       (myOrdersPages user limit status w (Z.to_nat n))
  /\ forall page,
       (List.length
          (PageResponse.orders (myOrders user page limit status w))
        <= Z.to_nat limit)%nat.
Proof.
  intros Hl Hf Hn.
  set (g := fun o => String.eqb (Order.customerId o) (User.id user) && f o).
  set (rows := sortByCreatedAtDesc (filter g (orders w))).
  assert (Hall : myOrdersPages user limit status w (Z.to_nat n) = rows).
  { unfold myOrdersPages.
    rewrite (map_ext_in _
               (fun k => firstn (Z.to_nat limit)
                           (skipn ((k - 1) * Z.to_nat limit) rows))).
    - rewrite pages_concat. apply firstn_all2.
      assert (Hlen : List.length rows = List.length (filter g (orders w)))
        by (apply Permutation_length, sortByCreatedAtDesc_perm).
      rewrite Hlen.
      rewrite <- (Nat2Z.id (List.length (filter g (orders w)))).
      apply (pages_enough _ limit n); [lia | exact Hl |].
      rewrite <- Hn. unfold myOrders. rewrite Hf.
      symmetry. now apply listOrders_pages.
    - intros k Hk. apply in_seq in Hk. unfold myOrders. rewrite Hf.
      apply listOrders_page; lia. }
  rewrite Hall. split; [apply sortByCreatedAtDesc_perm|].
  split; [apply sortByCreatedAtDesc_sorted|].
  intros page. unfold myOrders. rewrite Hf. unfold listOrders, window.
  destruct (_ <? 0); [cbn; lia|].
  destruct (0 <=? limit) eqn:E; [|apply Z.leb_gt in E; lia].
  cbn [PageResponse.orders]. apply firstn_le_length.
Qed.

End Listings.

Section ListingsMore.

Import Prisma OrderViews.

(** Alice's first page, filtered on [pending], on the store with her
    order. *)
Lemma myOrders_only_own_witness :
  exists o,
    In o (PageResponse.orders
            (myOrders Sample.alice 1 10 (Some "pending") Sample.placed))
    /\ Order.customerId o = User.id Sample.alice
    /\ statusName (Order.status o) = "pending".
Proof.
  assert (Hall : forall o,
             In o (PageResponse.orders
                     (myOrders Sample.alice 1 10 (Some "pending")
                        Sample.placed)) ->
             Order.customerId o = User.id Sample.alice
             /\ statusName (Order.status o) = "pending").
  { intros o Hin.
    destruct (myOrders_only_own _ _ _ _ _ _ Hin) as [_ [Hc Hs]].
    split; [exact Hc|]. apply Hs; [reflexivity | discriminate]. }
  destruct (PageResponse.orders
              (myOrders Sample.alice 1 10 (Some "pending") Sample.placed))
    as [|o l] eqn:E; [discriminate E|].
  exists o. split; [now left|]. apply Hall. now left.
Defined.

(** The twenty-one orders of the busy sample store, ten to a page: three
    pages. *)
Lemma myOrders_pages_cover_witness :
  Permutation
    (myOrdersPages Sample.alice 10 None SampleGeo.busy 3)
    (filter (fun o => String.eqb (Order.customerId o) "u-alice" && true)
            (orders SampleGeo.busy))
  /\ StronglySorted newerFirst
       (myOrdersPages Sample.alice 10 None SampleGeo.busy 3).
Proof.
  destruct (myOrders_pages_cover Sample.alice 10 None SampleGeo.busy
              (fun _ => true) 3 ltac:(lia) eq_refl eq_refl) as [H1 [H2 _]].
  split; assumption.
Defined.

(** X9.  The restaurant-orders route answers 404 to a caller who owns no
    restaurant, and to an owner it lists nothing but orders of the
    restaurant found for the caller, created at or after the date asked
    for and before the same time of the next calendar day of the server. *)
Theorem restaurantOrders_only_own (user : User.t) (page limit : Z)
    (status : option string) (date : option Z) (nextDay : Z -> Z)
    (w : World) :
  (findRestaurantOf (User.id user) w = None ->
   restaurantOrders user page limit status date nextDay w
   = PageResponse.fail 404 "Restaurant not found")
  /\ forall o,
       In o (PageResponse.orders
               (restaurantOrders user page limit status date nextDay w)) ->
       exists r,
         findRestaurantOf (User.id user) w = Some r
         /\ Restaurant.userId r = User.id user
         /\ Order.restaurantId o = Restaurant.id r
         /\ forall start, date = Some start ->
              start <= Order.createdAt o < nextDay start.
Proof.
  unfold restaurantOrders. split.
  - intros ->. reflexivity.
  - intros o Hin.
    destruct (findRestaurantOf (User.id user) w) as [r|] eqn:Er;
      [|cbn in Hin; contradiction].
    destruct (statusFilter status) as [f|]; [|cbn in Hin; contradiction].
    apply listOrders_In in Hin. destruct Hin as [_ Hf].
    apply andb_prop in Hf. destruct Hf as [Hf Hd].
    apply andb_prop in Hf. destruct Hf as [Hr _].
    apply String.eqb_eq in Hr. exists r. split; [reflexivity|].
    split.
    + unfold findRestaurantOf in Er. apply find_some in Er.
      destruct Er as [_ Er]. now apply String.eqb_eq in Er.
    + split; [exact Hr|]. intros start ->.
      apply andb_prop in Hd. destruct Hd as [H1 H2].
      apply Z.leb_le in H1. apply Z.ltb_lt in H2. lia.
Qed.

(** Bob's first page for the day that starts at 0, on the store with
    Alice's order, on a server whose day after 0 has 25 hours. *)
Lemma restaurantOrders_only_own_witness :
  let nextDay := fun t => t + 25 * 60 * 60 * 1000 in
  exists o r,
    In o (PageResponse.orders
            (restaurantOrders Sample.bob 1 10 None (Some 0) nextDay
               Sample.placed))
    /\ findRestaurantOf (User.id Sample.bob) Sample.placed = Some r
    /\ Order.restaurantId o = Restaurant.id r
    /\ 0 <= Order.createdAt o < 90000000.
Proof.
  intros nextDay.
  destruct (restaurantOrders_only_own Sample.bob 1 10 None (Some 0) nextDay
              Sample.placed) as [_ H].
  destruct (PageResponse.orders
              (restaurantOrders Sample.bob 1 10 None (Some 0) nextDay
                 Sample.placed))
    as [|o l] eqn:E; [discriminate E|].
  destruct (H o (or_introl eq_refl)) as [r [H1 [_ [H2 H3]]]].
  exists o, r. split; [now left|].
  repeat split; try assumption; now apply (H3 0 eq_refl).
Defined.

End ListingsMore.

(** ** The tracking route *)

Section TrackingRoute.

Import Prisma OrderViews.

Lemma insertByTimestamp_perm (e : OrderTracking.t)
    (l : list OrderTracking.t) :
  Permutation (insertByTimestamp e l) (e :: l).
Proof.
  induction l as [|x l IH]; cbn [insertByTimestamp]; [reflexivity|].
  destruct (OrderTracking.timestamp e <=? OrderTracking.timestamp x);
    [reflexivity|].
  rewrite IH. apply perm_swap.
Qed.

Lemma sortByTimestamp_perm (l : list OrderTracking.t) :
  Permutation (sortByTimestamp l) l.
Proof.
  induction l as [|x l IH]; [reflexivity|].
  cbn [sortByTimestamp fold_right]. rewrite insertByTimestamp_perm.
  now constructor.
Qed.

Lemma insertByTimestamp_sorted (e : OrderTracking.t)
    (l : list OrderTracking.t) :
  StronglySorted loggedFirst l ->
  StronglySorted loggedFirst (insertByTimestamp e l).
Proof.
  induction 1 as [|y l Hs IH Hy]; cbn [insertByTimestamp].
  - constructor; constructor.
  - destruct (OrderTracking.timestamp e <=? OrderTracking.timestamp y) eqn:E.
    + apply Z.leb_le in E. constructor; [now constructor|].
      constructor; [exact E|].
      eapply Forall_impl; [|exact Hy]. unfold loggedFirst. intros z Hz. lia.
    + apply Z.leb_gt in E. constructor; [exact IH|].
      apply Forall_forall. intros z Hz.
      apply (Permutation_in _ (insertByTimestamp_perm e l)) in Hz.
      destruct Hz as [<- | Hz].
      * unfold loggedFirst. lia.
      * rewrite Forall_forall in Hy. now apply Hy.
Qed.

Lemma sortByTimestamp_sorted (l : list OrderTracking.t) :
  StronglySorted loggedFirst (sortByTimestamp l).
Proof.
  induction l as [|x l IH]; [constructor|].
  cbn [sortByTimestamp fold_right]. now apply insertByTimestamp_sorted.
Qed.

(** X10.  The tracking route shows a caller it admits the whole log of the
    order and nothing else: every row of the order once, no row of another
    order, the oldest first.  To a caller it does not admit it shows no
    row. *)
Theorem getOrderTracking_whole_log (user : User.t) (id : string) (w : World) :
  (TrackingResponse.code (getOrderTracking user id w) = 200 ->
   Permutation (TrackingResponse.tracking (getOrderTracking user id w))
               (trackingOf id w)
   /\ StronglySorted loggedFirst
        (TrackingResponse.tracking (getOrderTracking user id w)))
  /\ (TrackingResponse.code (getOrderTracking user id w) <> 200 ->
      TrackingResponse.tracking (getOrderTracking user id w) = [])
  /\ Forall (fun e => OrderTracking.orderId e = id)
            (TrackingResponse.tracking (getOrderTracking user id w)).
Proof.
  unfold getOrderTracking.
  destruct (findOrder id w) as [order|];
    [|cbn; repeat split; try discriminate; constructor].
  destruct (findRestaurant (Order.restaurantId order) w) as [r|];
    [|cbn; repeat split; try discriminate; constructor].
  destruct (mayView user order (Restaurant.userId r)); cbn [negb];
    [|cbn; repeat split; try discriminate; constructor].
  cbn [TrackingResponse.code TrackingResponse.tracking].
  split; [|split].
  - intros _. split;
      [apply sortByTimestamp_perm | apply sortByTimestamp_sorted].
  - intros H. contradiction.
  - apply Forall_forall. intros e He.
    apply (Permutation_in _ (sortByTimestamp_perm _)) in He.
    unfold trackingOf in He. apply filter_In in He.
    destruct He as [_ He]. now apply String.eqb_eq in He.
Qed.

(** The log of the ready sample order, read by its customer. *)
Lemma getOrderTracking_whole_log_witness :
  Permutation
    (TrackingResponse.tracking
       (getOrderTracking Sample.alice "o-1" Sample.readyW))
    (trackingOf "o-1" Sample.readyW)
  /\ StronglySorted loggedFirst
       (TrackingResponse.tracking
          (getOrderTracking Sample.alice "o-1" Sample.readyW)).
Proof.
  destruct (getOrderTracking_whole_log Sample.alice "o-1" Sample.readyW)
    as [H _].
  exact (H eq_refl).
Defined.

(** X11.  A rider whose profile id differs from his user id loses sight of
    the order he has claimed: the claim stores the profile id, the
    tracking route and the list of the rider's orders compare [riderId]
    with the user id, so the tracking route does not admit him and his
    list of orders does not contain the order. *)
Theorem claimed_order_hidden_from_rider (user : User.t) (orderId : string)
    (now : Z) (w w1 : World) (r1 : Response.t) (rider : Rider.t) :
  User.role user = Role.rider ->
  findRider (User.id user) w = Some rider ->
  Rider.id rider <> User.id user ->
  Riders.acceptOrder user orderId now w = (r1, w1) ->
  Response.code r1 = 200 ->
  TrackingResponse.code (getOrderTracking user orderId w1) <> 200
  /\ forall page limit status o,
       In o (PageResponse.orders
               (RiderProfiles.riderOrders user page limit status w1)) ->
       Order.id o <> orderId.
Proof.
  intros Hrole Hr Hne H1 Hc.
  destruct (acceptOrder_inv _ _ _ _ _ _ H1 Hc)
    as [rider' [order [Hr' [_ [Ho [_ [_ [_ Hw]]]]]]]].
  rewrite Hr in Hr'. inversion Hr'; subst rider'. clear Hr'.
  apply String.eqb_neq in Hne. split.
  - assert (Ho1 : findOrder orderId w1
                  = Some (applyUpdate (Riders.claimData rider) order)).
    { subst w1. unfold afterAccept.
      rewrite !findOrder_emit, findOrder_orderTrackingCreate,
        findOrder_orderUpdate_same, Ho. reflexivity. }
    unfold getOrderTracking. rewrite Ho1.
    destruct (findRestaurant _ w1) as [r|]; [|cbn; discriminate].
    assert (Hv : mayView user (applyUpdate (Riders.claimData rider) order)
                   (Restaurant.userId r) = false).
    { unfold mayView. rewrite Hrole.
      cbn [Role.eqb andb negb applyUpdate Order.riderId Riders.claimData
           pickOpt OrderUpdate.riderId Js.sameId].
      now rewrite Hne. }
    rewrite Hv. cbn. discriminate.
  - intros page limit status o Hin Hid.
    unfold RiderProfiles.riderOrders in Hin.
    destruct (statusFilter status) as [f|]; [|cbn in Hin; contradiction].
    apply listOrders_In in Hin. destruct Hin as [Hin Hf].
    apply andb_prop in Hf. destruct Hf as [Hs _].
    subst w1. unfold afterAccept in Hin.
    cbn [orders emit withEmitted orderTrackingCreate withTracking
         orderUpdate withOrders] in Hin.
    apply in_map_iff in Hin. destruct Hin as [o0 [Ho0 _]].
    destruct (String.eqb (Order.id o0) orderId) eqn:E.
    + subst o.
      cbn [applyUpdate Order.riderId Riders.claimData pickOpt
           OrderUpdate.riderId Js.sameId] in Hs.
      congruence.
    + subst o. apply String.eqb_neq in E. contradiction.
Qed.

(** Carol and the ready sample order. *)
Lemma claimed_order_hidden_from_rider_witness :
  TrackingResponse.code (getOrderTracking Sample.carol "o-1" Sample.claimedW)
  <> 200
  /\ forall page limit status o,
       In o (PageResponse.orders
               (RiderProfiles.riderOrders Sample.carol page limit status
                  Sample.claimedW)) ->
       Order.id o <> "o-1".
Proof.
  change Sample.claimedW
    with (snd (Riders.acceptOrder Sample.carol "o-1" 5000 Sample.readyW)).
  refine (claimed_order_hidden_from_rider Sample.carol "o-1" 5000
            Sample.readyW _ _ Sample.carolProfile eq_refl eq_refl _
            (surjective_pairing _) eq_refl).
  discriminate.
Defined.

End TrackingRoute.

(** ** The cancel route, beyond the customer's window *)

Section CancelMore.

Import Prisma Orders.

(** A cancellation that answers 200 passed the three checks of the
    route. *)
Lemma cancelOrder_inv (user : User.t) (id : string) (reason : option string)
    (now : Z) (w w' : World) (res : Response.t) :
  cancelOrder user id reason now w = (res, w') ->
  Response.code res = 200 ->
  exists order,
    findOrder id w = Some order
    /\ Order.customerId order = User.id user
    /\ cancellable order now = true
    /\ findOrder id w'
       = Some (applyUpdate
                 (OrderUpdate.mk (Some cancelled) None None None None None
                    None (Some now) None reason) order).
Proof.
  unfold cancelOrder. intros H Hc.
  destruct (findOrder id w) as [order|] eqn:Ho;
    [|inversion H; subst; discriminate].
  destruct (String.eqb (Order.customerId order) (User.id user)) eqn:Hu;
    cbn [negb] in H; [|inversion H; subst; discriminate].
  rewrite includes_cancel, timeDiff_within in H.
  exists order. apply String.eqb_eq in Hu. unfold cancellable.
  destruct (Order.status order); cbn [negb OrderStatus_eqb] in H;
    rewrite ?andb_false_r, ?andb_true_r in H;
    try (inversion H; subst; discriminate).
  - inversion H; subst. repeat split; try assumption.
    rewrite findOrder_emit, findOrder_orderTrackingCreate,
      findOrder_orderUpdate_same, Ho. reflexivity.
  - destruct (now - Order.createdAt order <=? 5 * 60 * 1000);
      cbn [negb] in H; inversion H; subst; [|discriminate].
    repeat split; try assumption.
    rewrite findOrder_emit, findOrder_orderTrackingCreate,
      findOrder_orderUpdate_same, Ho. reflexivity.
Qed.

(** X12.  The cancel route lets nobody but the customer of the order
    cancel it: a caller who is not the customer is answered 403 whatever
    the status and the time, an answer 200 means that the caller is the
    customer of an order that was still cancellable, and every other
    answer leaves the store as it was. *)
Theorem cancelOrder_only_customer (user : User.t) (id : string)
    (reason : option string) (now : Z) (w w' : World) (res : Response.t) :
  cancelOrder user id reason now w = (res, w') ->
  (forall order,
     findOrder id w = Some order ->
     Order.customerId order <> User.id user ->
     Response.code res = 403)
  /\ (Response.code res = 200 ->
      exists order,
        findOrder id w = Some order
        /\ Order.customerId order = User.id user
        /\ cancellable order now = true)
  /\ (Response.code res <> 200 -> w' = w).
Proof.
  intros H. split; [|split].
  - intros order Ho Hne. unfold cancelOrder in H. rewrite Ho in H.
    apply String.eqb_neq in Hne. rewrite Hne in H. cbn [negb] in H.
    inversion H. reflexivity.
  - intros Hc. destruct (cancelOrder_inv _ _ _ _ _ _ _ H Hc)
      as [order [H1 [H2 [H3 _]]]].
    exists order. repeat split; assumption.
  - intros Hc. unfold cancelOrder in H.
    repeat next_test H; inversion H; subst; try reflexivity.
    simpl in Hc. congruence.
Qed.

(** Bob, who is not the customer, tries to cancel Alice's order. *)
Lemma cancelOrder_only_customer_witness :
  Response.code (fst (cancelOrder Sample.bob "o-1" None 2000 Sample.placed))
  = 403.
Proof.
  destruct (findOrder "o-1" Sample.placed) as [order|] eqn:Ho;
    [|discriminate Ho].
  destruct (cancelOrder_only_customer Sample.bob "o-1" None 2000
              Sample.placed _ _ (surjective_pairing _)) as [H _].
  apply (H order Ho). vm_compute in Ho. inversion Ho. discriminate.
Defined.

(** X13.  A cancelled order is not cancelled again while it stays
    cancelled.  A successful cancellation leaves the order with the status
    [cancelled]; and on any store in which the order has that status, the
    store the cancellation left among them, the cancel route refuses every
    caller at every time, with 403 or 400, and writes nothing.  The route
    reads nothing but the stored status: once the status route has written
    [pending] or [confirmed] over it, the customer can cancel again. *)
Theorem cancelOrder_once (u1 : User.t) (id : string)
    (reason1 : option string) (t1 : Z) (w w1 : World) (r1 : Response.t) :
  cancelOrder u1 id reason1 t1 w = (r1, w1) ->
  Response.code r1 = 200 ->
  (exists o1, findOrder id w1 = Some o1 /\ Order.status o1 = cancelled)
  /\ forall (w2 : World) (o2 : Order.t),
       findOrder id w2 = Some o2 ->
       Order.status o2 = cancelled ->
       forall (u2 : User.t) (reason2 : option string) (t2 : Z),
         (Response.code (fst (cancelOrder u2 id reason2 t2 w2)) = 403
          \/ Response.code (fst (cancelOrder u2 id reason2 t2 w2)) = 400)
         /\ snd (cancelOrder u2 id reason2 t2 w2) = w2.
Proof.
  intros H1 Hc1. split.
  - destruct (cancelOrder_inv _ _ _ _ _ _ _ H1 Hc1)
      as [order [_ [_ [_ Ho1]]]].
    eexists. split; [exact Ho1 | reflexivity].
  - intros w2 o2 Ho2 Hs2 u2 reason2 t2. unfold cancelOrder.
    rewrite Ho2, Hs2.
    destruct (String.eqb (Order.customerId o2) (User.id u2));
      cbn [negb fst snd Response.code Response.fail];
      [split; [right; reflexivity | reflexivity]
      |split; [left; reflexivity | reflexivity]].
Qed.

(** Alice cancels her pending order, then tries again, and again. *)
Lemma cancelOrder_once_witness :
  let w1 := snd (cancelOrder Sample.alice "o-1" None 2000 Sample.placed) in
  let w2 := snd (cancelOrder Sample.alice "o-1" None 3000 w1) in
  Response.code (fst (cancelOrder Sample.alice "o-1" None 3000 w1)) = 400
  /\ w2 = w1
  /\ Response.code (fst (cancelOrder Sample.alice "o-1" None 4000 w2)) = 400.
Proof.
  cbv zeta.
  destruct (cancelOrder_once Sample.alice "o-1" None 2000 Sample.placed _ _
              (surjective_pairing _) eq_refl) as [[o1 [Ho1 Hs1]] Hagain].
  destruct (Hagain _ o1 Ho1 Hs1 Sample.alice None 3000) as [_ Hw].
  split; [reflexivity|]. split; [exact Hw|]. reflexivity.
Defined.

(** The boundary of X13: the administrator writes [pending] over Alice's
    cancelled order, and Alice cancels it a second time. *)
Example cancelOrder_again_after_reset :
  let w1 := snd (cancelOrder Sample.alice "o-1" None 2000 Sample.placed) in
  let w2 := snd (updateOrderStatus Sample.root "o-1" "pending" None 3000
                   w1) in
  Response.code (fst (cancelOrder Sample.alice "o-1" None 2000
                        Sample.placed)) = 200
  /\ Response.code (fst (updateOrderStatus Sample.root "o-1" "pending" None
                           3000 w1)) = 200
  /\ Response.code (fst (cancelOrder Sample.alice "o-1" None 4000 w2)) = 200.
Proof. cbv zeta. repeat split; reflexivity. Qed.

End CancelMore.

(** ** The rider profile *)

Section RiderProfile.

Import Prisma RiderProfiles.

Lemma findRider_In (userId : string) (w : World) :
  findRider userId w = None <-> ~ In userId (map Rider.userId (riders w)).
Proof.
  unfold findRider. induction (riders w) as [|r l IH]; cbn [find map In].
  - tauto.
  - destruct (String.eqb (Rider.userId r) userId) eqn:E.
    + apply String.eqb_eq in E. split; [discriminate | tauto].
    + apply String.eqb_neq in E. rewrite IH. tauto.
Qed.

(** X14.  A user has at most one rider profile: when the user ids of the
    profiles are distinct they stay distinct after any call of the create
    route; a successful creation is found again under the user id of the
    caller, and a second creation by the same user is refused with 400
    and writes nothing. *)
Theorem createRider_once (user : User.t) (newId : string) (available : bool)
    (w w' : World) (res : RiderResponse.t) :
  createRider user newId available w = (res, w') ->
  (NoDup (map Rider.userId (riders w)) ->
   NoDup (map Rider.userId (riders w')))
  /\ (RiderResponse.code res = 201 ->
      findRider (User.id user) w'
      = Some (Rider.mk newId (User.id user) available)
      /\ forall newId' available',
           createRider user newId' available' w'
           = (RiderResponse.fail 400 "Rider profile already exists", w'))
  /\ (RiderResponse.code res <> 201 -> w' = w).
Proof.
  unfold createRider. intros H.
  destruct (findRider (User.id user) w) as [existing|] eqn:E;
    inversion H; subst res w'; clear H.
  - split; [tauto|]. split; [intros Hc; discriminate | reflexivity].
  - assert (Hfind : findRider (User.id user)
                      (withRiders
                         (riders w
                          ++ [Rider.mk newId (User.id user) available]) w)
                    = Some (Rider.mk newId (User.id user) available)).
    { unfold findRider, withRiders. cbn [riders].
      apply find_snoc; [exact E | apply String.eqb_refl]. }
    split; [|split].
    + intros Hnd. cbn [riders withRiders]. rewrite map_app.
      cbn [map Rider.userId].
      apply NoDup_app; [exact Hnd | repeat constructor; intros [] |].
      intros x Hx [<- | []]. now apply findRider_In in E.
    + intros _. split; [exact Hfind|].
      intros newId' available'. now rewrite Hfind.
    + intros Hc. cbn in Hc. congruence.
Qed.

(** Alice's friend Erin becomes a rider on the sample store. *)
Lemma createRider_once_witness :
  let erin := User.mk "u-erin" Role.rider "Erin" "9000000006" in
  NoDup (map Rider.userId
           (riders (snd (createRider erin "r-erin" true Sample.empty))))
  /\ findRider "u-erin" (snd (createRider erin "r-erin" true Sample.empty))
     = Some (Rider.mk "r-erin" "u-erin" true).
Proof.
  intros erin.
  destruct (createRider_once erin "r-erin" true Sample.empty _ _
              (surjective_pairing _)) as [H1 [H2 _]].
  split.
  - apply H1. cbn. repeat constructor; cbn; intuition discriminate.
  - apply (H2 eq_refl).
Defined.

Lemma riderSetAvailable_twice (userId : string) (a b : bool) (w : World) :
  riderSetAvailable userId b (riderSetAvailable userId a w)
  = riderSetAvailable userId b w.
Proof.
  unfold riderSetAvailable, withRiders. cbn [riders restaurants addresses
    menuItems orders tracking emitted]. f_equal.
  rewrite map_map. apply map_ext. intros r.
  destruct (String.eqb (Rider.userId r) userId) eqn:E; cbn [Rider.userId];
    now rewrite E.
Qed.

Lemma riderSetAvailable_same (userId : string) (w : World) (rider : Rider.t) :
  NoDup (map Rider.userId (riders w)) ->
  findRider userId w = Some rider ->
  riderSetAvailable userId (Rider.isAvailable rider) w = w.
Proof.
  intros Hnd Hf. unfold riderSetAvailable, withRiders.
  destruct w as [rs ads ms rds os ts es]. cbn in *. f_equal.
  unfold findRider in Hf. cbn in Hf.
  induction rds as [|r l IH]; [reflexivity|].
  cbn [map find] in *. inversion Hnd as [|? ? Hnin Hnd']; subst.
  destruct (String.eqb (Rider.userId r) userId) eqn:E.
  - inversion Hf; subst r. f_equal.
    + now destruct rider.
    + apply String.eqb_eq in E. subst userId.
      rewrite <- (map_id l) at 2. apply map_ext_in. intros x Hx.
      destruct (String.eqb (Rider.userId x) (Rider.userId rider)) eqn:E';
        [|reflexivity].
      apply String.eqb_eq in E'. exfalso. apply Hnin. rewrite <- E'.
      now apply in_map.
  - f_equal. now apply IH.
Qed.

Lemma findRider_riderSetAvailable (userId : string) (b : bool) (w : World)
    (rider : Rider.t) :
  findRider userId w = Some rider ->
  findRider userId (riderSetAvailable userId b w)
  = Some (Rider.mk (Rider.id rider) (Rider.userId rider) b).
Proof.
  unfold findRider, riderSetAvailable, withRiders. cbn [riders].
  induction (riders w) as [|r l IH]; cbn [find map]; [discriminate|].
  destruct (String.eqb (Rider.userId r) userId) eqn:E; cbn [Rider.userId].
  - rewrite E. intros H. inversion H. reflexivity.
  - rewrite E. exact IH.
Qed.

(** X15.  Toggling the availability twice gives the store back, when the
    user ids of the profiles are distinct; a call by a user without a
    profile is answered 404 and writes nothing. *)
Theorem toggleAvailability_twice (user : User.t) (w : World) :
  NoDup (map Rider.userId (riders w)) ->
  (findRider (User.id user) w = None ->
   toggleAvailability user w
   = (RiderResponse.fail 404 "Rider profile not found", w))
  /\ (findRider (User.id user) w <> None ->
      RiderResponse.code (fst (toggleAvailability user w)) = 200
      /\ snd (toggleAvailability user (snd (toggleAvailability user w))) = w).
Proof.
  intros Hnd. unfold toggleAvailability. split.
  - intros ->. reflexivity.
  - intros Hsome.
    destruct (findRider (User.id user) w) as [rider|] eqn:E;
      [|contradiction].
    cbn [fst snd]. split; [reflexivity|].
    rewrite (findRider_riderSetAvailable _ _ _ _ E). cbn [snd Rider.isAvailable].
    rewrite riderSetAvailable_twice, negb_involutive.
    now apply riderSetAvailable_same.
Qed.

Lemma toggleAvailability_twice_witness :
  RiderResponse.code (fst (toggleAvailability Sample.carol Sample.readyW))
  = 200
  /\ snd (toggleAvailability Sample.carol
            (snd (toggleAvailability Sample.carol Sample.readyW)))
     = Sample.readyW.
Proof.
  destruct (toggleAvailability_twice Sample.carol Sample.readyW) as [_ H].
  - cbn. repeat constructor; cbn; intuition discriminate.
  - apply H. discriminate.
Defined.

(** X16.  A rider who has switched off his availability is served by
    neither dispatch route: after the toggle of an available rider, the
    search for ready orders and every claim are answered 400, and the
    claim writes nothing. *)
Theorem unavailable_rider_not_served (user : User.t) (w w1 : World)
    (res : RiderResponse.t) (rider : Rider.t) :
  findRider (User.id user) w = Some rider ->
  Rider.isAvailable rider = true ->
  toggleAvailability user w = (res, w1) ->
  (forall orderId now,
     Riders.acceptOrder user orderId now w1
     = (Response.fail 400 "Rider is not available", w1))
  /\ forall latitude longitude radius geo,
       Riders.availableOrders user latitude longitude radius geo w1
       = Riders.ListResponse.mk 400 false "Rider is not available" [].
Proof.
  intros Hr Ha H. unfold toggleAvailability in H. rewrite Hr in H.
  inversion H; subst res w1. clear H.
  pose proof (findRider_riderSetAvailable _
                (negb (Rider.isAvailable rider)) _ _ Hr) as Hf.
  rewrite Ha in *. cbn [negb] in *. split.
  - intros orderId now. unfold Riders.acceptOrder. now rewrite Hf.
  - intros latitude longitude radius geo. unfold Riders.availableOrders.
    now rewrite Hf.
Qed.

Lemma unavailable_rider_not_served_witness :
  Riders.acceptOrder Sample.carol "o-1" 5000
    (snd (toggleAvailability Sample.carol Sample.readyW))
  = (Response.fail 400 "Rider is not available",
     snd (toggleAvailability Sample.carol Sample.readyW)).
Proof.
  refine (proj1 (unavailable_rider_not_served Sample.carol Sample.readyW _ _
                   Sample.carolProfile eq_refl eq_refl
                   (surjective_pairing _)) "o-1" 5000).
Defined.

End RiderProfile.

(** ** The statistics of a rider *)

Section RiderStats.

Import Prisma RiderProfiles.

Lemma filter_length_mono {A : Type} (f g h : A -> bool) (l : list A) :
  (forall x, f x = true -> g x = true) ->
  (List.length (filter h (filter f l))
   <= List.length (filter h (filter g l)))%nat.
Proof.
  intros Hfg. induction l as [|x l IH]; [apply Nat.le_refl|].
  cbn [filter]. destruct (f x) eqn:Ef.
  - rewrite (Hfg x Ef). cbn [filter]. destruct (h x); cbn [List.length]; lia.
  - destruct (g x); [|exact IH].
    cbn [filter]. destruct (h x); cbn [List.length]; lia.
Qed.

Lemma filter_length_weaker {A : Type} (f g : A -> bool) (l : list A) :
  (forall x, f x = true -> g x = true) ->
  (List.length (filter f l) <= List.length (filter g l))%nat.
Proof.
  intros Hfg. induction l as [|x l IH]; [apply Nat.le_refl|].
  cbn [filter]. destruct (f x) eqn:Ef.
  - rewrite (Hfg x Ef). cbn [List.length]. lia.
  - destruct (g x); cbn [List.length]; lia.
Qed.

Lemma assignedSince_earlier (rider : Rider.t) (s1 s2 : Z) (o : Order.t) :
  s2 <= s1 -> assignedSince rider s1 o = true ->
  assignedSince rider s2 o = true.
Proof.
  unfold assignedSince. intros Hs H. apply andb_prop in H.
  destruct H as [H1 H2]. rewrite H1. apply Z.leb_le in H2.
  apply Z.leb_le. lia.
Qed.

Lemma stats_counts_mono (user : User.t) (p1 p2 : option string) (now : Z)
    (w : World) :
  startDate p2 now <= startDate p1 now ->
  Stats.totalDeliveries (stats user p1 now w)
  <= Stats.totalDeliveries (stats user p2 now w)
  /\ Stats.completedDeliveries (stats user p1 now w)
     <= Stats.completedDeliveries (stats user p2 now w).
Proof.
  intros Hs. unfold stats.
  destruct (findRider (User.id user) w) as [rider|]; [|cbn; lia].
  cbn [Stats.totalDeliveries Stats.completedDeliveries]. split.
  - apply Nat2Z.inj_le. apply filter_length_weaker.
    intros x. now apply assignedSince_earlier.
  - apply Nat2Z.inj_le. apply filter_length_mono.
    intros x. now apply assignedSince_earlier.
Qed.

(** X17.  In the statistics of a rider the completed deliveries are part
    of the deliveries counted, and a longer period never counts fewer of
    either: one day, seven days, thirty days. *)
Theorem stats_counts (user : User.t) (period : option string) (now : Z)
    (w : World) :
  (0 <= Stats.completedDeliveries (stats user period now w)
   <= Stats.totalDeliveries (stats user period now w))
  /\ (Stats.totalDeliveries (stats user (Some "1d") now w)
      <= Stats.totalDeliveries (stats user (Some "7d") now w)
      <= Stats.totalDeliveries (stats user (Some "30d") now w))
  /\ (Stats.completedDeliveries (stats user (Some "1d") now w)
      <= Stats.completedDeliveries (stats user (Some "7d") now w)
      <= Stats.completedDeliveries (stats user (Some "30d") now w)).
Proof.
  split.
  - unfold stats.
    destruct (findRider (User.id user) w) as [rider|]; [|cbn; lia].
    cbn [Stats.totalDeliveries Stats.completedDeliveries]. split; [lia|].
    apply Nat2Z.inj_le. apply filter_length_bound.
  - pose proof (stats_counts_mono user (Some "1d") (Some "7d") now w) as H1.
    pose proof (stats_counts_mono user (Some "7d") (Some "30d") now w) as H2.
    cbn [startDate] in H1, H2.
    destruct (H1 ltac:(lia)) as [A1 B1]. destruct (H2 ltac:(lia)) as [A2 B2].
    repeat split; assumption.
Qed.

End RiderStats.

(** ** The messages of the lifecycle and the socket rooms *)

Section Rooms.

Import Prisma Sockets.

Lemma rider_room_distinct (riderId x : string) :
  "rider_" ++ riderId <> "user_" ++ x
  /\ "rider_" ++ riderId <> "restaurant_" ++ x
  /\ "rider_" ++ riderId <> "order_" ++ x.
Proof. repeat split; cbn; intros H; discriminate H. Qed.

(** A room joined through [join_rider] is the room of no message sent to a
    customer, a restaurant or the watchers of an order. *)
Lemma rider_rooms_deaf (events : list Event) (m : Emit.t) :
  (forall e, In e events -> exists riderId, e = JoinRider riderId) ->
  (exists x, Emit.topic m = "user_" ++ x
             \/ Emit.topic m = "restaurant_" ++ x
             \/ Emit.topic m = "order_" ++ x) ->
  receives (roomsAfter events) m = false.
Proof.
  intros Hev [x Ht]. unfold receives, roomsAfter.
  apply not_true_is_false. intros H. apply includes_In in H.
  apply in_map_iff in H. destruct H as [e [He Hin]].
  destruct (Hev e Hin) as [riderId ->]. cbn [roomOf] in He.
  destruct (rider_room_distinct riderId x) as [H1 [H2 H3]].
  destruct Ht as [Ht | [Ht | Ht]]; rewrite Ht in He; congruence.
Qed.

(** X18.  The messages of the lifecycle never reach a rider's room: a
    request that fails emits nothing, a request that succeeds emits one or
    two messages, each of which either names the order in its payload or
    has no order id and goes to the room of that very order, and a socket
    that has only joined rider rooms receives none of them. *)
Theorem lifecycle_messages_skip_rider_rooms (req : Request) (now : Z)
    (w w' : World) (res : Response.t) :
  handle req now w = (res, w') ->
  exists new,
    emitted w' = (emitted w ++ new)%list
    /\ (Response.success res = false -> new = [])
    /\ (Response.success res = true -> (1 <= List.length new <= 2)%nat)
    /\ Forall (fun m => Emit.orderId m = Some (subject req)
                        \/ (Emit.orderId m = None
                            /\ Emit.topic m = "order_" ++ subject req)) new
    /\ forall events,
         (forall e, In e events -> exists riderId, e = JoinRider riderId) ->
         Forall (fun m => receives (roomsAfter events) m = false) new.
Proof.
  intros H.
  assert (Hgoal :
    exists new,
      emitted w' = (emitted w ++ new)%list
      /\ (Response.success res = false -> new = [])
      /\ (Response.success res = true -> (1 <= List.length new <= 2)%nat)
      /\ Forall (fun m => (Emit.orderId m = Some (subject req)
                           \/ (Emit.orderId m = None
                               /\ Emit.topic m = "order_" ++ subject req))
                          /\ exists x, Emit.topic m = "user_" ++ x
                                       \/ Emit.topic m = "restaurant_" ++ x
                                       \/ Emit.topic m = "order_" ++ x) new).
  { destruct req; cbn [handle subject] in H |- *;
      [ unfold Orders.createOrder in H
      | unfold Orders.updateOrderStatus in H
      | unfold Orders.cancelOrder in H
      | unfold Riders.acceptOrder in H ];
      repeat next_test H; inversion H; subst;
      try (exists []; rewrite app_nil_r;
           repeat split; try reflexivity; try discriminate; constructor);
      cbn [emitted emit emitBare withEmitted orderTrackingCreate
           withTracking orderUpdate orderCreate withOrders];
      rewrite <- ?app_assoc; eexists; (split; [reflexivity|]);
      (split; [discriminate|]); (split; [cbn; lia|]);
      repeat constructor; cbn [Emit.topic Emit.orderId];
      first [ left; reflexivity
            | right; split; reflexivity
            | eexists;
              first [ left; reflexivity
                    | right; left; reflexivity
                    | right; right; reflexivity ] ]. }
  destruct Hgoal as [new [H1 [H2 [H3 H4]]]]. exists new.
  repeat split; try assumption.
  - now apply H3.
  - now apply H3.
  - eapply Forall_impl; [|exact H4]. cbv beta. tauto.
  - intros events Hev. eapply Forall_impl; [|exact H4]. cbv beta.
    intros m [_ Hm]. now apply rider_rooms_deaf.
Qed.

End Rooms.

Section MoreWitnesses.

Import Prisma.

(** The owner confirms the sample order: both messages pass by a socket
    that has joined the rooms of the two sample riders. *)
Lemma lifecycle_messages_skip_rider_rooms_witness :
  exists new,
    emitted Sample.confirmedW = (emitted Sample.placed ++ new)%list
    /\ Forall (fun m =>
                 Sockets.receives
                   (Sockets.roomsAfter
                      [Sockets.JoinRider "r-carol"; Sockets.JoinRider "r-dave"])
                   m = false) new.
Proof.
  destruct (lifecycle_messages_skip_rider_rooms
              (UpdateOrderStatus Sample.bob "o-1" "confirmed" None) 2000
              Sample.placed Sample.confirmedW _ (surjective_pairing _))
    as [new [H1 [_ [_ [_ H2]]]]].
  exists new. split; [exact H1|]. apply H2.
  intros e [<- | [<- | []]]; eexists; reflexivity.
Defined.

End MoreWitnesses.

(** ** A successful claim *)

Section AcceptEffects.

Import Prisma Riders.

(** X19.  What a successful claim writes: the order carries the id of the
    rider's profile and keeps its status, its lifecycle timestamps, its
    lines and its amounts; the other orders and the rider profiles are
    as they were; one message goes to the customer and one to the
    restaurant. *)
Theorem acceptOrder_effects (user : User.t) (orderId : string) (now : Z)
    (w w' : World) (res : Response.t) :
  acceptOrder user orderId now w = (res, w') ->
  Response.code res = 200 ->
  exists rider order order',
    findRider (User.id user) w = Some rider
    /\ findOrder orderId w = Some order
    /\ findOrder orderId w' = Some order'
    /\ Order.riderId order' = Some (Rider.id rider)
    /\ Order.status order' = ready
    /\ sameContent order' order
    /\ (forall st, timestampOf st order' = timestampOf st order)
    /\ (forall id, id <> orderId -> findOrder id w' = findOrder id w)
    /\ riders w' = riders w
    /\ emitted w'
       = (emitted w
          ++ [Emit.mk ("user_" ++ Order.customerId order) "rider_assigned"
                (Some orderId);
              Emit.mk ("restaurant_" ++ Order.restaurantId order)
                "rider_assigned" (Some orderId)])%list.
Proof.
  intros H Hc.
  destruct (acceptOrder_inv _ _ _ _ _ _ H Hc)
    as [rider [order [Hr [_ [Ho [Hs [_ [_ Hw]]]]]]]].
  exists rider, order, (applyUpdate (claimData rider) order).
  subst w'. unfold afterAccept.
  split; [exact Hr|]. split; [exact Ho|].
  split.
  { rewrite !findOrder_emit, findOrder_orderTrackingCreate,
      findOrder_orderUpdate_same, Ho. reflexivity. }
  split; [reflexivity|]. split; [exact Hs|].
  split; [apply applyUpdate_sameContent|].
  split; [intros st; destruct st; reflexivity|].
  split.
  { intros id Hne.
    rewrite !findOrder_emit, findOrder_orderTrackingCreate.
    now apply findOrder_orderUpdate_other. }
  split; [reflexivity|].
  cbn [emitted emit withEmitted orderTrackingCreate withTracking
       orderUpdate withOrders].
  now rewrite <- app_assoc.
Qed.

Lemma acceptOrder_effects_witness :
  exists order',
    findOrder "o-1" Sample.claimedW = Some order'
    /\ Order.riderId order' = Some "r-carol"
    /\ Order.status order' = ready.
Proof.
  destruct (acceptOrder_effects Sample.carol "o-1" 5000 Sample.readyW
              Sample.claimedW _ (surjective_pairing _) eq_refl)
    as [rider [order [order' [Hr [_ [H1 [H2 [H3 _]]]]]]]].
  exists order'. split; [exact H1|]. split; [|exact H3].
  rewrite H2. vm_compute in Hr. inversion Hr. reflexivity.
Defined.

Lemma StronglySorted_firstn {A : Type} (R : A -> A -> Prop) (n : nat)
    (l : list A) :
  StronglySorted R l -> StronglySorted R (firstn n l).
Proof.
  intros H. revert n. induction H as [|x l Hs IH Hx]; intros n.
  - rewrite firstn_nil. constructor.
  - destruct n as [|n]; cbn [firstn]; constructor; [apply IH|].
    apply Forall_forall. intros y Hy. apply firstn_subset in Hy.
    rewrite Forall_forall in Hx. now apply Hx.
Qed.

Lemma StronglySorted_filter_keep {A : Type} (R : A -> A -> Prop)
    (f : A -> bool) (l : list A) :
  StronglySorted R l -> StronglySorted R (filter f l).
Proof.
  induction 1 as [|x l Hs IH Hx]; cbn [filter]; [constructor|].
  destruct (f x); [|exact IH]. constructor; [exact IH|].
  apply Forall_forall. intros y Hy. apply filter_In in Hy.
  rewrite Forall_forall in Hx. now apply Hx.
Qed.

(** X20.  The rider's search answers first come, first served: whatever
    the location and the radius, the orders are listed in ascending order
    of the time they became ready, orders without that time last. *)
Theorem availableOrders_oldest_first (user : User.t)
    (latitude longitude radius : option R) (geo : string -> Location.t)
    (w : World) :
  StronglySorted readyAtOrder
    (ListResponse.orders
       (availableOrders user latitude longitude radius geo w)).
Proof.
  unfold availableOrders.
  destruct (findRider (User.id user) w) as [rider|]; [|constructor].
  destruct (Rider.isAvailable rider); cbn [negb ListResponse.orders];
    [|constructor].
  assert (Hq : StronglySorted readyAtOrder (findReadyOrders w)).
  { unfold findReadyOrders. apply StronglySorted_firstn.
    apply sortByReadyAt_sorted. }
  destruct latitude, longitude; try exact Hq.
  now apply StronglySorted_filter_keep.
Qed.

End AcceptEffects.

(** ** Witnesses of the general lemmas *)

Section GeneralWitnesses.

Import Prisma.

(** Dave asks for the sample order after Carol's claim has gone through. *)
Lemma acceptOrder_second_refused_witness :
  Riders.acceptOrder Sample.dave "o-1" 6000 Sample.claimedW
  = (Response.fail 400 "Order has already been accepted by another rider",
     Sample.claimedW).
Proof.
  change Sample.claimedW
    with (snd (Riders.acceptOrder Sample.carol "o-1" 5000 Sample.readyW)).
  refine (acceptOrder_second_refused Sample.carol Sample.dave "o-1" 5000 6000
            Sample.readyW _ _ Sample.daveProfile (surjective_pairing _)
            eq_refl _ eq_refl eq_refl).
  intros rider Hr. vm_compute in Hr. inversion Hr. discriminate.
Defined.

(** The sample order keeps its lines and its amounts when it is marked
    delivered. *)
Lemma handle_keeps_content_witness :
  exists o o',
    findOrder "o-1" Sample.claimedW = Some o
    /\ findOrder "o-1"
         (snd (handle (UpdateOrderStatus Sample.root "o-1" "delivered" None)
                 9000 Sample.claimedW)) = Some o'
    /\ sameContent o' o.
Proof.
  destruct (findOrder "o-1" Sample.claimedW) as [o|] eqn:Ho;
    [|discriminate Ho].
  destruct (handle_keeps_content
              (UpdateOrderStatus Sample.root "o-1" "delivered" None) 9000
              Sample.claimedW _ _ "o-1" o
              (surjective_pairing _) Ho) as [o' [H1 H2]].
  exists o, o'. split; [reflexivity|]. split; assumption.
Defined.

(** The sample order confirmed at 2000 and prepared at 3000, on the store
    where it was placed at 1000. *)
Lemma serve_increasing_witness :
  increasing
    (timestampsOf "o-1"
       (serve [(UpdateOrderStatus Sample.bob "o-1" "confirmed" None, 2000);
               (UpdateOrderStatus Sample.bob "o-1" "preparing" None, 3000)]
              Sample.placed)).
Proof.
  apply (serve_increasing _ Sample.placed 1000).
  - cbn. repeat constructor; lia.
  - unfold loggedBefore. cbn. repeat constructor; cbn; lia.
  - intros orderId. unfold increasing, timestampsOf, trackingOf.
    replace (tracking Sample.placed)
      with [OrderTracking.mk "o-1" "pending" "Order placed successfully" 1000]
      by reflexivity.
    cbn [filter OrderTracking.orderId].
    destruct (String.eqb "o-1" orderId); cbn [map]; repeat constructor.
Defined.

(** Carol claims the sample order and asks to mark it picked up. *)
Lemma accept_then_status_forbidden_witness :
  Response.code
    (fst (Orders.updateOrderStatus Sample.carol "o-1" "picked_up" None 6000
            (snd (Riders.acceptOrder Sample.carol "o-1" 5000 Sample.readyW))))
  <> 200.
Proof.
  refine (accept_then_status_forbidden Sample.carol "o-1" "picked_up" None
            5000 6000 Sample.readyW _ _ Sample.carolProfile eq_refl eq_refl
            _ (surjective_pairing _) eq_refl eq_refl).
  discriminate.
Defined.

End GeneralWitnesses.

Section SearchWitness.

Import Prisma Riders.

(** Carol searches from her place, where the near restaurant is. *)
Lemma availableOrders_sound_witness :
  In SampleGeo.nearOrder
     (ListResponse.orders
        (availableOrders Sample.carol (Some SampleGeo.riderLat)
           (Some SampleGeo.riderLng) None SampleGeo.geo SampleNear.nearby))
  /\ Order.status SampleGeo.nearOrder = ready
  /\ Order.riderId SampleGeo.nearOrder = None
  /\ (distance SampleGeo.riderLat SampleGeo.riderLng SampleGeo.riderLat
               SampleGeo.riderLng <= 10)%R.
Proof.
  assert (Hin : In SampleGeo.nearOrder
                   (ListResponse.orders
                      (availableOrders Sample.carol (Some SampleGeo.riderLat)
                         (Some SampleGeo.riderLng) None SampleGeo.geo
                         SampleNear.nearby))).
  { unfold availableOrders.
    change (findRider (User.id Sample.carol) SampleNear.nearby)
      with (Some Sample.carolProfile).
    cbn [Rider.isAvailable Sample.carolProfile negb ListResponse.orders].
    change (findReadyOrders SampleNear.nearby) with [SampleGeo.nearOrder].
    cbn [filter].
    change (SampleGeo.geo (Order.restaurantId SampleGeo.nearOrder))
      with (SampleGeo.geo "rest-near").
    rewrite withinRadius_near. now left. }
  split; [exact Hin|].
  destruct (availableOrders_sound _ _ _ _ _ _ _ Hin) as [H1 [H2 H3]].
  split; [exact H1|]. split; [exact H2|].
  apply (H3 SampleGeo.riderLat SampleGeo.riderLng SampleGeo.riderLat
            SampleGeo.riderLng eq_refl eq_refl eq_refl).
  - unfold SampleGeo.riderLat. lra.
  - unfold SampleGeo.riderLng. lra.
Defined.

End SearchWitness.
